(** * sp500-scanner: valuation and technical-signal engine

    A shallow embedding of the numeric core of the repository:

    - [DiscountedCashFlow]   : [discounted_cash_flow.py]
    - [IntrinsicValue]       : [intrinsic_value.py]
    - [StockDashboard]       : [stock_dashboard.py]
    - [Sp500Scanner]         : [sp500_scanner.py]
    - [Gemi]                 : [gemi.py]
    - [EarningsCalendarSync] : [earnings_calendar_sync.py]

    [Py] and [Pandas] hold the built-ins and the series operations the
    scripts call, [Spec] the closed forms of the specification.

    Python floats are modelled by exact rationals ([Q], compared with
    [==]).  Where the source relies on the IEEE special values (the RSI
    quotient [gain / loss]) the model adds them explicitly ([xnum]).
    Elsewhere a divisor is either guarded by the code ([r - g], the share
    count, the window size) or a power of [1 + discount_rate], which
    appears unchanged on both sides of the equations proved.
    Two functions turn a float into something discrete, the digits
    printed by [format_large_number] and the label of
    [analyze_sentiment]; there every arithmetic result is rounded to the
    nearest double ([Float.binary64]), as the interpreter does.  Infinite
    and NaN inputs and the negative zero are not values of [Q].
    The data provider (yfinance) is an input of every function: what it
    returns, or the fact that it raised, is a value of the model; the
    exceptions it raises are the ones [except Exception] catches. *)

From Stdlib Require Import QArith Qabs Qpower Qround Lqa Lia ZArith List Ascii
  String Bool Arith SetoidList Morphisms.
Import ListNotations.

Local Open Scope Q_scope.

(** ** Float arithmetic where the result is printed or thresholded *)

Module Float.

(** The integer nearest to [x], ties to the even one. *)
Definition round_half_even (x : Q) : Z :=
  let f := Qfloor x in
  match Qcompare (x - inject_Z f) (1 # 2) with
  | Lt => f
  | Gt => (f + 1)%Z
  | Eq => if Z.even f then f else (f + 1)%Z
  end.

(** For [0 < x], the exponent [e] with [2^e <= x < 2^(e+1)]. *)
Definition ilog2 (x : Q) : Z :=
  let e := (Z.log2 (Qnum x) - Z.log2 (Zpos (Qden x)))%Z in
  if Qle_bool (2 ^ e) x then e else (e - 1)%Z.

(** The spacing of the doubles around [x > 0]: 53 significant bits, and
    [2^-1074] below the normal range. *)
Definition ulp (x : Q) : Q := 2 ^ (Z.max (ilog2 x) (-1022) - 52).

Definition round_positive (x : Q) : Q :=
  inject_Z (round_half_even (x / ulp x)) * ulp x.

(** The double nearest to [x], ties to the even significand: the value
    of a literal, and the rounding of every arithmetic result. *)
Definition binary64 (x : Q) : Q :=
  match Qcompare x 0 with
  | Eq => 0
  | Gt => round_positive x
  | Lt => - round_positive (- x)
  end.

(** [a + b] and [a / b] on floats. *)
Definition add (a b : Q) : Q := binary64 (a + b).
Definition div (a b : Q) : Q := binary64 (a / b).

End Float.

(** ** Python built-ins used by the scripts *)

Module Py.

(** [x ** n] for a non-negative integer exponent. *)
Definition pow (x : Q) (n : nat) : Q := x ^ Z.of_nat n.

(** [sum(xs)]: left-to-right accumulation from [0]. *)
Definition sum (xs : list Q) : Q := fold_left Qplus xs 0.

(** [enumerate(xs)]. *)
Definition enumerate {A} (xs : list A) : list (nat * A) :=
  combine (seq 0 (length xs)) xs.

(** [xs[-1]]; [None] stands for the [IndexError] on an empty list. *)
Fixpoint last_item {A} (xs : list A) : option A :=
  match xs with
  | [] => None
  | [x] => Some x
  | _ :: xs' => last_item xs'
  end.

(** A value read from a provider dictionary: a number or [None]. *)
Inductive value := PyNone | PyNum (q : Q).

(** An entry of a provider dictionary: the key may be missing. *)
Inductive entry := Absent | Present (v : value).

(** [d.get(key, default)]. *)
Definition get (e : entry) (default : value) : value :=
  match e with
  | Absent => default
  | Present v => v
  end.

(** The outcome of an attribute access on the provider object, which
    performs a network request and may raise. *)
Inductive fetched (A : Type) := Raised | Fetched (a : A).
Arguments Raised {A}.
Arguments Fetched {A} a.

(** [f"{x:,.2f}"]: the exact value of [x] rounded to two decimals, ties
    to even, the integer part in groups of three digits.  [hundredths]
    is the number shown, counted in hundredths. *)
Definition hundredths (x : Q) : Z := Float.round_half_even (x * 100).

Definition digit (n : N) : ascii := ascii_of_N (48 + n).

(** The decimal digits of [n], the last one first. *)
Fixpoint digits_rev (fuel : nat) (n : N) : list ascii :=
  match fuel with
  | O => []
  | S fuel' =>
      if (n <? 10)%N then [digit n]
      else digit (n mod 10) :: digits_rev fuel' (n / 10)
  end.

Definition digits (n : N) : list ascii :=
  digits_rev (S (N.to_nat (N.log2 n))) n.

(** A comma after every third digit, counted from the last one. *)
Fixpoint group3 (ds : list ascii) : list ascii :=
  match ds with
  | a :: b :: c :: rest =>
      match rest with
      | [] => ds
      | _ => a :: b :: c :: ","%char :: group3 rest
      end
  | _ => ds
  end.

Definition format_2f (x : Q) : string :=
  let h := Z.abs_N (hundredths x) in
  let sign := if Qle_bool 0 x then EmptyString else "-"%string in
  (sign ++ string_of_list_ascii (rev (group3 (digits (h / 100))))
   ++ "."
   ++ String (digit (h mod 100 / 10)) (String (digit (h mod 10))
                                              EmptyString))%string.

End Py.

(** The rows of the cash-flow statement the scripts look up; [None] means
    the row label is not in the statement's index, otherwise the value is
    the most recent one ([.iloc[0]]). *)
Record cashflow_table := {
  cf_empty : bool;
  row_free_cash_flow : option Q;
  row_operating_activities : option Q;
  row_capital_expenditures : option Q
}.

(** The fields of [stock.info] the scripts read. *)
Record info_dict := {
  totalCash : Py.entry;
  totalDebt : Py.entry;
  sharesOutstanding : Py.entry;
  marketCap : Py.entry
}.

(** The ways a valuation function gives up.  Each one is a [return None]
    (or a tuple of [None]s) of the source, told apart by the message that
    is printed just before it. *)
Inductive failure :=
| MissingFinancialData   (* the free cash flow could not be determined *)
| InvalidAssumption      (* the rate precondition is violated *)
| MissingShareCount      (* shares outstanding is zero or None *)
| NoDividendData         (* the dividend history is empty *)
| ProviderFailure.       (* an exception caught by [except Exception] *)

(** What a call does: it returns a value, returns the no-result sentinel
    after reporting a [failure], or lets an exception escape. *)
Inductive outcome (A : Type) :=
| Value (a : A)
| Failed (f : failure)
| Escaped.
Arguments Value {A} a.
Arguments Failed {A} f.
Arguments Escaped {A}.

(** ** discounted_cash_flow.py *)

Module DiscountedCashFlow.

Record ticker_data := {
  cashflow : Py.fetched cashflow_table;
  info : Py.fetched info_dict
}.

(** [get_free_cash_flow]: the direct row, else operating cash flow plus
    capital expenditure, else [None]; any exception gives [None]. *)
Definition get_free_cash_flow (stock : ticker_data) : option Q :=
  match cashflow stock with
  | Py.Raised => None
  | Py.Fetched cash_flow =>
      match row_free_cash_flow cash_flow with
      | Some fcf => Some fcf
      | None =>
          match row_operating_activities cash_flow,
                row_capital_expenditures cash_flow with
          | Some operating_cf, Some capex => Some (operating_cf + capex)
          | _, _ => None
          end
      end
  end.

(** One round of the projection loop, for loop index [i]. The branch
    [i <> 1] reads [projected_fcf[-1]], which exists whenever it runs. *)
Definition project_step (current_fcf g : Q) (projected_fcf : list Q)
    (i : nat) : list Q :=
  let next_fcf :=
    if Nat.eqb i 1 then current_fcf * (1 + g)
    else last projected_fcf 0 * (1 + g) in
  projected_fcf ++ [next_fcf].

(** [for i in range(1, years_to_project + 1)]. *)
Definition project_fcf (current_fcf g : Q) (years_to_project : nat)
    : list Q :=
  fold_left (project_step current_fcf g) (seq 1 years_to_project) [].

(** [pv = fcf / ((1 + discount_rate) ** (i + 1))] over [enumerate]. *)
Definition present_values (discount_rate : Q) (projected_fcf : list Q)
    : list Q :=
  map (fun '(i, fcf) => fcf / Py.pow (1 + discount_rate) (i + 1))
      (Py.enumerate projected_fcf).

Definition terminal_value (last_projected_fcf discount_rate
    terminal_growth_rate : Q) : Q :=
  (last_projected_fcf * (1 + terminal_growth_rate))
    / (discount_rate - terminal_growth_rate).

Definition pv_terminal_value (tv discount_rate : Q) (years : nat) : Q :=
  tv / Py.pow (1 + discount_rate) years.

(** [total_enterprise_value], given the last projected flow. *)
Definition total_enterprise_value (projected_fcf : list Q)
    (last_projected_fcf : Q) (years_to_project : nat)
    (discount_rate terminal_growth_rate : Q) : Q :=
  Py.sum (present_values discount_rate projected_fcf)
  + pv_terminal_value
      (terminal_value last_projected_fcf discount_rate
         terminal_growth_rate)
      discount_rate years_to_project.

(** The lines the function prints, in order. *)
Inductive printed :=
| Aborted                                   (* no current FCF *)
| Assumptions (current_fcf : Q)             (* the four header lines *)
| ProjectedFlows (projected_fcf : list Q)
| PresentValueOfExplicit (pv : Q)
| TerminalValue (tv : Q)
| PresentValueOfTerminal (pv_tv : Q)
| TotalEnterpriseValue (tev : Q)
| Summary (cash debt shares equity per_share : Q)
| ErrorMessage (f : failure).

(** Step 6: equity value and value per share.  Arithmetic on [None]
    raises [TypeError], which the enclosing [try] catches. *)
Definition per_share (stock : ticker_data) (tev : Q)
    : list printed * outcome Q :=
  match info stock with
  | Py.Raised => ([ErrorMessage ProviderFailure], Failed ProviderFailure)
  | Py.Fetched stock_info =>
      let cash := Py.get (totalCash stock_info) (Py.PyNum 0) in
      let debt := Py.get (totalDebt stock_info) (Py.PyNum 0) in
      let shares_outstanding :=
        Py.get (sharesOutstanding stock_info) Py.PyNone in
      match shares_outstanding with
      | Py.PyNone =>
          ([ErrorMessage MissingShareCount], Failed MissingShareCount)
      | Py.PyNum shares =>
          if Qeq_bool shares 0 then
            ([ErrorMessage MissingShareCount], Failed MissingShareCount)
          else
            match cash, debt with
            | Py.PyNum cash, Py.PyNum debt =>
                let equity_value := tev + cash - debt in
                let intrinsic_value_per_share := equity_value / shares in
                ([Summary cash debt shares equity_value
                    intrinsic_value_per_share],
                 Value intrinsic_value_per_share)
            | _, _ =>
                ([ErrorMessage ProviderFailure], Failed ProviderFailure)
            end
      end
  end.

(** [calculate_dcf_value].  [fcf_growth_rate_long_term] is accepted and
    never used by the source, so it is left out. *)
Definition calculate_dcf_value (stock : ticker_data)
    (years_to_project : nat)
    (fcf_growth_rate_short_term discount_rate terminal_growth_rate : Q)
    : list printed * outcome Q :=
  match get_free_cash_flow stock with
  | None => ([Aborted], Failed MissingFinancialData)
  | Some current_fcf =>
      let projected_fcf :=
        project_fcf current_fcf fcf_growth_rate_short_term
          years_to_project in
      let pv_of_explicit_fcf :=
        Py.sum (present_values discount_rate projected_fcf) in
      let out :=
        [Assumptions current_fcf; ProjectedFlows projected_fcf;
         PresentValueOfExplicit pv_of_explicit_fcf] in
      match Py.last_item projected_fcf with
      | None => (out, Escaped)                       (* IndexError *)
      | Some last_projected_fcf =>
          if Qle_bool discount_rate terminal_growth_rate then
            (out ++ [ErrorMessage InvalidAssumption],
             Failed InvalidAssumption)
          else
            let tv :=
              terminal_value last_projected_fcf discount_rate
                terminal_growth_rate in
            let pv_tv :=
              pv_terminal_value tv discount_rate years_to_project in
            let tev :=
              total_enterprise_value projected_fcf last_projected_fcf
                years_to_project discount_rate terminal_growth_rate in
            let '(out6, res) := per_share stock tev in
            (out ++ [TerminalValue tv; PresentValueOfTerminal pv_tv;
                     TotalEnterpriseValue tev] ++ out6,
             res)
      end
  end.


(** [format_large_number]. *)
Definition format_large_number (num : Q) : string :=
  if Qle_bool 1000000000000 (Qabs num) then
    (Py.format_2f (Float.div num 1000000000000) ++ "T")%string
  else if Qle_bool 1000000000 (Qabs num) then
    (Py.format_2f (Float.div num 1000000000) ++ "B")%string
  else if Qle_bool 1000000 (Qabs num) then
    (Py.format_2f (Float.div num 1000000) ++ "M")%string
  else Py.format_2f num.

(** The verdict printed by the script's main block once a value and the
    current market price are known. *)
Inductive verdict := Undervalued | Overvalued | FairlyValued.

Definition main_verdict (intrinsic_value current_price : Q) : verdict :=
  if negb (Qle_bool intrinsic_value current_price) then Undervalued
  else if negb (Qle_bool current_price intrinsic_value) then Overvalued
  else FairlyValued.

End DiscountedCashFlow.

(** ** pandas operations used by the scripts *)

Module Pandas.

(** One row of a price history: the index label and the columns read. *)
Record bar := {
  Date : Z;
  High : Q;
  Low : Q;
  Close : Q
}.

Definition frame := list bar.

(** [Series.rolling(window).mean()]: undefined ([None], pandas' NaN)
    until [window] samples are available, then the mean of the last
    [window] samples.  A window of [0] never has an observation. *)
Definition window_at (window : nat) (xs : list Q) (t : nat) : list Q :=
  firstn window (skipn (t + 1 - window) xs).

Definition rolling_mean_at (window : nat) (xs : list Q) (t : nat)
    : option Q :=
  if (window =? 0)%nat then None
  else if (t + 1 <? window)%nat then None
  else Some (Py.sum (window_at window xs t) / inject_Z (Z.of_nat window)).

Definition rolling_mean (window : nat) (xs : list Q) : list (option Q) :=
  map (rolling_mean_at window xs) (seq 0 (length xs)).

(** [Series.shift(1)]: same length, first entry undefined. *)
Definition shift1 {A} (xs : list (option A)) : list (option A) :=
  match xs with
  | [] => []
  | _ => None :: removelast xs
  end.

(** [Series.diff()]: first entry undefined. *)
Fixpoint diff_from (prev : Q) (xs : list Q) : list (option Q) :=
  match xs with
  | [] => []
  | x :: rest => Some (x - prev) :: diff_from x rest
  end.

Definition diff (xs : list Q) : list (option Q) :=
  match xs with
  | [] => []
  | x :: rest => None :: diff_from x rest
  end.

(** Elementwise comparisons; a comparison with NaN is [False]. *)
Definition gt (a b : option Q) : bool :=
  match a, b with
  | Some x, Some y => negb (Qle_bool x y)
  | _, _ => false
  end.

Definition le (a b : option Q) : bool :=
  match a, b with
  | Some x, Some y => Qle_bool x y
  | _, _ => false
  end.

Definition lt (a b : option Q) : bool :=
  match a, b with
  | Some x, Some y => negb (Qle_bool y x)
  | _, _ => false
  end.

(** [Series.max()] and [Series.min()]; NaN ([None]) on an empty series. *)
Definition qmax (a b : Q) : Q := if Qle_bool a b then b else a.
Definition qmin (a b : Q) : Q := if Qle_bool a b then a else b.

Definition series_max (xs : list Q) : option Q :=
  match xs with
  | [] => None
  | x :: rest => Some (fold_left qmax rest x)
  end.

Definition series_min (xs : list Q) : option Q :=
  match xs with
  | [] => None
  | x :: rest => Some (fold_left qmin rest x)
  end.

(** Float results that may be infinite or NaN.  Finite values are exact;
    the sign of a zero is not tracked, a zero divisor counts as [+0]. *)
Inductive xnum := Fin (q : Q) | Inf (negative : bool) | NaN.

Definition of_option (o : option Q) : xnum :=
  match o with
  | Some q => Fin q
  | None => NaN
  end.

Definition is_neg (q : Q) : bool := negb (Qle_bool 0 q).

Definition xadd (a b : xnum) : xnum :=
  match a, b with
  | Fin x, Fin y => Fin (x + y)
  | Fin _, Inf s | Inf s, Fin _ => Inf s
  | Inf s, Inf s' => if Bool.eqb s s' then Inf s else NaN
  | _, _ => NaN
  end.

Definition xneg (a : xnum) : xnum :=
  match a with
  | Fin x => Fin (- x)
  | Inf s => Inf (negb s)
  | NaN => NaN
  end.

Definition xsub (a b : xnum) : xnum := xadd a (xneg b).

Definition xdiv (a b : xnum) : xnum :=
  match a, b with
  | Fin x, Fin y =>
      if Qeq_bool y 0 then
        if Qeq_bool x 0 then NaN else Inf (is_neg x)
      else Fin (x / y)
  | Fin _, Inf _ => Fin 0
  | Inf s, Fin y => Inf (xorb s (is_neg y))
  | _, _ => NaN
  end.

(** Equality of float results up to the representation of rationals. *)
Definition xeq (a b : xnum) : Prop :=
  match a, b with
  | Fin x, Fin y => x == y
  | Inf s, Inf s' => s = s'
  | NaN, NaN => True
  | _, _ => False
  end.


(** Comparisons of float results with a finite number; NaN compares
    false. *)
Definition xlt (a : xnum) (b : Q) : bool :=
  match a with
  | Fin x => negb (Qle_bool b x)
  | Inf negative => negative
  | NaN => false
  end.

Definition xgt (a : xnum) (b : Q) : bool :=
  match a with
  | Fin x => negb (Qle_bool x b)
  | Inf negative => negb negative
  | NaN => false
  end.

End Pandas.

(** ** intrinsic_value.py *)

Module IntrinsicValue.

(** [stock.dividends]: the dividend amounts, oldest first. *)
Record ticker_data := {
  dividends : Py.fetched (list Q)
}.

(** [calculate_intrinsic_value] (Gordon growth). *)
Definition calculate_intrinsic_value (stock : ticker_data)
    (growth_rate required_rate_of_return : Q) : outcome Q :=
  match dividends stock with
  | Py.Raised => Failed ProviderFailure
  | Py.Fetched dividends =>
      match Py.last_item dividends with
      | None => Failed NoDividendData              (* dividends.empty *)
      | Some latest_dividend =>
          if Qle_bool required_rate_of_return growth_rate then
            Failed InvalidAssumption
          else
            Value (latest_dividend * (1 + growth_rate)
                   / (required_rate_of_return - growth_rate))
      end
  end.

End IntrinsicValue.

(** ** stock_dashboard.py *)

Module StockDashboard.

Record ticker_data := {
  cashflow : Py.fetched cashflow_table;
  info : Py.fetched info_dict;
  dividends : Py.fetched (list Q)
}.

(** [get_free_cash_flow]. *)
Definition get_free_cash_flow (stock : ticker_data) : option Q :=
  match cashflow stock with
  | Py.Raised => None
  | Py.Fetched cash_flow =>
      if cf_empty cash_flow then None
      else
        match row_free_cash_flow cash_flow with
        | Some fcf => Some fcf
        | None =>
            match row_operating_activities cash_flow,
                  row_capital_expenditures cash_flow with
            | Some operating_cf, Some capex => Some (operating_cf + capex)
            | _, _ => None
            end
        end
  end.

(** [[free_cash_flow * (1 + growth_rate) ** i for i in years]]; the
    source takes [years = range(1, 6)]. *)
Definition future_fcf_over (years : list nat) (free_cash_flow
    growth_rate : Q) : list Q :=
  map (fun i => free_cash_flow * Py.pow (1 + growth_rate) i) years.

Definition future_fcf (free_cash_flow growth_rate : Q) : list Q :=
  future_fcf_over (seq 1 5) free_cash_flow growth_rate.

Definition terminal_value (last_fcf discount_rate terminal_growth_rate : Q)
    : Q :=
  (last_fcf * (1 + terminal_growth_rate))
    / (discount_rate - terminal_growth_rate).

Definition discounted_fcf (discount_rate : Q) (future_fcf : list Q)
    : list Q :=
  map (fun '(i, fcf) => fcf / Py.pow (1 + discount_rate) (i + 1))
      (Py.enumerate future_fcf).

Definition enterprise_value (future_fcf : list Q)
    (terminal_value discount_rate : Q) : Q :=
  Py.sum (discounted_fcf discount_rate future_fcf)
  + terminal_value / Py.pow (1 + discount_rate) 5.

(** [perform_dcf_analysis]; the result is the triple
    [(intrinsic_value, future_fcf, terminal_value)]. *)
Definition perform_dcf_analysis (stock : ticker_data)
    (growth_rate discount_rate terminal_growth_rate : Q)
    : outcome (Q * list Q * Q) :=
  if Qle_bool discount_rate terminal_growth_rate then
    Failed InvalidAssumption
  else
    match get_free_cash_flow stock with
    | None => Failed MissingFinancialData
    | Some free_cash_flow =>
        let future_fcf := future_fcf free_cash_flow growth_rate in
        match Py.last_item future_fcf with
        | None => Failed ProviderFailure          (* unreachable *)
        | Some last_fcf =>
            let terminal_value :=
              terminal_value last_fcf discount_rate
                terminal_growth_rate in
            let enterprise_value :=
              enterprise_value future_fcf terminal_value discount_rate in
            match info stock with
            | Py.Raised => Failed ProviderFailure
            | Py.Fetched stock_info =>
                let total_debt :=
                  Py.get (totalDebt stock_info) (Py.PyNum 0) in
                let cash_and_equivalents :=
                  Py.get (totalCash stock_info) (Py.PyNum 0) in
                let shares_outstanding :=
                  Py.get (sharesOutstanding stock_info) (Py.PyNum 1) in
                let shares_is_zero :=
                  match shares_outstanding with
                  | Py.PyNum shares => Qeq_bool shares 0
                  | Py.PyNone => false
                  end in
                if shares_is_zero then Failed MissingShareCount
                else
                  match total_debt, cash_and_equivalents,
                        shares_outstanding with
                  | Py.PyNum total_debt, Py.PyNum cash_and_equivalents,
                    Py.PyNum shares =>
                      let equity_value :=
                        enterprise_value - total_debt
                        + cash_and_equivalents in
                      Value (equity_value / shares, future_fcf,
                             terminal_value)
                  | _, _, _ => Failed ProviderFailure     (* TypeError *)
                  end
            end
        end
    end.

(** [calculate_ddm_value]. *)
Definition calculate_ddm_value (stock : ticker_data)
    (growth_rate required_return : Q) : outcome Q :=
  match dividends stock with
  | Py.Raised => Failed ProviderFailure
  | Py.Fetched dividends =>
      match Py.last_item dividends with
      | None => Failed NoDividendData
      | Some latest_dividend =>
          if Qle_bool required_return growth_rate then
            Failed InvalidAssumption
          else
            Value (latest_dividend * (1 + growth_rate)
                   / (required_return - growth_rate))
      end
  end.

(** [calculate_rsi]: the whole RSI series. *)
Definition gain_terms (delta : list (option Q)) : list Q :=
  map (fun d => if Pandas.gt d (Some 0) then
                  match d with Some x => x | None => 0 end
                else 0) delta.

Definition loss_terms (delta : list (option Q)) : list Q :=
  map (fun d => - (if Pandas.lt d (Some 0) then
                     match d with Some x => x | None => 0 end
                   else 0)) delta.

(** [100 - (100 / (1 + rs))]. *)
Definition rsi_of_rs (rs : Pandas.xnum) : Pandas.xnum :=
  Pandas.xsub (Pandas.Fin 100)
    (Pandas.xdiv (Pandas.Fin 100) (Pandas.xadd (Pandas.Fin 1) rs)).

(** [rs = gain / loss] at one position. *)
Definition rsi_of (gain loss : option Q) : Pandas.xnum :=
  rsi_of_rs
    (Pandas.xdiv (Pandas.of_option gain) (Pandas.of_option loss)).

Definition calculate_rsi (data : Pandas.frame) (window : nat)
    : list Pandas.xnum :=
  let delta := Pandas.diff (map Pandas.Close data) in
  let gain := Pandas.rolling_mean window (gain_terms delta) in
  let loss := Pandas.rolling_mean window (loss_terms delta) in
  map (fun '(g, l) => rsi_of g l) (combine gain loss).

(** [calculate_fibonacci_levels]: the dictionary in insertion order.
    On an empty frame [max()] and [min()] are NaN and so is every
    level; that case is [None]. *)
Definition calculate_fibonacci_levels (data : Pandas.frame)
    : option (list (string * Q)) :=
  match Pandas.series_max (map Pandas.High data),
        Pandas.series_min (map Pandas.Low data) with
  | Some max_price, Some min_price =>
      let diff := max_price - min_price in
      Some [ ("0% (High)"%string, max_price);
             ("23.6%"%string, max_price - (236 # 1000) * diff);
             ("38.2%"%string, max_price - (382 # 1000) * diff);
             ("50%"%string, max_price - (5 # 10) * diff);
             ("61.8%"%string, max_price - (618 # 1000) * diff);
             ("100% (Low)"%string, min_price) ]
  | _, _ => None
  end.

(** [min(items, key=...)]: the first item whose key is minimal. *)
Definition min_by {A} (key : A -> Q) (first : A) (rest : list A) : A :=
  fold_left (fun best item =>
               if negb (Qle_bool (key best) (key item)) then item
               else best)
            rest first.

(** [min(fib_levels.items(), key=lambda x: abs(x[1] - current_price))];
    [min] of an empty sequence raises, which is [None] here. *)
Definition closest_level (fib_levels : list (string * Q))
    (current_price : Q) : option (string * Q) :=
  match fib_levels with
  | [] => None
  | first :: rest =>
      Some (min_by (fun x => Qabs (snd x - current_price)) first rest)
  end.


(** [format_large_number]: as in [discounted_cash_flow.py], with [None]
    shown as "N/A". *)
Definition format_large_number (num : Py.value) : string :=
  match num with
  | Py.PyNone => "N/A"%string
  | Py.PyNum num =>
      if Qle_bool 1000000000000 (Qabs num) then
        (Py.format_2f (Float.div num 1000000000000) ++ "T")%string
      else if Qle_bool 1000000000 (Qabs num) then
        (Py.format_2f (Float.div num 1000000000) ++ "B")%string
      else if Qle_bool 1000000 (Qabs num) then
        (Py.format_2f (Float.div num 1000000) ++ "M")%string
      else Py.format_2f num
  end.

(** A news item is a dictionary.  Its title is under ['content'] when that
    key is present and directly under ['title'] otherwise; [.get] gives
    [''] for a missing key. *)
Inductive title_value :=
| TitleMissing                              (* no 'title' key *)
| TitleNone                                 (* the value [None] *)
| TitleText (s : string).

Inductive news_item :=
| Nested (content : option title_value)     (* [None]: not a dictionary *)
| Flat (title : title_value).

(** The title read from an item; the outer [None] is the
    [AttributeError] of [item['content'].get] on a value without
    [.get]. *)
Definition read_title (item : news_item) : option title_value :=
  match item with
  | Nested content => content
  | Flat title => Some title
  end.

(** [if title:]: a non-empty text. *)
Definition truthy_title (title : title_value) : option string :=
  match title with
  | TitleText EmptyString => None
  | TitleText s => Some s
  | _ => None
  end.

Inductive sentiment := Positive | Negative | Neutral.

(** The loop of [analyze_sentiment] over [polarity_sum] and [count];
    [polarity] stands for [TextBlob(title).sentiment.polarity].  The sum
    and the average are float operations: each result is rounded to a
    double. *)
Fixpoint accumulate_polarity (polarity : string -> Q)
    (news_items : list news_item) (polarity_sum : Q) (count : nat)
    : option (Q * nat) :=
  match news_items with
  | [] => Some (polarity_sum, count)
  | item :: rest =>
      match read_title item with
      | None => None
      | Some title =>
          match truthy_title title with
          | Some text =>
              accumulate_polarity polarity rest
                (Float.add polarity_sum (polarity text)) (S count)
          | None => accumulate_polarity polarity rest polarity_sum count
          end
      end
  end.

(** The thresholds are the doubles the literals [0.1] and [-0.1] stand
    for. *)
Definition classify (avg_polarity : Q) : sentiment :=
  if negb (Qle_bool avg_polarity (Float.binary64 (1 # 10))) then Positive
  else if negb (Qle_bool (- Float.binary64 (1 # 10)) avg_polarity)
  then Negative
  else Neutral.

(** [analyze_sentiment]. *)
Definition analyze_sentiment (polarity : string -> Q)
    (news_items : list news_item) : outcome (Q * sentiment) :=
  match news_items with
  | [] => Value (0, Neutral)
  | _ =>
      match accumulate_polarity polarity news_items 0 0 with
      | None => Escaped
      | Some (polarity_sum, count) =>
          if (count =? 0)%nat then Value (0, Neutral)
          else
            let avg_polarity :=
              Float.div polarity_sum (inject_Z (Z.of_nat count)) in
            Value (avg_polarity, classify avg_polarity)
      end
  end.

(** What the valuation tab shows for a model: [if value:] is false for
    [None] and for [0.0]. *)
Inductive valuation_display := ShowUndervalued | ShowOvervalued | ShowNothing.

Definition display_value (value : option Q) (current_price : Q)
    : valuation_display :=
  match value with
  | None => ShowNothing
  | Some v =>
      if Qeq_bool v 0 then ShowNothing
      else if negb (Qle_bool v current_price) then ShowUndervalued
      else ShowOvervalued
  end.

Definition dcf_display (stock : ticker_data)
    (dcf_growth dcf_discount dcf_terminal current_price : Q)
    : valuation_display :=
  let dcf_val :=
    match perform_dcf_analysis stock dcf_growth dcf_discount
            dcf_terminal with
    | Value (intrinsic_value, _, _) => Some intrinsic_value
    | _ => None
    end in
  display_value dcf_val current_price.

Definition ddm_display (stock : ticker_data)
    (ddm_growth ddm_return current_price : Q) : valuation_display :=
  let ddm_val :=
    match calculate_ddm_value stock ddm_growth ddm_return with
    | Value intrinsic_value => Some intrinsic_value
    | _ => None
    end in
  display_value ddm_val current_price.

(** The technicals tab. *)
Inductive ma_signal := GoldenCross | DeathCross | MaNeutral.
Inductive rsi_signal := Oversold | Overbought | RsiNeutral.

Record technicals := {
  moving_averages : ma_signal;
  rsi : rsi_signal;
  nearest_level : string * Q;
  trading_above : bool
}.

(** [hist[-252:]]. *)
Definition last_rows (n : nat) (hist : Pandas.frame) : Pandas.frame :=
  skipn (length hist - n) hist.

(** [None] is the warning "Not enough historical data"; with 200 rows
    or more every [.iloc[-1]] and the [min] over the levels exist, so
    the inner [None]s are never reached. *)
Definition technical_signals (hist : Pandas.frame) (current_price : Q)
    : option technicals :=
  if (length hist <? 200)%nat then None
  else
    let sma_50 := Pandas.rolling_mean 50 (map Pandas.Close hist) in
    let sma_200 := Pandas.rolling_mean 200 (map Pandas.Close hist) in
    let rsi_series := calculate_rsi hist 14 in
    match Py.last_item sma_50, Py.last_item sma_200,
          Py.last_item rsi_series,
          calculate_fibonacci_levels (last_rows 252 hist) with
    | Some current_sma_50, Some current_sma_200, Some current_rsi,
      Some fib_levels =>
        match closest_level fib_levels current_price with
        | Some closest =>
            Some {| moving_averages :=
                      if Pandas.gt current_sma_50 current_sma_200
                      then GoldenCross
                      else if Pandas.lt current_sma_50 current_sma_200
                      then DeathCross
                      else MaNeutral;
                    rsi :=
                      if Pandas.xlt current_rsi 30 then Oversold
                      else if Pandas.xgt current_rsi 70 then Overbought
                      else RsiNeutral;
                    nearest_level := closest;
                    trading_above :=
                      negb (Qle_bool current_price (snd closest)) |}
        | None => None
        end
    | _, _, _, _ => None
    end.

End StockDashboard.

(** ** sp500_scanner.py *)

Module Sp500Scanner.

(** [calculate_golden_cross].  The mask is computed for every position
    of the frame; the cross date is the index label of the last
    position where it holds. *)
Definition cross_mask (sma50 sma200 : list (option Q)) : list bool :=
  let prev_sma50 := Pandas.shift1 sma50 in
  let prev_sma200 := Pandas.shift1 sma200 in
  map (fun '((s, l), (ps, pl)) => Pandas.gt s l && Pandas.le ps pl)
      (combine (combine sma50 sma200) (combine prev_sma50 prev_sma200)).

(** [df.index[mask]]. *)
Definition select_index (df : Pandas.frame) (mask : list bool) : list Z :=
  map (fun '(row, _) => Pandas.Date row)
      (filter snd (combine df mask)).

Definition calculate_golden_cross (df : option Pandas.frame)
    (short_window long_window : nat) : option Z * option bool :=
  match df with
  | None => (None, None)
  | Some df =>
      if (length df <? long_window)%nat then (None, None)
      else
        let sma50 :=
          Pandas.rolling_mean short_window (map Pandas.Close df) in
        let sma200 :=
          Pandas.rolling_mean long_window (map Pandas.Close df) in
        let cross_dates := select_index df (cross_mask sma50 sma200) in
        let cross_date := Py.last_item cross_dates in
        let is_bullish :=
          match Py.last_item sma50, Py.last_item sma200 with
          | Some s, Some l => Pandas.gt s l
          | _, _ => false
          end in
        (cross_date, Some is_bullish)
  end.

(** What the provider answers for one ticker.  [history] returns a
    frame, possibly empty. *)
Record ticker_data := {
  info : Py.fetched info_dict;
  history_2y : Py.fetched (option Pandas.frame);
  history_1mo_1h : Py.fetched (option Pandas.frame)
}.

(** One row of the report; a date that is missing prints as "N/A". *)
Record row := {
  Ticker : string;
  Name : string;
  MarketCap : option Py.value;               (* [None]: the text "N/A" *)
  DailyGoldenCrossDate : option Z;
  Status : bool;                             (* [true]: "Bullish" *)
  HourlyGoldenCrossDate : option Z
}.

Section Scan.

(** The provider, and the ticker-to-name dictionary from Wikipedia. *)
Variable provider : string -> ticker_data.
Variable security_names : string -> option string.

(** [process_ticker]: [None] when anything in the body raised. *)
Definition process_ticker (ticker : string) : option row :=
  let stock := provider ticker in
  match info stock with
  | Py.Raised => None
  | Py.Fetched stock_info =>
      let market_cap :=
        match marketCap stock_info with
        | Py.Absent => None
        | Py.Present v => Some v
        end in
      match history_2y stock with
      | Py.Raised => None
      | Py.Fetched hist_daily =>
          let '(cross_date, is_bullish) :=
            calculate_golden_cross hist_daily 50 200 in
          let bullish :=
            match is_bullish with Some b => b | None => false end in
          let finish hourly :=
            Some {| Ticker := ticker;
                    Name := match security_names ticker with
                            | Some n => n
                            | None => ticker
                            end;
                    MarketCap := market_cap;
                    DailyGoldenCrossDate := cross_date;
                    Status := bullish;
                    HourlyGoldenCrossDate := hourly |} in
          if bullish then
            match history_1mo_1h stock with
            | Py.Raised => None
            | Py.Fetched hist_hourly =>
                finish (fst (calculate_golden_cross hist_hourly 50 200))
            end
          else finish None
      end
  end.

(** The collection loop of [main]: the futures are read in submission
    order and every non-[None] result is appended. *)
Definition collect (results : list row) (res : option row) : list row :=
  match res with
  | Some r => results ++ [r]
  | None => results
  end.

Definition scan (tickers : list string) : list row :=
  fold_left collect (map process_ticker tickers) [].

(** Whether the body of [process_ticker] returned a row. *)
Definition succeeded (ticker : string) : bool :=
  match process_ticker ticker with
  | Some _ => true
  | None => false
  end.

(** The provider calls that [process_ticker] makes for a ticker, and
    whether one of them raises: [info], the daily history, and the
    hourly history, which is requested only for a bullish ticker. *)
Definition fetch_raises (ticker : string) : Prop :=
  let stock := provider ticker in
  info stock = Py.Raised
  \/ history_2y stock = Py.Raised
  \/ (exists hist_daily,
        history_2y stock = Py.Fetched hist_daily
        /\ snd (calculate_golden_cross hist_daily 50 200) = Some true
        /\ history_1mo_1h stock = Py.Raised).

End Scan.


(** One row of the Wikipedia table of S&P 500 companies. *)
Record company := {
  Symbol : string;
  Security : string
}.

(** [str.replace('.', '-', regex=False)]. *)
Fixpoint replace_dot (s : string) : string :=
  match s with
  | EmptyString => EmptyString
  | String c rest =>
      String (if Ascii.eqb c "."%char then "-"%char else c)
             (replace_dot rest)
  end.

(** [dict(pairs)] read with [.get]: the pair inserted last for a key is
    the one found. *)
Fixpoint dict_get (pairs : list (string * string)) (key : string)
    : option string :=
  match pairs with
  | [] => None
  | (k, v) :: rest =>
      match dict_get rest key with
      | Some later => Some later
      | None => if String.eqb k key then Some v else None
      end
  end.

(** [get_sp500_tickers_with_info]: the tickers and the pairs of the name
    dictionary; [([], {})] when reading the table raised. *)
Definition get_sp500_tickers_with_info
    (table : Py.fetched (list company))
    : list string * list (string * string) :=
  match table with
  | Py.Raised => ([], [])
  | Py.Fetched df =>
      let tickers := map (fun r => replace_dot (Symbol r)) df in
      (tickers, combine tickers (map Security df))
  end.

(** [main] up to the result list: [None] is the early return after
    "No tickers found." *)
Definition main_results (table : Py.fetched (list company))
    (provider : string -> ticker_data) : option (list row) :=
  let '(tickers, security_names) := get_sp500_tickers_with_info table in
  match tickers with
  | [] => None
  | _ => Some (scan provider (dict_get security_names) tickers)
  end.

End Sp500Scanner.

(** ** gemi.py *)

Module Gemi.

(** [get_stock_news]: canned headlines for three tickers; for any other
    ticker a single line (two adjacent literals, hence no space after the
    full stop). *)
Definition get_stock_news (ticker : string) : list string :=
  if String.eqb ticker "GOOGL" then
    [ "Google announces record Q4 earnings, beating analyst expectations.";
      "Antitrust concerns raised again regarding Google's advertising practices.";
      "New AI division launched by Google, investing heavily in generative AI research.";
      "Google Cloud expands partnership with major enterprise client."
    ]%string
  else if String.eqb ticker "AAPL" then
    [ "Apple's new Vision Pro headset receives mixed reviews on launch.";
      "Supply chain disruptions expected to impact iPhone production in Q1.";
      "Apple Services revenue continues strong growth, offsetting hardware slowdowns.";
      "Apple acquires a small AI startup specializing in privacy-focused machine learning."
    ]%string
  else if String.eqb ticker "MSFT" then
    [ "Microsoft posts strong Azure cloud growth in latest earnings report.";
      "New gaming studio acquisition boosts Xbox content pipeline.";
      "Regulatory scrutiny on Activision Blizzard acquisition continues.";
      "Microsoft details new generative AI features coming to Office suite."
    ]%string
  else
    [ ("No specific dummy news found for " ++ ticker ++ "."
       ++ "Consider fetching real-time news from a financial news API for a robust analysis.")%string ].

(** [needle in text]. *)
Fixpoint contains (needle text : string) : bool :=
  String.prefix needle text
  || match text with
     | EmptyString => false
     | String _ rest => contains needle rest
     end.

(** ["\n".join(lines)]. *)
Definition newline : string := String (ascii_of_nat 10) EmptyString.

Fixpoint join_lines (lines : list string) : string :=
  match lines with
  | [] => EmptyString
  | [line] => line
  | line :: rest => (line ++ newline ++ join_lines rest)%string
  end.

(** The prompt, a triple-quoted f-string indented by four spaces. *)
Definition prompt (ticker combined_news : string) : string :=
  (newline
   ++ "    Analyze the following recent news articles for the stock ticker "
   ++ ticker ++ "." ++ newline
   ++ "    Provide a concise summary of the key developments, identify potential positive impacts,"
   ++ newline
   ++ "    and potential negative impacts on the stock price or company's future prospects."
   ++ newline ++ newline
   ++ "    News Articles for " ++ ticker ++ ":" ++ newline
   ++ "    " ++ combined_news ++ newline ++ newline
   ++ "    Analysis for " ++ ticker ++ ":" ++ newline
   ++ "    ")%string.

(** What [model.generate_content(prompt)] and the reading of
    [response.text] come to: an exception with its message, a response
    that is false or has an empty text, or a text. *)
Inductive response :=
| ApiError (message : string)
| EmptyResponse
| Text (text : string).

(** [analyze_stock_with_gemini]: the prompts sent to the model and the
    text returned. *)
Definition analyze_stock_with_gemini
    (generate_content : string -> response) (ticker : string)
    : list string * string :=
  let news_articles := get_stock_news ticker in
  let insufficient :=
    match news_articles with
    | [] => true
    | [only] => contains "No specific dummy news found" only
    | _ => false
    end in
  if insufficient then
    ([], ("Could not retrieve sufficient news for " ++ ticker
          ++ " to perform analysis.")%string)
  else
    let sent := prompt ticker (join_lines news_articles) in
    ([sent],
     match generate_content sent with
     | Text EmptyString | EmptyResponse =>
         ("Gemini returned an empty response for " ++ ticker
          ++ " analysis.")%string
     | Text text => text
     | ApiError message =>
         ("An error occurred while calling the Gemini API for " ++ ticker
          ++ ": " ++ message)%string
     end).

End Gemi.

(** ** earnings_calendar_sync.py *)

Module EarningsCalendarSync.

Definition TICKERS : list string :=
  ["GOOG"; "MSFT"; "AAPL"; "AMZN"; "NVDA"; "TSLA"]%string.

(** A calendar event: its summary and its start; it ends one hour (3600
    seconds) later.  Times are seconds. *)
Record event := {
  summary : string;
  start : Z
}.

Section Sync.

(** The calendar service is a state of its own with two requests: the
    search for events with a summary in a time span, which may raise,
    and the insertion of an event, which gives the next state and
    whether it succeeded. *)
Variable calendar : Type.
Variable list_events :
  calendar -> string -> Z -> Z -> Py.fetched (list event).
Variable insert_event : calendar -> event -> calendar * bool.

(** [stock.earnings_dates] (the index, in the provider's order), the
    clock read for a ticker, and the conversion of an earnings date to
    16:15 local time of that day. *)
Variable earnings_dates : string -> Py.fetched (list Z).
Variable now : string -> Z.
Variable event_time : Z -> Z.

(** The loop over the dates of one ticker: the calendar reached and the
    events created.  A request that raises ends the work on the ticker. *)
Fixpoint sync_dates (ticker : string) (dates : list Z) (cal : calendar)
    (created : list event) : calendar * list event :=
  match dates with
  | [] => (cal, created)
  | earnings_date :: rest =>
      let event_datetime_local := event_time earnings_date in
      let event_summary := (ticker ++ " Earnings (Est.)")%string in
      match list_events cal event_summary event_datetime_local
              (event_datetime_local + 3600) with
      | Py.Raised => (cal, created)
      | Py.Fetched [] =>
          let ev := {| summary := event_summary;
                       start := event_datetime_local |} in
          let '(cal', ok) := insert_event cal ev in
          if ok then sync_dates ticker rest cal' (created ++ [ev])
          else (cal', created)
      | Py.Fetched _ => sync_dates ticker rest cal created
      end
  end.

(** The body of the loop over the tickers. *)
Definition sync_ticker (ticker : string) (cal : calendar)
    : calendar * list event :=
  match earnings_dates ticker with
  | Py.Raised => (cal, [])
  | Py.Fetched earnings_history =>
      let future_earnings :=
        filter (fun d => (now ticker <? d)%Z) earnings_history in
      sync_dates ticker (firstn 4 future_earnings) cal []
  end.

(** [sync_earnings_to_calendar], given the authenticated service. *)
Definition sync_earnings_to_calendar (cal : calendar)
    : calendar * list event :=
  fold_left
    (fun '(cal, created) ticker =>
       let '(cal', more) := sync_ticker ticker cal in
       (cal', created ++ more))
    TICKERS (cal, []).

End Sync.

End EarningsCalendarSync.

(** ** The closed forms of the specification

    These definitions follow the wording of the specification, not the
    code; the theorems below compare the code with them. *)

Module Spec.

(** [fcf[i] = current_fcf * (1 + g)^(i+1)], for [i] from [0]. *)
Definition fcf (current_fcf g : Q) (i : nat) : Q :=
  current_fcf * Py.pow (1 + g) (i + 1).

(** [pv[i] = fcf[i] / (1 + r)^(i+1)]. *)
Definition pv (current_fcf g r : Q) (i : nat) : Q :=
  fcf current_fcf g i / Py.pow (1 + r) (i + 1).

(** [f 0 + ... + f (n-1)]. *)
Fixpoint sum_upto (n : nat) (f : nat -> Q) : Q :=
  match n with
  | O => 0
  | S k => sum_upto k f + f k
  end.

(** [fcf[years-1] * (1 + tg) / (r - tg)]. *)
Definition terminal_value (current_fcf g r tg : Q) (years : nat) : Q :=
  fcf current_fcf g (years - 1) * (1 + tg) / (r - tg).

(** Discounted explicit flows plus discounted terminal value. *)
Definition enterprise_value (current_fcf g r tg : Q) (years : nat) : Q :=
  sum_upto years (pv current_fcf g r)
  + terminal_value current_fcf g r tg years / Py.pow (1 + r) years.

(** [(enterprise value + cash - debt) / shares outstanding]. *)
Definition intrinsic_value (current_fcf g r tg : Q) (years : nat)
    (cash debt shares : Q) : Q :=
  (enterprise_value current_fcf g r tg years + cash - debt) / shares.

(** The Gordon-growth value [d * (1 + g) / (r - g)]. *)
Definition ddm (d g r : Q) : Q := d * (1 + g) / (r - g).

(** [m] is the greatest (least) value of a series. *)
Definition is_max (m : Q) (xs : list Q) : Prop :=
  In m xs /\ forall y, In y xs -> y <= m.

Definition is_min (m : Q) (xs : list Q) : Prop :=
  In m xs /\ forall y, In y xs -> m <= y.

(** A cross at sample [t]: [short_MA[t] > long_MA[t]] and
    [short_MA[t-1] <= long_MA[t-1]].  Both averages have to be defined
    at both samples, so there is no cross at the first sample. *)
Definition crosses (short_MA long_MA : nat -> option Q) (t : nat)
    : Prop :=
  exists s l ps pl : Q,
    (1 <= t)%nat
    /\ short_MA t = Some s /\ long_MA t = Some l
    /\ short_MA (t - 1)%nat = Some ps /\ long_MA (t - 1)%nat = Some pl
    /\ l < s /\ ps <= pl.

(** [t] is the most recent cross among the first [n] samples. *)
Definition last_cross (short_MA long_MA : nat -> option Q) (n t : nat)
    : Prop :=
  (t < n)%nat
  /\ crosses short_MA long_MA t
  /\ forall t', (t < t')%nat -> (t' < n)%nat ->
                ~ crosses short_MA long_MA t'.



End Spec.

(** ** Auxiliary functions *)

(** The rows a result of [process_ticker] adds to the table. *)
Definition rows_of (res : option Sp500Scanner.row)
    : list Sp500Scanner.row :=
  match res with
  | Some r => [r]
  | None => []
  end.

(** The series [f] shifted by one position, as a function of the
    position. *)
Definition previous {A} (f : nat -> option A) (t : nat) : option A :=
  match t with
  | O => None
  | S t' => f t'
  end.

(** The cross mask of [calculate_golden_cross] at position [t]. *)
Definition mask_at (short_MA long_MA : nat -> option Q) (t : nat) : bool :=
  Pandas.gt (short_MA t) (long_MA t)
  && Pandas.le (previous short_MA t) (previous long_MA t).

(** Whether the short average is above the long one on row [t], as the
    detector compares them ([sma50 > sma200], false when one of them is
    undefined). *)
Definition short_above_long (df : Pandas.frame)
    (short_window long_window t : nat) : bool :=
  let closes := map Pandas.Close df in
  Pandas.gt (Pandas.rolling_mean_at short_window closes t)
            (Pandas.rolling_mean_at long_window closes t).

(** The units of [format_large_number], what each stands for and the
    letter it is shown with. *)
Inductive unit_suffix := NoSuffix | Millions | Billions | Trillions.

Definition unit_value (u : unit_suffix) : Q :=
  match u with
  | NoSuffix => 1
  | Millions => 1000000
  | Billions => 1000000000
  | Trillions => 1000000000000
  end.

Definition unit_text (u : unit_suffix) : string :=
  match u with
  | NoSuffix => EmptyString
  | Millions => "M"
  | Billions => "B"
  | Trillions => "T"
  end.

(** The float handed to the format specification: the number itself, or
    the quotient by the unit. *)
Definition shown_number (num : Q) (u : unit_suffix) : Q :=
  match u with
  | NoSuffix => num
  | _ => Float.div num (unit_value u)
  end.

(** For each unit, the numbers it is chosen for and the range of what is
    shown, in hundredths. *)
Definition in_unit_range (num : Q) (shown : Z) (u : unit_suffix) : Prop :=
  match u with
  | NoSuffix => Qabs num < 1000000 /\ (Z.abs shown <= 100000000)%Z
  | Millions =>
      1000000 <= Qabs num /\ Qabs num < 1000000000
      /\ (100 <= Z.abs shown <= 100000)%Z
  | Billions =>
      1000000000 <= Qabs num /\ Qabs num < 1000000000000
      /\ (100 <= Z.abs shown <= 100000)%Z
  | Trillions => 1000000000000 <= Qabs num /\ (100 <= Z.abs shown)%Z
  end.

(** Whether a character occurs in a text. *)
Fixpoint has_char (c : ascii) (s : string) : bool :=
  match s with
  | EmptyString => false
  | String c' rest => Ascii.eqb c' c || has_char c rest
  end.

(** A list of numbers that never increases from one entry to the next. *)
Fixpoint descending (vs : list Q) : Prop :=
  match vs with
  | a :: (b :: _) as rest => b <= a /\ descending rest
  | _ => True
  end.

(** ** Sample inputs *)

(** A complete provider answer used by the examples: free cash flow 100,
    cash 10, no debt entry, 4 shares. *)
Definition sample_cashflow : cashflow_table :=
  {| cf_empty := false;
     row_free_cash_flow := Some 100;
     row_operating_activities := None;
     row_capital_expenditures := None |}.

Definition sample_info : info_dict :=
  {| totalCash := Py.Present (Py.PyNum 10);
     totalDebt := Py.Absent;
     sharesOutstanding := Py.Present (Py.PyNum 4);
     marketCap := Py.Absent |}.

Definition sample_stock : DiscountedCashFlow.ticker_data :=
  {| DiscountedCashFlow.cashflow := Py.Fetched sample_cashflow;
     DiscountedCashFlow.info := Py.Fetched sample_info |}.

Definition sample_dashboard_stock : StockDashboard.ticker_data :=
  {| StockDashboard.cashflow := Py.Fetched sample_cashflow;
     StockDashboard.info := Py.Fetched sample_info;
     StockDashboard.dividends := Py.Fetched [1; 2 # 1] |}.

(** A company that burns cash: free cash flow -100, one share. *)
Definition burning_stock : DiscountedCashFlow.ticker_data :=
  {| DiscountedCashFlow.cashflow :=
       Py.Fetched {| cf_empty := false;
                     row_free_cash_flow := Some (-100);
                     row_operating_activities := None;
                     row_capital_expenditures := None |};
     DiscountedCashFlow.info :=
       Py.Fetched {| totalCash := Py.Absent;
                     totalDebt := Py.Absent;
                     sharesOutstanding := Py.Present (Py.PyNum 1);
                     marketCap := Py.Absent |} |}.

(** Provider answers in which [sharesOutstanding] is missing. *)
Definition info_without_shares : info_dict :=
  {| totalCash := Py.Present (Py.PyNum 10);
     totalDebt := Py.Absent;
     sharesOutstanding := Py.Absent;
     marketCap := Py.Absent |}.

Definition standalone_stock_without_shares
    : DiscountedCashFlow.ticker_data :=
  {| DiscountedCashFlow.cashflow := Py.Fetched sample_cashflow;
     DiscountedCashFlow.info := Py.Fetched info_without_shares |}.

Definition dashboard_stock_without_shares : StockDashboard.ticker_data :=
  {| StockDashboard.cashflow := Py.Fetched sample_cashflow;
     StockDashboard.info := Py.Fetched info_without_shares;
     StockDashboard.dividends := Py.Fetched [] |}.

Definition sample_dividend_stock : IntrinsicValue.ticker_data :=
  {| IntrinsicValue.dividends := Py.Fetched [1; 2 # 1] |}.

(** Two companies that never paid a dividend. *)
Definition stock_without_dividends : IntrinsicValue.ticker_data :=
  {| IntrinsicValue.dividends := Py.Fetched [] |}.

Definition dashboard_stock_without_dividends : StockDashboard.ticker_data :=
  {| StockDashboard.cashflow := Py.Fetched sample_cashflow;
     StockDashboard.info := Py.Fetched sample_info;
     StockDashboard.dividends := Py.Fetched [] |}.

(** One trading day with high 100 and low 0, closing at 51. *)
Definition sample_day : Pandas.bar :=
  {| Pandas.Date := 0; Pandas.High := 100; Pandas.Low := 0;
     Pandas.Close := 51 |}.

(** A provider whose [info] request raises for the ticker "BAD" and that
    answers every other request with an empty history. *)
Definition flaky_provider (ticker : string) : Sp500Scanner.ticker_data :=
  {| Sp500Scanner.info :=
       if String.eqb ticker "BAD" then Py.Raised
       else Py.Fetched sample_info;
     Sp500Scanner.history_2y := Py.Fetched (Some []);
     Sp500Scanner.history_1mo_1h := Py.Fetched (Some []) |}.

(** Three sessions closing at 3, 1 and 4, labelled 10, 11 and 12. *)
Definition three_sessions : Pandas.frame :=
  [ {| Pandas.Date := 10; Pandas.High := 3; Pandas.Low := 3;
       Pandas.Close := 3 |};
    {| Pandas.Date := 11; Pandas.High := 1; Pandas.Low := 1;
       Pandas.Close := 1 |};
    {| Pandas.Date := 12; Pandas.High := 4; Pandas.Low := 4;
       Pandas.Close := 4 |} ].

(** A session with a single price; prices 1, 2, 3 and prices 3, 2, 1. *)
Definition session (date : Z) (price : Q) : Pandas.bar :=
  {| Pandas.Date := date; Pandas.High := price; Pandas.Low := price;
     Pandas.Close := price |}.

Definition rising : Pandas.frame :=
  [session 1 1; session 2 (2 # 1); session 3 (3 # 1)].

Definition falling : Pandas.frame :=
  [session 1 (3 # 1); session 2 (2 # 1); session 3 1].

(** A one-day spike to 3 in a flat price of 1. *)
Definition spike : Pandas.frame :=
  [session 1 1; session 2 1; session 3 (3 # 1); session 4 1; session 5 1].

(** 201 sessions at a price of 1 followed by one session at 2, labelled
    by their position; and a provider that answers every request with
    that history. *)
Definition rally : Pandas.frame :=
  map (fun i => session (Z.of_nat i) 1) (seq 0 201)
  ++ [session 201 (2 # 1)].

Definition rally_provider (ticker : string) : Sp500Scanner.ticker_data :=
  {| Sp500Scanner.info := Py.Fetched sample_info;
     Sp500Scanner.history_2y := Py.Fetched (Some rally);
     Sp500Scanner.history_1mo_1h := Py.Fetched (Some rally) |}.

(** Three news items, one of them without a title, and a polarity that
    likes the word "good". *)
Definition sample_news : list StockDashboard.news_item :=
  [ StockDashboard.Flat (StockDashboard.TitleText "good");
    StockDashboard.Nested (Some StockDashboard.TitleMissing);
    StockDashboard.Nested (Some (StockDashboard.TitleText "bad")) ].

Definition sample_polarity (text : string) : Q :=
  if String.eqb text "good" then 1 else - (1 # 2).

(** Three sessions at the same price. *)
Definition steady : Pandas.frame :=
  [session 1 1; session 2 1; session 3 1].

(** A company without free cash flow, cash or debt. *)
Definition idle_stock : StockDashboard.ticker_data :=
  {| StockDashboard.cashflow :=
       Py.Fetched {| cf_empty := false;
                     row_free_cash_flow := Some 0;
                     row_operating_activities := None;
                     row_capital_expenditures := None |};
     StockDashboard.info :=
       Py.Fetched {| totalCash := Py.Absent;
                     totalDebt := Py.Absent;
                     sharesOutstanding := Py.Present (Py.PyNum 4);
                     marketCap := Py.Absent |};
     StockDashboard.dividends := Py.Fetched [] |}.

(** 200 sessions whose price is their position: every change is +1. *)
Definition climb : Pandas.frame :=
  map (fun i => session (Z.of_nat i) (inject_Z (Z.of_nat i))) (seq 0 200).

(** * Properties *)

(** ** Arithmetic of [Py.pow] and [Py.sum] *)

Lemma pow_0 (x : Q) : Py.pow x 0 == 1.
Proof. reflexivity. Qed.

Lemma pow_S (x : Q) (n : nat) : Py.pow x (S n) == x * Py.pow x n.
Proof.
  unfold Py.pow.
  replace (Z.of_nat (S n)) with (1 + Z.of_nat n)%Z by lia.
  rewrite Qpower_plus' by lia.
  reflexivity.
Qed.

Lemma pow_1 (x : Q) : Py.pow x 1 == x.
Proof. rewrite pow_S, pow_0. ring. Qed.

Lemma pow_pos (x : Q) (n : nat) : 0 < x -> 0 < Py.pow x n.
Proof. intros Hx. unfold Py.pow. now apply Qpower_0_lt. Qed.

#[export] Instance pow_proper : Proper (Qeq ==> eq ==> Qeq) Py.pow.
Proof.
  intros x y Hxy n m <-. unfold Py.pow. now rewrite Hxy.
Qed.

Lemma fold_plus_proper (xs ys : list Q) :
  eqlistA Qeq xs ys ->
  forall a b, a == b -> fold_left Qplus xs a == fold_left Qplus ys b.
Proof.
  induction 1 as [|x y xs ys Hxy _ IH]; intros a b Hab; simpl.
  - exact Hab.
  - apply IH. now rewrite Hab, Hxy.
Qed.

#[export] Instance sum_proper : Proper (eqlistA Qeq ==> Qeq) Py.sum.
Proof. intros xs ys H. unfold Py.sum. now apply fold_plus_proper. Qed.

Lemma sum_snoc (xs : list Q) (x : Q) : Py.sum (xs ++ [x]) = Py.sum xs + x.
Proof. unfold Py.sum. now rewrite fold_left_app. Qed.

Lemma fold_plus_shift (xs : list Q) (a : Q) :
  fold_left Qplus xs a == a + fold_left Qplus xs 0.
Proof.
  revert a. induction xs as [|x xs IH]; intros a; simpl.
  - ring.
  - rewrite IH, (IH (0 + x)). ring.
Qed.

Lemma sum_cons (x : Q) (xs : list Q) : Py.sum (x :: xs) == x + Py.sum xs.
Proof.
  unfold Py.sum. simpl. rewrite fold_plus_shift. ring.
Qed.

Lemma sum_map_seq (f : nat -> Q) (n : nat) :
  Py.sum (map f (seq 0 n)) == Spec.sum_upto n f.
Proof.
  induction n as [|n IH]; [reflexivity|].
  rewrite seq_S, map_app. simpl map. rewrite sum_snoc. simpl.
  now rewrite IH.
Qed.

Lemma last_item_snoc {A} (xs : list A) (x : A) :
  Py.last_item (xs ++ [x]) = Some x.
Proof.
  induction xs as [|y xs IH]; [reflexivity|].
  simpl. rewrite IH. now destruct (xs ++ [x]) eqn:E; [destruct xs|].
Qed.

Lemma last_snoc (xs : list Q) (x d : Q) : last (xs ++ [x]) d = x.
Proof. apply last_last. Qed.

Lemma eqlistA_snoc_inv (xs : list Q) (x : Q) (zs : list Q) :
  eqlistA Qeq (xs ++ [x]) zs ->
  exists ys y, zs = ys ++ [y] /\ eqlistA Qeq xs ys /\ x == y.
Proof.
  revert zs. induction xs as [|a xs IH]; intros zs H; simpl in H.
  - inversion H as [|? y ? ys' Hxy Hnil]; subst. inversion Hnil; subst.
    exists [], y. repeat split; [constructor | assumption].
  - inversion H as [|? b ? zs' Hab Hrest]; subst.
    destruct (IH _ Hrest) as (ys & y & -> & Hys & Hy).
    exists (b :: ys), y. repeat split; [now constructor | assumption].
Qed.

(** ** The projection loop of [calculate_dcf_value] *)

Section Projection.

Variables current_fcf g : Q.

Lemma project_fcf_S (n : nat) :
  DiscountedCashFlow.project_fcf current_fcf g (S n)
  = DiscountedCashFlow.project_step current_fcf g
      (DiscountedCashFlow.project_fcf current_fcf g n) (S n).
Proof.
  unfold DiscountedCashFlow.project_fcf.
  now rewrite seq_S, fold_left_app.
Qed.

Lemma closed_list_S (f : nat -> Q) (n : nat) :
  map f (seq 0 (S n)) = map f (seq 0 n) ++ [f n].
Proof. now rewrite seq_S, map_app. Qed.

Lemma last_eqlistA (xs ys : list Q) (d : Q) :
  eqlistA Qeq xs ys -> last xs d == last ys d.
Proof.
  induction 1 as [|x y xs ys Hxy Hrest IH]; [reflexivity|].
  simpl. destruct Hrest; [exact Hxy | exact IH].
Qed.

(** The loop computes the closed-form flows, year by year. *)
Lemma project_fcf_closed (n : nat) :
  eqlistA Qeq (DiscountedCashFlow.project_fcf current_fcf g n)
              (map (Spec.fcf current_fcf g) (seq 0 n)).
Proof.
  induction n as [|n IH]; [constructor|].
  rewrite project_fcf_S, closed_list_S.
  unfold DiscountedCashFlow.project_step.
  apply eqlistA_app; [typeclasses eauto | exact IH |].
  constructor; [|constructor].
  destruct n as [|m].
  - simpl Nat.eqb. cbv iota. unfold Spec.fcf. simpl Nat.add.
    now rewrite pow_1.
  - simpl Nat.eqb. cbv iota.
    rewrite (last_eqlistA _ _ 0 IH), closed_list_S, last_snoc.
    unfold Spec.fcf.
    replace (S m + 1)%nat with (S (m + 1)) by lia.
    rewrite (pow_S _ (m + 1)). ring.
Qed.

Lemma project_fcf_last (n : nat) :
  exists last_fcf,
    Py.last_item (DiscountedCashFlow.project_fcf current_fcf g (S n))
    = Some last_fcf
    /\ last_fcf == Spec.fcf current_fcf g n.
Proof.
  pose proof (project_fcf_closed (S n)) as H.
  rewrite project_fcf_S in *. unfold DiscountedCashFlow.project_step in *.
  rewrite closed_list_S in H.
  eexists. rewrite last_item_snoc. split; [reflexivity|].
  symmetry in H.
  apply eqlistA_snoc_inv in H. destruct H as (ys & y & Happ & _ & Hy).
  apply app_inj_tail in Happ. destruct Happ as [_ <-].
  now symmetry.
Qed.

End Projection.

(** ** Discounting a list of flows *)

Lemma discount_enumerate (r : Q) (F : nat -> Q) (n : nat) :
  forall (s : nat) (xs : list Q),
    eqlistA Qeq xs (map F (seq s n)) ->
    eqlistA Qeq
      (map (fun '(i, fcf) => fcf / Py.pow (1 + r) (i + 1))
           (combine (seq s (length xs)) xs))
      (map (fun i => F i / Py.pow (1 + r) (i + 1)) (seq s n)).
Proof.
  induction n as [|n IH]; intros s xs H; simpl in H.
  - inversion H; subst. constructor.
  - inversion H as [|x y xs' ys' Hxy Hrest]; subst. simpl.
    constructor.
    + now rewrite Hxy.
    + now apply IH.
Qed.

Lemma present_values_closed (current_fcf g r : Q) (xs : list Q) (n : nat) :
  eqlistA Qeq xs (map (Spec.fcf current_fcf g) (seq 0 n)) ->
  Py.sum (DiscountedCashFlow.present_values r xs)
  == Spec.sum_upto n (Spec.pv current_fcf g r).
Proof.
  intros H.
  unfold DiscountedCashFlow.present_values, Py.enumerate.
  rewrite (discount_enumerate r _ n 0 xs H).
  apply (sum_map_seq (Spec.pv current_fcf g r)).
Qed.

(** The dashboard's comprehension is the closed form as written. *)
Lemma future_fcf_over_closed (current_fcf g : Q) (n : nat) :
  eqlistA Qeq (StockDashboard.future_fcf_over (seq 1 n) current_fcf g)
              (map (Spec.fcf current_fcf g) (seq 0 n)).
Proof.
  unfold StockDashboard.future_fcf_over.
  rewrite <- seq_shift, map_map.
  induction (seq 0 n) as [|i l IH]; simpl; constructor; [|exact IH].
  unfold Spec.fcf. now replace (i + 1)%nat with (S i) by lia.
Qed.

Lemma discounted_fcf_closed (current_fcf g r : Q) (xs : list Q) (n : nat) :
  eqlistA Qeq xs (map (Spec.fcf current_fcf g) (seq 0 n)) ->
  Py.sum (StockDashboard.discounted_fcf r xs)
  == Spec.sum_upto n (Spec.pv current_fcf g r).
Proof.
  intros H.
  unfold StockDashboard.discounted_fcf, Py.enumerate.
  rewrite (discount_enumerate r _ n 0 xs H).
  apply (sum_map_seq (Spec.pv current_fcf g r)).
Qed.

Lemma future_fcf_last (current_fcf g : Q) :
  exists last_fcf,
    Py.last_item (StockDashboard.future_fcf current_fcf g) = Some last_fcf
    /\ last_fcf == Spec.fcf current_fcf g 4.
Proof.
  eexists. split; [reflexivity|]. unfold Spec.fcf. reflexivity.
Qed.

(** ** Enterprise value of both scripts against the closed form *)

Lemma total_enterprise_value_closed (current_fcf g r tg : Q) (n : nat) :
  exists last_fcf,
    Py.last_item (DiscountedCashFlow.project_fcf current_fcf g (S n))
    = Some last_fcf
    /\ DiscountedCashFlow.total_enterprise_value
         (DiscountedCashFlow.project_fcf current_fcf g (S n))
         last_fcf (S n) r tg
       == Spec.enterprise_value current_fcf g r tg (S n).
Proof.
  destruct (project_fcf_last current_fcf g n) as (last_fcf & Hlast & Heq).
  exists last_fcf. split; [exact Hlast|].
  unfold DiscountedCashFlow.total_enterprise_value, Spec.enterprise_value.
  rewrite (present_values_closed current_fcf g r _ (S n))
    by apply project_fcf_closed.
  unfold DiscountedCashFlow.pv_terminal_value,
    DiscountedCashFlow.terminal_value, Spec.terminal_value.
  replace (S n - 1)%nat with n by lia.
  now rewrite Heq.
Qed.

Lemma enterprise_value_closed (current_fcf g r tg : Q) :
  exists last_fcf,
    Py.last_item (StockDashboard.future_fcf current_fcf g) = Some last_fcf
    /\ StockDashboard.enterprise_value
         (StockDashboard.future_fcf current_fcf g)
         (StockDashboard.terminal_value last_fcf r tg) r
       == Spec.enterprise_value current_fcf g r tg 5.
Proof.
  destruct (future_fcf_last current_fcf g) as (last_fcf & Hlast & Heq).
  exists last_fcf. split; [exact Hlast|].
  unfold StockDashboard.enterprise_value, Spec.enterprise_value.
  rewrite (discounted_fcf_closed current_fcf g r _ 5)
    by apply future_fcf_over_closed.
  unfold StockDashboard.terminal_value, Spec.terminal_value.
  replace (5 - 1)%nat with 4%nat by lia.
  now rewrite Heq.
Qed.

(** C10.  For every current free cash flow, growth rate and horizon, the
    iterative projection of [discounted_cash_flow.py] (each year's flow is
    the previous one times [1 + growth]) and the closed-form projection of
    [stock_dashboard.py] ([current * (1 + growth) ** i]) give the same
    sequence of projected flows; and on equal inputs (the dashboard's
    horizon is five years) both scripts compute equal enterprise values. *)
Theorem projection_equivalence (current_fcf g : Q) (years : nat) :
  eqlistA Qeq
    (DiscountedCashFlow.project_fcf current_fcf g years)
    (StockDashboard.future_fcf_over (seq 1 years) current_fcf g)
  /\ forall r tg : Q,
       exists last_iter last_closed,
         Py.last_item (DiscountedCashFlow.project_fcf current_fcf g 5)
         = Some last_iter
         /\ Py.last_item (StockDashboard.future_fcf current_fcf g)
            = Some last_closed
         /\ DiscountedCashFlow.total_enterprise_value
              (DiscountedCashFlow.project_fcf current_fcf g 5)
              last_iter 5 r tg
            == StockDashboard.enterprise_value
                 (StockDashboard.future_fcf current_fcf g)
                 (StockDashboard.terminal_value last_closed r tg) r.
Proof.
  split.
  - rewrite project_fcf_closed. symmetry. apply future_fcf_over_closed.
  - intros r tg.
    destruct (total_enterprise_value_closed current_fcf g r tg 4)
      as (a & Ha & Hta).
    destruct (enterprise_value_closed current_fcf g r tg)
      as (b & Hb & Htb).
    exists a, b. repeat split; try assumption.
    now rewrite Hta, Htb.
Qed.

(** ** Boolean tests on rationals *)

Lemma Qle_bool_false (a b : Q) : b < a -> Qle_bool a b = false.
Proof.
  intros H. destruct (Qle_bool a b) eqn:E; [|reflexivity].
  apply Qle_bool_iff in E. lra.
Qed.

Lemma Qle_bool_true (a b : Q) : a <= b -> Qle_bool a b = true.
Proof. apply Qle_bool_iff. Qed.

Lemma Qle_bool_false_inv (a b : Q) : Qle_bool a b = false -> b < a.
Proof.
  intros E. apply Qnot_le_lt. intros H.
  apply Qle_bool_iff in H. congruence.
Qed.

Lemma Qeq_bool_false (a b : Q) : ~ a == b -> Qeq_bool a b = false.
Proof.
  intros H. destruct (Qeq_bool a b) eqn:E; [|reflexivity].
  apply Qeq_bool_iff in E. contradiction.
Qed.

Lemma Qeq_bool_true (a b : Q) : a == b -> Qeq_bool a b = true.
Proof. apply Qeq_bool_iff. Qed.

(** ** C1: the DCF value against the closed form *)

(** With no year to project, [projected_fcf[-1]] raises [IndexError]
    after the two empty summaries have been printed. *)
Example calculate_dcf_value_no_years :
  DiscountedCashFlow.calculate_dcf_value sample_stock 0
    (1 # 10) (1 # 10) (1 # 20)
  = ([DiscountedCashFlow.Assumptions 100;
      DiscountedCashFlow.ProjectedFlows [];
      DiscountedCashFlow.PresentValueOfExplicit 0],
     Escaped).
Proof. reflexivity. Qed.

(** The standalone script on a complete input. *)
Lemma calculate_dcf_value_ok
    (stock : DiscountedCashFlow.ticker_data) (n : nat)
    (g r tg current_fcf : Q) (stock_info : info_dict)
    (cash debt shares : Q) :
  DiscountedCashFlow.get_free_cash_flow stock = Some current_fcf ->
  tg < r ->
  DiscountedCashFlow.info stock = Py.Fetched stock_info ->
  Py.get (totalCash stock_info) (Py.PyNum 0) = Py.PyNum cash ->
  Py.get (totalDebt stock_info) (Py.PyNum 0) = Py.PyNum debt ->
  Py.get (sharesOutstanding stock_info) Py.PyNone = Py.PyNum shares ->
  ~ shares == 0 ->
  exists out tev v,
    DiscountedCashFlow.calculate_dcf_value stock (S n) g r tg
    = (out, Value v)
    /\ In (DiscountedCashFlow.TotalEnterpriseValue tev) out
    /\ tev == Spec.enterprise_value current_fcf g r tg (S n)
    /\ v = (tev + cash - debt) / shares.
Proof.
  intros Hfcf Hr Hinfo Hcash Hdebt Hshares Hnz.
  destruct (total_enterprise_value_closed current_fcf g r tg n)
    as (last_fcf & Hlast & Hev).
  unfold DiscountedCashFlow.calculate_dcf_value.
  rewrite Hfcf. cbv zeta. rewrite Hlast, (Qle_bool_false _ _ Hr).
  unfold DiscountedCashFlow.per_share.
  rewrite Hinfo. cbv zeta. rewrite Hshares, Hcash, Hdebt.
  rewrite (Qeq_bool_false _ _ Hnz).
  do 3 eexists. split; [reflexivity|]. split; [|split].
  - apply in_or_app. right. simpl. right. right. left. reflexivity.
  - exact Hev.
  - reflexivity.
Qed.

(** The dashboard on a complete input. *)
Lemma perform_dcf_analysis_ok
    (stock : StockDashboard.ticker_data)
    (g r tg current_fcf : Q) (stock_info : info_dict)
    (cash debt shares : Q) :
  StockDashboard.get_free_cash_flow stock = Some current_fcf ->
  tg < r ->
  StockDashboard.info stock = Py.Fetched stock_info ->
  Py.get (totalCash stock_info) (Py.PyNum 0) = Py.PyNum cash ->
  Py.get (totalDebt stock_info) (Py.PyNum 0) = Py.PyNum debt ->
  Py.get (sharesOutstanding stock_info) (Py.PyNum 1) = Py.PyNum shares ->
  ~ shares == 0 ->
  exists ev v tv,
    StockDashboard.perform_dcf_analysis stock g r tg
    = Value (v, StockDashboard.future_fcf current_fcf g, tv)
    /\ tv == Spec.terminal_value current_fcf g r tg 5
    /\ ev == Spec.enterprise_value current_fcf g r tg 5
    /\ v = (ev - debt + cash) / shares.
Proof.
  intros Hfcf Hr Hinfo Hcash Hdebt Hshares Hnz.
  destruct (enterprise_value_closed current_fcf g r tg)
    as (last_fcf & Hlast & Hev).
  destruct (future_fcf_last current_fcf g) as (last_fcf' & Hlast' & Heq).
  assert (last_fcf' = last_fcf) as -> by congruence.
  unfold StockDashboard.perform_dcf_analysis.
  rewrite (Qle_bool_false _ _ Hr), Hfcf. cbv zeta.
  rewrite Hlast, Hinfo, Hshares, Hcash, Hdebt.
  rewrite (Qeq_bool_false _ _ Hnz).
  do 3 eexists. split; [reflexivity|].
  split; [|split; [exact Hev | reflexivity]].
  unfold StockDashboard.terminal_value, Spec.terminal_value.
  replace (5 - 1)%nat with 4%nat by lia. now rewrite Heq.
Qed.





(** ** C5: sensitivity to the terminal growth rate *)

Lemma gordon_ratio_increasing (r tg1 tg2 : Q) :
  0 < 1 + r -> tg1 < tg2 -> tg2 < r ->
  (1 + tg1) / (r - tg1) < (1 + tg2) / (r - tg2).
Proof.
  intros Hr H12 H2r.
  apply Qlt_shift_div_r; [lra|].
  assert (E : (1 + tg2) / (r - tg2) * (r - tg1)
              == ((1 + tg2) * (r - tg1)) / (r - tg2)).
  { field. lra. }
  rewrite E. apply Qlt_shift_div_l; [lra|].
  assert (P : 0 < (tg2 - tg1) * (1 + r)).
  { apply Qmult_lt_0_compat; lra. }
  lra.
Qed.

Lemma fcf_positive (current_fcf g : Q) (i : nat) :
  0 < current_fcf -> 0 < 1 + g -> 0 < Spec.fcf current_fcf g i.
Proof.
  intros Hc Hg. unfold Spec.fcf.
  apply Qmult_lt_0_compat; [exact Hc | now apply pow_pos].
Qed.

Lemma intrinsic_value_increasing
    (current_fcf g r tg1 tg2 cash debt shares : Q) (years : nat) :
  0 < current_fcf -> 0 < 1 + g -> 0 < 1 + r -> 0 < shares ->
  tg1 < tg2 -> tg2 < r ->
  Spec.intrinsic_value current_fcf g r tg1 years cash debt shares
  < Spec.intrinsic_value current_fcf g r tg2 years cash debt shares.
Proof.
  intros Hc Hg Hr Hs H12 H2r.
  unfold Spec.intrinsic_value, Spec.enterprise_value, Spec.terminal_value.
  pose proof (fcf_positive current_fcf g (years - 1) Hc Hg) as HF.
  pose proof (pow_pos (1 + r) years Hr) as HP.
  pose proof (gordon_ratio_increasing r tg1 tg2 Hr H12 H2r) as HG.
  set (F := Spec.fcf current_fcf g (years - 1)) in *.
  set (P := Py.pow (1 + r) years) in *.
  set (S0 := Spec.sum_upto years (Spec.pv current_fcf g r)).
  set (k1 := (1 + tg1) / (r - tg1)) in *.
  set (k2 := (1 + tg2) / (r - tg2)) in *.
  assert (E1 : F * (1 + tg1) / (r - tg1) / P == k1 * (F / P)).
  { unfold k1. field. split; lra. }
  assert (E2 : F * (1 + tg2) / (r - tg2) / P == k2 * (F / P)).
  { unfold k2. field. split; lra. }
  rewrite E1, E2.
  assert (HFP : 0 < F / P).
  { apply Qlt_shift_div_l; [exact HP | lra]. }
  assert (HK : k1 * (F / P) < k2 * (F / P)).
  { apply Qmult_lt_compat_r; assumption. }
  unfold Qdiv at 1 3.
  apply Qmult_lt_compat_r; [now apply Qinv_lt_0_compat | lra].
Qed.

(** With a negative free cash flow, raising the terminal growth rate from
    0 to 5% (discount rate 10%) lowers the value per share. *)
Lemma terminal_growth_lowers_value_of_burning_stock :
  exists out1 out2 v1 v2,
    0 < 1 # 20 /\ 1 # 20 < 1 # 10
    /\ DiscountedCashFlow.calculate_dcf_value burning_stock 1 0 (1 # 10) 0
       = (out1, Value v1)
    /\ DiscountedCashFlow.calculate_dcf_value burning_stock 1 0 (1 # 10)
         (1 # 20) = (out2, Value v2)
    /\ v2 < v1.
Proof.
  do 4 eexists.
  split; [reflexivity|]. split; [reflexivity|].
  split; [reflexivity|]. split; [reflexivity|].
  vm_compute. reflexivity.
Qed.

(** C5, amended.  With a positive current free cash flow, a growth rate
    and a discount rate above -100% and a positive share count, raising
    the terminal growth rate while it stays below the discount rate
    strictly raises the value per share, everything else held fixed.
    This holds for both DCF computations. *)
Theorem terminal_growth_increases_value :
  (forall (stock : DiscountedCashFlow.ticker_data) (years : nat)
          (g r tg1 tg2 current_fcf : Q) (stock_info : info_dict)
          (cash debt shares : Q),
      DiscountedCashFlow.get_free_cash_flow stock = Some current_fcf ->
      (1 <= years)%nat ->
      DiscountedCashFlow.info stock = Py.Fetched stock_info ->
      Py.get (totalCash stock_info) (Py.PyNum 0) = Py.PyNum cash ->
      Py.get (totalDebt stock_info) (Py.PyNum 0) = Py.PyNum debt ->
      sharesOutstanding stock_info = Py.Present (Py.PyNum shares) ->
      0 < current_fcf -> 0 < 1 + g -> 0 < 1 + r -> 0 < shares ->
      tg1 < tg2 -> tg2 < r ->
      exists out1 out2 v1 v2,
        DiscountedCashFlow.calculate_dcf_value stock years g r tg1
        = (out1, Value v1)
        /\ DiscountedCashFlow.calculate_dcf_value stock years g r tg2
           = (out2, Value v2)
        /\ v1 < v2)
  /\
  (forall (stock : StockDashboard.ticker_data)
          (g r tg1 tg2 current_fcf : Q) (stock_info : info_dict)
          (cash debt shares : Q),
      StockDashboard.get_free_cash_flow stock = Some current_fcf ->
      StockDashboard.info stock = Py.Fetched stock_info ->
      Py.get (totalCash stock_info) (Py.PyNum 0) = Py.PyNum cash ->
      Py.get (totalDebt stock_info) (Py.PyNum 0) = Py.PyNum debt ->
      sharesOutstanding stock_info = Py.Present (Py.PyNum shares) ->
      0 < current_fcf -> 0 < 1 + g -> 0 < 1 + r -> 0 < shares ->
      tg1 < tg2 -> tg2 < r ->
      exists v1 f1 t1 v2 f2 t2,
        StockDashboard.perform_dcf_analysis stock g r tg1
        = Value (v1, f1, t1)
        /\ StockDashboard.perform_dcf_analysis stock g r tg2
           = Value (v2, f2, t2)
        /\ v1 < v2).
Proof.
  split.
  - intros stock years g r tg1 tg2 current_fcf stock_info cash debt shares
      Hfcf Hyears Hinfo Hcash Hdebt Hshares Hc Hg Hr Hs H12 H2r.
    apply (f_equal (fun e => Py.get e Py.PyNone)) in Hshares.
    destruct years as [|n]; [lia|].
    assert (Hnz : ~ shares == 0) by lra.
    assert (H1r : tg1 < r) by lra.
    destruct (calculate_dcf_value_ok stock n g r tg1 current_fcf stock_info
                cash debt shares Hfcf H1r Hinfo Hcash Hdebt Hshares Hnz)
      as (out1 & tev1 & v1 & Hrun1 & _ & Htev1 & Hv1).
    destruct (calculate_dcf_value_ok stock n g r tg2 current_fcf stock_info
                cash debt shares Hfcf H2r Hinfo Hcash Hdebt Hshares Hnz)
      as (out2 & tev2 & v2 & Hrun2 & _ & Htev2 & Hv2).
    exists out1, out2, v1, v2. split; [exact Hrun1|]. split; [exact Hrun2|].
    pose proof (intrinsic_value_increasing current_fcf g r tg1 tg2 cash debt
                  shares (S n) Hc Hg Hr Hs H12 H2r) as Hinc.
    unfold Spec.intrinsic_value in Hinc.
    rewrite <- Htev1, <- Htev2 in Hinc. now rewrite Hv1, Hv2.
  - intros stock g r tg1 tg2 current_fcf stock_info cash debt shares
      Hfcf Hinfo Hcash Hdebt Hshares Hc Hg Hr Hs H12 H2r.
    apply (f_equal (fun e => Py.get e (Py.PyNum 1))) in Hshares.
    assert (Hnz : ~ shares == 0) by lra.
    assert (H1r : tg1 < r) by lra.
    destruct (perform_dcf_analysis_ok stock g r tg1 current_fcf stock_info
                cash debt shares Hfcf H1r Hinfo Hcash Hdebt Hshares Hnz)
      as (ev1 & v1 & t1 & Hrun1 & _ & Hev1 & Hv1).
    destruct (perform_dcf_analysis_ok stock g r tg2 current_fcf stock_info
                cash debt shares Hfcf H2r Hinfo Hcash Hdebt Hshares Hnz)
      as (ev2 & v2 & t2 & Hrun2 & _ & Hev2 & Hv2).
    exists v1, (StockDashboard.future_fcf current_fcf g), t1, v2,
      (StockDashboard.future_fcf current_fcf g), t2.
    split; [exact Hrun1|]. split; [exact Hrun2|].
    pose proof (intrinsic_value_increasing current_fcf g r tg1 tg2 cash debt
                  shares 5 Hc Hg Hr Hs H12 H2r) as Hinc.
    unfold Spec.intrinsic_value in Hinc.
    rewrite <- Hev1, <- Hev2 in Hinc. rewrite Hv1, Hv2.
    assert (E : forall ev, (ev - debt + cash) / shares
                           == (ev + cash - debt) / shares).
    { intros ev. apply Qmult_comp; [ring | reflexivity]. }
    now rewrite !E.
Qed.

Lemma terminal_growth_increases_value_witness :
  (exists out1 out2 v1 v2,
      DiscountedCashFlow.calculate_dcf_value sample_stock 2
        (1 # 10) (1 # 10) (1 # 50) = (out1, Value v1)
      /\ DiscountedCashFlow.calculate_dcf_value sample_stock 2
           (1 # 10) (1 # 10) (1 # 20) = (out2, Value v2)
      /\ v1 < v2)
  /\ (exists v1 f1 t1 v2 f2 t2,
         StockDashboard.perform_dcf_analysis sample_dashboard_stock
           (1 # 10) (1 # 10) (1 # 50) = Value (v1, f1, t1)
         /\ StockDashboard.perform_dcf_analysis sample_dashboard_stock
              (1 # 10) (1 # 10) (1 # 20) = Value (v2, f2, t2)
         /\ v1 < v2).
Proof.
  split.
  - apply (proj1 terminal_growth_increases_value sample_stock 2%nat
             (1 # 10) (1 # 10) (1 # 50) (1 # 20) 100 sample_info 10 0 4);
      try reflexivity; lia.
  - apply (proj2 terminal_growth_increases_value sample_dashboard_stock
             (1 # 10) (1 # 10) (1 # 50) (1 # 20) 100 sample_info 10 0 4);
      reflexivity.
Defined.

(** ** C6: the share count *)

(** The standalone script never returns a value when the share count is
    zero, [None] or missing, and says so once it reaches step 6. *)
Lemma calculate_dcf_value_without_shares
    (stock : DiscountedCashFlow.ticker_data) (stock_info : info_dict)
    (years : nat) (g r tg : Q) :
  DiscountedCashFlow.info stock = Py.Fetched stock_info ->
  (sharesOutstanding stock_info = Py.Absent
   \/ sharesOutstanding stock_info = Py.Present Py.PyNone
   \/ exists shares, sharesOutstanding stock_info
                     = Py.Present (Py.PyNum shares) /\ shares == 0) ->
  (forall out v,
      DiscountedCashFlow.calculate_dcf_value stock years g r tg
      <> (out, Value v))
  /\ (forall current_fcf,
         DiscountedCashFlow.get_free_cash_flow stock = Some current_fcf ->
         (1 <= years)%nat -> tg < r ->
         exists out,
           DiscountedCashFlow.calculate_dcf_value stock years g r tg
           = (out, Failed MissingShareCount)).
Proof.
  intros Hinfo Hshares.
  assert (Hstep : forall tev,
             DiscountedCashFlow.per_share stock tev
             = ([DiscountedCashFlow.ErrorMessage MissingShareCount],
                Failed MissingShareCount)).
  { intros tev. unfold DiscountedCashFlow.per_share. rewrite Hinfo.
    destruct Hshares as [-> | [-> | (shares & -> & Hz)]]; simpl;
      try reflexivity.
    now rewrite (Qeq_bool_true _ _ Hz). }
  split.
  - intros out v. unfold DiscountedCashFlow.calculate_dcf_value.
    destruct (DiscountedCashFlow.get_free_cash_flow stock);
      [|discriminate].
    cbv zeta. destruct (Py.last_item _); [|discriminate].
    destruct (Qle_bool r tg); [discriminate|].
    rewrite Hstep. discriminate.
  - intros current_fcf Hfcf Hyears Hr.
    destruct years as [|n]; [lia|].
    destruct (project_fcf_last current_fcf g n) as (last_fcf & Hlast & _).
    unfold DiscountedCashFlow.calculate_dcf_value.
    rewrite Hfcf. cbv zeta.
    rewrite Hlast, (Qle_bool_false _ _ Hr), Hstep.
    eexists. reflexivity.
Qed.

(** The dashboard does report a share count of zero. *)
Lemma perform_dcf_analysis_zero_shares
    (stock : StockDashboard.ticker_data) (stock_info : info_dict)
    (g r tg current_fcf shares : Q) :
  StockDashboard.get_free_cash_flow stock = Some current_fcf ->
  tg < r ->
  StockDashboard.info stock = Py.Fetched stock_info ->
  sharesOutstanding stock_info = Py.Present (Py.PyNum shares) ->
  shares == 0 ->
  StockDashboard.perform_dcf_analysis stock g r tg
  = Failed MissingShareCount.
Proof.
  intros Hfcf Hr Hinfo Hshares Hz.
  unfold StockDashboard.perform_dcf_analysis.
  rewrite (Qle_bool_false _ _ Hr), Hfcf. cbv zeta.
  destruct (future_fcf_last current_fcf g) as (last_fcf & -> & _).
  rewrite Hinfo, Hshares. simpl Py.get. cbv iota.
  now rewrite (Qeq_bool_true _ _ Hz).
Qed.

(** C6.  On a provider answer without a [sharesOutstanding] entry the
    standalone script fails with [MissingShareCount], as the claim says,
    but the dashboard's [perform_dcf_analysis] takes the count to be 1 and
    returns the whole equity value (enterprise value - debt + cash) as the
    value per share. *)
Theorem dashboard_values_missing_share_count :
  sharesOutstanding info_without_shares = Py.Absent
  /\ (exists out,
         DiscountedCashFlow.calculate_dcf_value
           standalone_stock_without_shares 5 (1 # 10) (1 # 10) (1 # 20)
         = (out, Failed MissingShareCount))
  /\ (exists v future tv,
         StockDashboard.perform_dcf_analysis dashboard_stock_without_shares
           (1 # 10) (1 # 10) (1 # 20) = Value (v, future, tv)
         /\ v == Spec.enterprise_value 100 (1 # 10) (1 # 10) (1 # 20) 5
                 - 0 + 10).
Proof.
  split; [reflexivity|]. split.
  - eexists. reflexivity.
  - do 3 eexists. split; [reflexivity|]. vm_compute. reflexivity.
Qed.

(** ** C9: the rate precondition *)




(** ** C2: the dividend discount model *)

Lemma calculate_intrinsic_value_eq_dashboard
    (ds : Py.fetched (list Q)) (cf : Py.fetched cashflow_table)
    (i : Py.fetched info_dict) (g r : Q) :
  IntrinsicValue.calculate_intrinsic_value
    {| IntrinsicValue.dividends := ds |} g r
  = StockDashboard.calculate_ddm_value
      {| StockDashboard.cashflow := cf;
         StockDashboard.info := i;
         StockDashboard.dividends := ds |} g r.
Proof. reflexivity. Qed.

(** With an empty dividend history and a required return of 4% below the
    growth rate of 9%, both functions report the missing dividends, not
    the rates: the history is looked at first. *)
Lemma ddm_checks_dividends_before_rates :
  4 # 100 <= 9 # 100
  /\ IntrinsicValue.calculate_intrinsic_value stock_without_dividends
       (9 # 100) (4 # 100) = Failed NoDividendData
  /\ StockDashboard.calculate_ddm_value dashboard_stock_without_dividends
       (9 # 100) (4 # 100) = Failed NoDividendData
  /\ IntrinsicValue.calculate_intrinsic_value stock_without_dividends
       (9 # 100) (4 # 100) <> Failed InvalidAssumption
  /\ StockDashboard.calculate_ddm_value dashboard_stock_without_dividends
       (9 # 100) (4 # 100) <> Failed InvalidAssumption.
Proof.
  split; [discriminate|].
  split; [reflexivity|]. split; [reflexivity|].
  split; discriminate.
Qed.

(** C2, amended.  Both [calculate_intrinsic_value] and the dashboard's
    [calculate_ddm_value] look at the dividend history before they
    compare the rates.  For a non-empty history with latest dividend [d]:
    if [r > g] the DDM returns [d * (1 + g) / (r - g)], and if [r <= g]
    it fails with [InvalidAssumption].  For an empty history it fails
    with [NoDividendData] whatever the rates.  So with [r <= g] the
    failure is [InvalidAssumption] exactly when the history has a latest
    dividend, and no value is returned in any case. *)
Theorem ddm_gordon_growth :
  (forall (stock : IntrinsicValue.ticker_data) (history : list Q)
          (d g r : Q),
      IntrinsicValue.dividends stock = Py.Fetched history ->
      Py.last_item history = Some d ->
      (g < r ->
       IntrinsicValue.calculate_intrinsic_value stock g r
       = Value (d * (1 + g) / (r - g)))
      /\ (r <= g ->
          IntrinsicValue.calculate_intrinsic_value stock g r
          = Failed InvalidAssumption))
  /\ (forall (stock : StockDashboard.ticker_data) (history : list Q)
             (d g r : Q),
         StockDashboard.dividends stock = Py.Fetched history ->
         Py.last_item history = Some d ->
         (g < r ->
          StockDashboard.calculate_ddm_value stock g r
          = Value (d * (1 + g) / (r - g)))
         /\ (r <= g ->
             StockDashboard.calculate_ddm_value stock g r
             = Failed InvalidAssumption))
  /\ (forall (stock : IntrinsicValue.ticker_data) (g r : Q),
         IntrinsicValue.dividends stock = Py.Fetched [] ->
         IntrinsicValue.calculate_intrinsic_value stock g r
         = Failed NoDividendData)
  /\ (forall (stock : StockDashboard.ticker_data) (g r : Q),
         StockDashboard.dividends stock = Py.Fetched [] ->
         StockDashboard.calculate_ddm_value stock g r
         = Failed NoDividendData)
  /\ (forall (stock : IntrinsicValue.ticker_data) (g r : Q),
         r <= g ->
         (IntrinsicValue.calculate_intrinsic_value stock g r
          = Failed InvalidAssumption
          <-> exists history d,
                IntrinsicValue.dividends stock = Py.Fetched history
                /\ Py.last_item history = Some d)
         /\ forall v,
              IntrinsicValue.calculate_intrinsic_value stock g r
              <> Value v)
  /\ (forall (stock : StockDashboard.ticker_data) (g r : Q),
         r <= g ->
         (StockDashboard.calculate_ddm_value stock g r
          = Failed InvalidAssumption
          <-> exists history d,
                StockDashboard.dividends stock = Py.Fetched history
                /\ Py.last_item history = Some d)
         /\ forall v,
              StockDashboard.calculate_ddm_value stock g r <> Value v).
Proof.
  split; [|split; [|split; [|split; [|split]]]].
  - intros stock history d g r Hdiv Hlast.
    unfold IntrinsicValue.calculate_intrinsic_value.
    rewrite Hdiv, Hlast. split; intros Hr.
    + now rewrite (Qle_bool_false _ _ Hr).
    + now rewrite (Qle_bool_true _ _ Hr).
  - intros stock history d g r Hdiv Hlast.
    unfold StockDashboard.calculate_ddm_value.
    rewrite Hdiv, Hlast. split; intros Hr.
    + now rewrite (Qle_bool_false _ _ Hr).
    + now rewrite (Qle_bool_true _ _ Hr).
  - intros stock g r Hdiv.
    unfold IntrinsicValue.calculate_intrinsic_value.
    now rewrite Hdiv.
  - intros stock g r Hdiv.
    unfold StockDashboard.calculate_ddm_value.
    now rewrite Hdiv.
  - intros stock g r Hr.
    unfold IntrinsicValue.calculate_intrinsic_value.
    destruct (IntrinsicValue.dividends stock) as [|history].
    { split; [|discriminate].
      split; [discriminate | intros (? & ? & H & _); discriminate]. }
    destruct (Py.last_item history) as [d|] eqn:Hlast.
    + rewrite (Qle_bool_true _ _ Hr). split; [|discriminate].
      split; [intros _; now exists history, d | reflexivity].
    + split; [|discriminate].
      split; [discriminate|].
      intros (h & d & [= <-] & H). congruence.
  - intros stock g r Hr.
    unfold StockDashboard.calculate_ddm_value.
    destruct (StockDashboard.dividends stock) as [|history].
    { split; [|discriminate].
      split; [discriminate | intros (? & ? & H & _); discriminate]. }
    destruct (Py.last_item history) as [d|] eqn:Hlast.
    + rewrite (Qle_bool_true _ _ Hr). split; [|discriminate].
      split; [intros _; now exists history, d | reflexivity].
    + split; [|discriminate].
      split; [discriminate|].
      intros (h & d & [= <-] & H). congruence.
Qed.

Lemma ddm_gordon_growth_witness :
  IntrinsicValue.calculate_intrinsic_value sample_dividend_stock
    (4 # 100) (9 # 100)
  = Value ((2 # 1) * (1 + (4 # 100)) / ((9 # 100) - (4 # 100)))
  /\ IntrinsicValue.calculate_intrinsic_value sample_dividend_stock
       (9 # 100) (9 # 100) = Failed InvalidAssumption
  /\ StockDashboard.calculate_ddm_value sample_dashboard_stock
       (4 # 100) (9 # 100)
     = Value ((2 # 1) * (1 + (4 # 100)) / ((9 # 100) - (4 # 100)))
  /\ StockDashboard.calculate_ddm_value sample_dashboard_stock
       (9 # 100) (4 # 100) = Failed InvalidAssumption
  /\ IntrinsicValue.calculate_intrinsic_value stock_without_dividends
       (4 # 100) (9 # 100) = Failed NoDividendData
  /\ StockDashboard.calculate_ddm_value dashboard_stock_without_dividends
       (4 # 100) (9 # 100) = Failed NoDividendData
  /\ IntrinsicValue.calculate_intrinsic_value sample_dividend_stock
       (9 # 100) (4 # 100) <> Value 0
  /\ StockDashboard.calculate_ddm_value sample_dashboard_stock
       (9 # 100) (4 # 100) <> Value 0.
Proof.
  pose (H1 := proj1 ddm_gordon_growth sample_dividend_stock [1; 2 # 1]
                (2 # 1)).
  pose (H2 := proj1 (proj2 ddm_gordon_growth) sample_dashboard_stock
                [1; 2 # 1] (2 # 1)).
  pose (H3 := proj1 (proj2 (proj2 ddm_gordon_growth))).
  pose (H4 := proj1 (proj2 (proj2 (proj2 ddm_gordon_growth)))).
  pose (H5 := proj1 (proj2 (proj2 (proj2 (proj2 ddm_gordon_growth))))).
  pose (H6 := proj2 (proj2 (proj2 (proj2 (proj2 ddm_gordon_growth))))).
  split; [|split; [|split; [|split; [|split; [|split; [|split]]]]]].
  - apply (proj1 (H1 (4 # 100) (9 # 100) eq_refl eq_refl)). reflexivity.
  - apply (proj2 (H1 (9 # 100) (9 # 100) eq_refl eq_refl)). discriminate.
  - apply (proj1 (H2 (4 # 100) (9 # 100) eq_refl eq_refl)). reflexivity.
  - apply (proj2 (H2 (9 # 100) (4 # 100) eq_refl eq_refl)). discriminate.
  - apply H3. reflexivity.
  - apply H4. reflexivity.
  - apply (proj2 (H5 sample_dividend_stock (9 # 100) (4 # 100)
                    ltac:(discriminate))).
  - apply (proj2 (H6 sample_dashboard_stock (9 # 100) (4 # 100)
                    ltac:(discriminate))).
Defined.

(** ** C8: Fibonacci levels and the nearest level *)

Lemma qmax_cases (a b : Q) :
  (Pandas.qmax a b = a \/ Pandas.qmax a b = b)
  /\ a <= Pandas.qmax a b /\ b <= Pandas.qmax a b.
Proof.
  unfold Pandas.qmax. destruct (Qle_bool a b) eqn:E.
  - apply Qle_bool_iff in E. repeat split; auto; lra.
  - apply Qle_bool_false_inv in E. repeat split; auto; lra.
Qed.

Lemma qmin_cases (a b : Q) :
  (Pandas.qmin a b = a \/ Pandas.qmin a b = b)
  /\ Pandas.qmin a b <= a /\ Pandas.qmin a b <= b.
Proof.
  unfold Pandas.qmin. destruct (Qle_bool a b) eqn:E.
  - apply Qle_bool_iff in E. repeat split; auto; lra.
  - apply Qle_bool_false_inv in E. repeat split; auto; lra.
Qed.

Lemma fold_qmax_bound (rest : list Q) :
  forall x,
    In (fold_left Pandas.qmax rest x) (x :: rest)
    /\ forall y, In y (x :: rest) -> y <= fold_left Pandas.qmax rest x.
Proof.
  induction rest as [|z rest IH]; intros x; simpl.
  - split; [now left | intros y [<- | []]; lra].
  - destruct (IH (Pandas.qmax x z)) as [Hin Hub].
    destruct (qmax_cases x z) as (Hcase & Hx & Hz).
    split.
    + destruct Hin as [Hin | Hin]; [|now right; right].
      rewrite <- Hin. destruct Hcase as [-> | ->]; auto.
    + intros y [<- | [<- | Hy]].
      * apply Qle_trans with (Pandas.qmax x z); [exact Hx|].
        apply Hub. now left.
      * apply Qle_trans with (Pandas.qmax x z); [exact Hz|].
        apply Hub. now left.
      * apply Hub. now right.
Qed.

Lemma fold_qmin_bound (rest : list Q) :
  forall x,
    In (fold_left Pandas.qmin rest x) (x :: rest)
    /\ forall y, In y (x :: rest) -> fold_left Pandas.qmin rest x <= y.
Proof.
  induction rest as [|z rest IH]; intros x; simpl.
  - split; [now left | intros y [<- | []]; lra].
  - destruct (IH (Pandas.qmin x z)) as [Hin Hlb].
    destruct (qmin_cases x z) as (Hcase & Hx & Hz).
    split.
    + destruct Hin as [Hin | Hin]; [|now right; right].
      rewrite <- Hin. destruct Hcase as [-> | ->]; auto.
    + intros y [<- | [<- | Hy]].
      * apply Qle_trans with (Pandas.qmin x z); [|exact Hx].
        apply Hlb. now left.
      * apply Qle_trans with (Pandas.qmin x z); [|exact Hz].
        apply Hlb. now left.
      * apply Hlb. now right.
Qed.

Lemma series_max_is_max (xs : list Q) (m : Q) :
  Pandas.series_max xs = Some m -> Spec.is_max m xs.
Proof.
  destruct xs as [|x rest]; [discriminate|].
  intros [= <-]. apply fold_qmax_bound.
Qed.

Lemma series_min_is_min (xs : list Q) (m : Q) :
  Pandas.series_min xs = Some m -> Spec.is_min m xs.
Proof.
  destruct xs as [|x rest]; [discriminate|].
  intros [= <-]. apply fold_qmin_bound.
Qed.

(** [min] keeps the first item with the least key. *)
Lemma min_by_first_least {A} (key : A -> Q) (first : A) (rest : list A) :
  exists before after,
    first :: rest
    = before ++ StockDashboard.min_by key first rest :: after
    /\ (forall x, In x before ->
          key (StockDashboard.min_by key first rest) < key x)
    /\ (forall x, In x after ->
          key (StockDashboard.min_by key first rest) <= key x).
Proof.
  induction rest as [|y rest IH] using rev_ind.
  - exists [], []. simpl. repeat split; intros x [].
  - destruct IH as (before & after & Hsplit & Hbefore & Hafter).
    unfold StockDashboard.min_by in *. rewrite fold_left_app. simpl.
    set (best := fold_left _ rest first) in *.
    destruct (Qle_bool (key best) (key y)) eqn:E; simpl.
    + apply Qle_bool_iff in E.
      exists before, (after ++ [y]). split; [|split].
      * rewrite app_comm_cons, Hsplit, <- app_assoc. reflexivity.
      * exact Hbefore.
      * intros x Hx. apply in_app_or in Hx.
        destruct Hx as [Hx | [<- | []]]; [now apply Hafter | exact E].
    + apply Qle_bool_false_inv in E.
      exists (first :: rest), []. split; [|split].
      * now rewrite app_comm_cons.
      * intros x Hx. rewrite Hsplit in Hx. apply in_app_or in Hx.
        destruct Hx as [Hx | [<- | Hx]].
        -- specialize (Hbefore x Hx). lra.
        -- exact E.
        -- specialize (Hafter x Hx). lra.
      * intros x [].
Qed.



(** On the day above the nearest level to the close of 51 is the 50%
    level; at 50 against 52 the tie goes to the level defined first. *)
Example nearest_level_at_51 :
  (exists levels v,
      StockDashboard.calculate_fibonacci_levels [sample_day] = Some levels
      /\ StockDashboard.closest_level levels 51 = Some ("50%"%string, v)
      /\ v == 50)
  /\ StockDashboard.closest_level
       [("50%"%string, 50); ("61.8%"%string, 52)] 51
     = Some ("50%"%string, 50).
Proof.
  split; [do 2 eexists; split; [reflexivity|]; split|]; reflexivity.
Qed.

(** ** C4: failure isolation in the scanner *)

Section ScanFacts.

Variable provider : string -> Sp500Scanner.ticker_data.
Variable security_names : string -> option string.

Let process_ticker := Sp500Scanner.process_ticker provider security_names.
Let succeeded := Sp500Scanner.succeeded provider security_names.
Let scan := Sp500Scanner.scan provider security_names.

Lemma collect_all (results : list (option Sp500Scanner.row)) :
  forall acc,
    fold_left Sp500Scanner.collect results acc
    = acc ++ flat_map rows_of results.
Proof.
  induction results as [|res results IH]; intros acc; simpl.
  - now rewrite app_nil_r.
  - rewrite IH. destruct res; simpl; [|reflexivity].
    now rewrite <- app_assoc.
Qed.

Lemma process_ticker_keeps_ticker (ticker : string)
    (r : Sp500Scanner.row) :
  process_ticker ticker = Some r -> Sp500Scanner.Ticker r = ticker.
Proof.
  unfold process_ticker, Sp500Scanner.process_ticker.
  destruct (Sp500Scanner.info (provider ticker)); [discriminate|].
  destruct (Sp500Scanner.history_2y (provider ticker)) as [|hist_daily];
    [discriminate|].
  destruct (Sp500Scanner.calculate_golden_cross hist_daily 50 200)
    as [cross_date [[|]|]];
    try (intros [= <-]; reflexivity).
  destruct (Sp500Scanner.history_1mo_1h (provider ticker));
    [discriminate|].
  intros [= <-]. reflexivity.
Qed.

Lemma process_ticker_fails_iff (ticker : string) :
  process_ticker ticker = None
  <-> Sp500Scanner.fetch_raises provider ticker.
Proof.
  unfold process_ticker, Sp500Scanner.process_ticker,
    Sp500Scanner.fetch_raises. cbv zeta.
  destruct (Sp500Scanner.info (provider ticker)) as [|stock_info].
  { split; auto. }
  destruct (Sp500Scanner.history_2y (provider ticker)) as [|hist_daily].
  { split; auto. }
  destruct (Sp500Scanner.calculate_golden_cross hist_daily 50 200)
    as [cross_date [[|]|]] eqn:Hcross.
  - destruct (Sp500Scanner.history_1mo_1h (provider ticker)).
    + split; [intros _|reflexivity].
      right. right. exists hist_daily. now rewrite Hcross.
    + split; [discriminate|].
      intros [H | [H | (h & _ & _ & H)]]; discriminate.
  - split; [discriminate|].
    intros [H | [H | (h & Hh & Hb & _)]]; try discriminate.
    injection Hh as <-. rewrite Hcross in Hb. discriminate.
  - split; [discriminate|].
    intros [H | [H | (h & Hh & Hb & _)]]; try discriminate.
    injection Hh as <-. rewrite Hcross in Hb. discriminate.
Qed.

Lemma scan_tickers (tickers : list string) :
  map Sp500Scanner.Ticker (scan tickers) = filter succeeded tickers.
Proof.
  unfold scan, Sp500Scanner.scan. rewrite collect_all. simpl.
  induction tickers as [|t tickers IH]; [reflexivity|].
  simpl. rewrite map_app, IH.
  unfold succeeded, Sp500Scanner.succeeded.
  pose proof (process_ticker_keeps_ticker t) as Hk.
  unfold process_ticker in Hk.
  destruct (Sp500Scanner.process_ticker provider security_names t)
    as [r|]; simpl; [|reflexivity].
  now rewrite (Hk r eq_refl).
Qed.

Lemma scan_length (tickers : list string) :
  length (scan tickers) = length (filter succeeded tickers).
Proof. now rewrite <- scan_tickers, length_map. Qed.

End ScanFacts.

(** C4.  Whatever the provider does, the scan returns a table: a ticker
    yields no row exactly when one of its fetches raises, the tickers of
    the rows are the tickers that succeeded, once each and in input
    order, and three tickers of which exactly one fails give two rows. *)
Theorem scanner_isolates_failures
    (provider : string -> Sp500Scanner.ticker_data)
    (security_names : string -> option string) (tickers : list string) :
  (forall t,
      Sp500Scanner.process_ticker provider security_names t = None
      <-> Sp500Scanner.fetch_raises provider t)
  /\ map Sp500Scanner.Ticker
       (Sp500Scanner.scan provider security_names tickers)
     = filter (Sp500Scanner.succeeded provider security_names) tickers
  /\ length (Sp500Scanner.scan provider security_names tickers)
     = length
         (filter (Sp500Scanner.succeeded provider security_names) tickers)
  /\ (length tickers = 3%nat ->
      length
        (filter
           (fun t => negb (Sp500Scanner.succeeded provider security_names t))
           tickers) = 1%nat ->
      length (Sp500Scanner.scan provider security_names tickers) = 2%nat).
Proof.
  split; [|split; [|split]].
  - apply process_ticker_fails_iff.
  - apply scan_tickers.
  - apply scan_length.
  - intros H3 H1. rewrite scan_length.
    pose proof
      (filter_length (Sp500Scanner.succeeded provider security_names)
         tickers) as Hsum.
    lia.
Qed.

Lemma scanner_isolates_failures_witness :
  length (Sp500Scanner.scan flaky_provider (fun _ => None)
            ["AAPL"; "BAD"; "MSFT"]%string) = 2%nat
  /\ map Sp500Scanner.Ticker
       (Sp500Scanner.scan flaky_provider (fun _ => None)
          ["AAPL"; "BAD"; "MSFT"]%string)
     = ["AAPL"; "MSFT"]%string
  /\ Sp500Scanner.fetch_raises flaky_provider "BAD".
Proof.
  pose (H := scanner_isolates_failures flaky_provider (fun _ => None)
               ["AAPL"; "BAD"; "MSFT"]%string).
  split; [|split].
  - apply (proj2 (proj2 (proj2 H))); reflexivity.
  - rewrite (proj1 (proj2 H)). reflexivity.
  - apply (proj1 (proj1 H "BAD"%string)). reflexivity.
Defined.

(** ** C3: the golden-cross detector *)

Lemma shift1_map_seq {A} (f : nat -> option A) (n : nat) :
  Pandas.shift1 (map f (seq 0 n)) = map (previous f) (seq 0 n).
Proof.
  destruct n as [|m]; [reflexivity|].
  unfold Pandas.shift1.
  replace (match map f (seq 0 (S m)) with
           | [] => []
           | _ :: _ => None :: removelast (map f (seq 0 (S m)))
           end)
    with (None :: removelast (map f (seq 0 (S m)))) by reflexivity.
  rewrite seq_S, map_app. simpl map at 2. rewrite removelast_last.
  change (seq 0 m ++ [0 + m]%nat) with (seq 0 m ++ [m]).
  rewrite <- seq_S. simpl. now rewrite <- seq_shift, map_map.
Qed.

Lemma combine_map {A B C} (f : A -> B) (g : A -> C) (l : list A) :
  combine (map f l) (map g l) = map (fun x => (f x, g x)) l.
Proof. induction l as [|x l IH]; simpl; [|rewrite IH]; reflexivity. Qed.

Lemma nth_map_seq {A} (F : nat -> A) (n t : nat) (d : A) :
  (t < n)%nat -> nth t (map F (seq 0 n)) d = F t.
Proof.
  intros Ht.
  rewrite (nth_indep _ d (F 0%nat)) by now rewrite length_map, length_seq.
  now rewrite map_nth, seq_nth.
Qed.

Lemma cross_mask_map_seq (short_MA long_MA : nat -> option Q) (n : nat) :
  Sp500Scanner.cross_mask (map short_MA (seq 0 n)) (map long_MA (seq 0 n))
  = map (mask_at short_MA long_MA) (seq 0 n).
Proof.
  unfold Sp500Scanner.cross_mask.
  rewrite !shift1_map_seq, !combine_map, map_map.
  reflexivity.
Qed.

Lemma gt_true_iff (a b : option Q) :
  Pandas.gt a b = true <-> exists x y, a = Some x /\ b = Some y /\ y < x.
Proof.
  destruct a as [x|], b as [y|]; simpl;
    try (split; [discriminate | intros (? & ? & ? & ? & _); discriminate]).
  split.
  - intros H. exists x, y. repeat split.
    apply Qle_bool_false_inv. now destruct (Qle_bool x y).
  - intros (x' & y' & [= <-] & [= <-] & H).
    now rewrite (Qle_bool_false _ _ H).
Qed.

Lemma le_true_iff (a b : option Q) :
  Pandas.le a b = true <-> exists x y, a = Some x /\ b = Some y /\ x <= y.
Proof.
  destruct a as [x|], b as [y|]; simpl;
    try (split; [discriminate | intros (? & ? & ? & ? & _); discriminate]).
  split.
  - intros H. exists x, y. repeat split. now apply Qle_bool_iff.
  - intros (x' & y' & [= <-] & [= <-] & H). now apply Qle_bool_iff.
Qed.

Lemma mask_at_iff (short_MA long_MA : nat -> option Q) (t : nat) :
  mask_at short_MA long_MA t = true <-> Spec.crosses short_MA long_MA t.
Proof.
  unfold mask_at, Spec.crosses.
  rewrite andb_true_iff, gt_true_iff, le_true_iff.
  destruct t as [|t']; simpl.
  - split.
    + intros (_ & ? & ? & H & _). discriminate.
    + intros (? & ? & ? & ? & H & _). lia.
  - rewrite Nat.sub_0_r. split.
    + intros ((s & l & Hs & Hl & Hsl) & (ps & pl & Hps & Hpl & Hp)).
      exists s, l, ps, pl. repeat split; try assumption. lia.
    + intros (s & l & ps & pl & _ & Hs & Hl & Hps & Hpl & Hsl & Hp).
      split; [exists s, l | exists ps, pl]; auto.
Qed.

Lemma last_item_cons {A} (x : A) (l : list A) :
  Py.last_item (x :: l)
  = match Py.last_item l with
    | Some y => Some y
    | None => Some x
    end.
Proof.
  destruct l as [|a l]; [reflexivity|].
  change (Py.last_item (x :: a :: l)) with (Py.last_item (a :: l)).
  induction l as [|b l IH] in a |- *; [reflexivity|].
  change (Py.last_item (a :: b :: l)) with (Py.last_item (b :: l)).
  apply IH.
Qed.

(** The label picked by [df.index[mask][-1]]. *)
Lemma last_selected (df : Pandas.frame) :
  forall mask : list bool,
    length mask = length df ->
    match Py.last_item (Sp500Scanner.select_index df mask) with
    | Some d =>
        exists t row,
          nth_error df t = Some row /\ d = Pandas.Date row
          /\ nth t mask false = true
          /\ forall t', (t < t')%nat -> nth t' mask false = false
    | None => forall t, nth t mask false = false
    end.
Proof.
  induction df as [|r df IH]; intros mask Hlen.
  - destruct mask; [|discriminate]. simpl. now intros [|t].
  - destruct mask as [|b mask]; [discriminate|].
    injection Hlen as Hlen. specialize (IH mask Hlen).
    unfold Sp500Scanner.select_index in *. simpl combine. simpl filter.
    destruct (Py.last_item
                (map (fun '(row, _) => Pandas.Date row)
                   (filter snd (combine df mask)))) as [d|] eqn:Hrest.
    + assert (Hall : Py.last_item
                (map (fun '(row, _) => Pandas.Date row)
                   (if b then (r, b) :: filter snd (combine df mask)
                    else filter snd (combine df mask))) = Some d).
      { destruct b; [|exact Hrest].
        simpl map. now rewrite last_item_cons, Hrest. }
      simpl snd. rewrite Hall.
      destruct IH as (t & row & Hrow & Hd & Hmask & Hlater).
      exists (S t), row. repeat split; try assumption.
      intros [|t'] Ht'; [lia|]. simpl. apply Hlater. lia.
    + simpl snd. destruct b.
      * simpl map. rewrite last_item_cons, Hrest.
        exists 0%nat, r. repeat split.
        intros [|t'] Ht'; [lia|]. simpl. apply IH.
      * rewrite Hrest. intros [|t]; [reflexivity|]. simpl. apply IH.
Qed.

Section GoldenCross.

Variable df : Pandas.frame.
Variables short_window long_window : nat.

Let closes := map Pandas.Close df.
Let short_MA := Pandas.rolling_mean_at short_window closes.
Let long_MA := Pandas.rolling_mean_at long_window closes.

Lemma golden_cross_date :
  (long_window <= length df)%nat ->
  fst (Sp500Scanner.calculate_golden_cross (Some df)
         short_window long_window)
  = Py.last_item
      (Sp500Scanner.select_index df
         (map (mask_at short_MA long_MA) (seq 0 (length df)))).
Proof.
  intros Hlen. unfold Sp500Scanner.calculate_golden_cross.
  replace (length df <? long_window)%nat with false
    by (symmetry; apply Nat.ltb_ge; exact Hlen).
  cbv zeta. simpl fst. unfold Pandas.rolling_mean.
  fold closes. replace (length closes) with (length df)
    by (unfold closes; now rewrite length_map).
  now rewrite cross_mask_map_seq.
Qed.

Lemma mask_nth (t : nat) :
  (t < length df)%nat ->
  nth t (map (mask_at short_MA long_MA) (seq 0 (length df))) false = true
  <-> Spec.crosses short_MA long_MA t.
Proof.
  intros Ht. rewrite nth_map_seq by exact Ht. apply mask_at_iff.
Qed.

Lemma mask_nth_false (t : nat) :
  (t < length df)%nat ->
  nth t (map (mask_at short_MA long_MA) (seq 0 (length df))) false = false
  -> ~ Spec.crosses short_MA long_MA t.
Proof.
  intros Ht Hf Hc. apply (mask_nth t Ht) in Hc. congruence.
Qed.

(** What the returned date is, in terms of the crosses. *)
Lemma golden_cross_date_spec :
  (long_window <= length df)%nat ->
  match fst (Sp500Scanner.calculate_golden_cross (Some df)
               short_window long_window) with
  | Some d =>
      exists t row,
        Spec.last_cross short_MA long_MA (length df) t
        /\ nth_error df t = Some row /\ d = Pandas.Date row
  | None =>
      forall t, (t < length df)%nat -> ~ Spec.crosses short_MA long_MA t
  end.
Proof.
  intros Hlen. rewrite (golden_cross_date Hlen).
  pose proof (last_selected df
                (map (mask_at short_MA long_MA) (seq 0 (length df))))
    as Hsel.
  rewrite length_map, length_seq in Hsel. specialize (Hsel eq_refl).
  destruct (Py.last_item _) as [d|].
  - destruct Hsel as (t & row & Hrow & Hd & Hmask & Hlater).
    assert (Ht : (t < length df)%nat).
    { apply nth_error_Some. congruence. }
    exists t, row. repeat split; try assumption.
    + now apply mask_nth.
    + intros t' Htt' Ht'. apply mask_nth_false; [exact Ht'|].
      now apply Hlater.
  - intros t Ht. apply mask_nth_false; [exact Ht | apply Hsel].
Qed.

End GoldenCross.

Lemma last_cross_unique (short_MA long_MA : nat -> option Q) (n t u : nat) :
  Spec.last_cross short_MA long_MA n t ->
  Spec.last_cross short_MA long_MA n u ->
  t = u.
Proof.
  intros (Ht & Hct & Hlt) (Hu & Hcu & Hlu).
  destruct (Nat.lt_trichotomy t u) as [H | [H | H]]; [|exact H|].
  - exfalso. exact (Hlt u H Hu Hcu).
  - exfalso. exact (Hlu t H Ht Hct).
Qed.

(** C3.  On a frame with at least [long_window] samples the detector's
    mask holds at [t] exactly when [short_MA[t] > long_MA[t]] and
    [short_MA[t-1] <= long_MA[t-1]] (a tie on the previous sample is "not
    yet crossed"; an undefined average compares false); the date
    returned is the index label of the most recent such [t], and [None]
    exactly when there is none.  On a shorter or absent frame the result
    is the pair [(None, None)]. *)
Theorem golden_cross_detection
    (df : Pandas.frame) (short_window long_window : nat) :
  let closes := map Pandas.Close df in
  let short_MA := Pandas.rolling_mean_at short_window closes in
  let long_MA := Pandas.rolling_mean_at long_window closes in
  let result :=
    Sp500Scanner.calculate_golden_cross (Some df) short_window
      long_window in
  Sp500Scanner.calculate_golden_cross None short_window long_window
  = (None, None)
  /\ ((length df < long_window)%nat -> result = (None, None))
  /\ ((long_window <= length df)%nat ->
      (forall t, (t < length df)%nat ->
         nth t (Sp500Scanner.cross_mask
                  (Pandas.rolling_mean short_window closes)
                  (Pandas.rolling_mean long_window closes)) false = true
         <-> Spec.crosses short_MA long_MA t)
      /\ (forall t row,
             Spec.last_cross short_MA long_MA (length df) t ->
             nth_error df t = Some row ->
             fst result = Some (Pandas.Date row))
      /\ (forall d,
             fst result = Some d ->
             exists t row,
               Spec.last_cross short_MA long_MA (length df) t
               /\ nth_error df t = Some row /\ d = Pandas.Date row)
      /\ (fst result = None
          <-> forall t, (t < length df)%nat ->
                        ~ Spec.crosses short_MA long_MA t)).
Proof.
  intros closes short_MA long_MA result.
  split; [reflexivity|]. split.
  - intros Hshort. unfold result, Sp500Scanner.calculate_golden_cross.
    now replace (length df <? long_window)%nat with true
      by (symmetry; apply Nat.ltb_lt; exact Hshort).
  - intros Hlen.
    pose proof (golden_cross_date_spec df short_window long_window Hlen)
      as Hspec.
    fold closes short_MA long_MA result in Hspec.
    split; [|split; [|split]].
    + intros t Ht. unfold Pandas.rolling_mean.
      replace (length closes) with (length df)
        by (unfold closes; now rewrite length_map).
      rewrite cross_mask_map_seq. now apply mask_nth.
    + intros t row Hlast Hrow.
      destruct (fst result) as [d|].
      * destruct Hspec as (u & row' & Hu & Hrow' & ->).
        rewrite (last_cross_unique _ _ _ _ _ Hlast Hu) in Hrow.
        congruence.
      * destruct Hlast as (Ht & Hc & _). now destruct (Hspec t Ht).
    + intros d Hd. rewrite Hd in Hspec. exact Hspec.
    + split.
      * intros Hnone. now rewrite Hnone in Hspec.
      * intros Hno. destruct (fst result) as [d|]; [|reflexivity].
        destruct Hspec as (t & _ & (Ht & Hc & _) & _).
        now destruct (Hno t Ht).
Qed.

Lemma golden_cross_detection_witness :
  Sp500Scanner.calculate_golden_cross (Some three_sessions) 50 200
  = (None, None)
  /\ Spec.crosses
       (Pandas.rolling_mean_at 1 (map Pandas.Close three_sessions))
       (Pandas.rolling_mean_at 2 (map Pandas.Close three_sessions)) 2
  /\ (exists t row,
         Spec.last_cross
           (Pandas.rolling_mean_at 1 (map Pandas.Close three_sessions))
           (Pandas.rolling_mean_at 2 (map Pandas.Close three_sessions))
           (length three_sessions) t
         /\ nth_error three_sessions t = Some row
         /\ 12%Z = Pandas.Date row)
  /\ Sp500Scanner.calculate_golden_cross (Some three_sessions) 1 2
     = (Some 12%Z, Some true).
Proof.
  split; [|split; [|split]].
  - apply (proj1 (proj2 (golden_cross_detection three_sessions 50 200))).
    simpl. lia.
  - apply (proj1 (proj2 (proj2 (golden_cross_detection three_sessions 1 2))
                   ltac:(simpl; lia)) 2%nat ltac:(simpl; lia)).
    reflexivity.
  - apply (proj1 (proj2 (proj2 (proj2 (proj2
             (golden_cross_detection three_sessions 1 2))
             ltac:(simpl; lia)))) 12%Z).
    reflexivity.
  - reflexivity.
Defined.

(** ** C7: RSI at the boundaries *)

Lemma diff_from_length (xs : list Q) :
  forall prev, length (Pandas.diff_from prev xs) = length xs.
Proof.
  induction xs as [|x xs IH]; intros prev; simpl; [|rewrite IH];
    reflexivity.
Qed.

Lemma diff_length (xs : list Q) : length (Pandas.diff xs) = length xs.
Proof.
  destruct xs as [|x xs]; simpl; [|rewrite diff_from_length]; reflexivity.
Qed.

Lemma diff_from_nth (xs : list Q) :
  forall prev j,
    (j < length xs)%nat ->
    nth j (Pandas.diff_from prev xs) None
    = Some (nth j xs 0 - nth j (prev :: xs) 0).
Proof.
  induction xs as [|x xs IH]; intros prev j Hj; simpl in Hj; [lia|].
  destruct j as [|j]; [reflexivity|].
  simpl Pandas.diff_from.
  change (nth (S j) (Some (x - prev) :: Pandas.diff_from x xs) None)
    with (nth j (Pandas.diff_from x xs) None).
  rewrite IH by lia. reflexivity.
Qed.

(** [delta[i] = close[i] - close[i-1]] from the second sample on. *)
Lemma diff_nth (xs : list Q) (i : nat) :
  (1 <= i)%nat -> (i < length xs)%nat ->
  nth i (Pandas.diff xs) None = Some (nth i xs 0 - nth (i - 1) xs 0).
Proof.
  intros H1 Hi. destruct xs as [|x xs]; [simpl in Hi; lia|].
  destruct i as [|j]; [lia|].
  simpl in Hi. simpl Pandas.diff.
  change (nth (S j) (None :: Pandas.diff_from x xs) None)
    with (nth j (Pandas.diff_from x xs) None).
  rewrite diff_from_nth by lia.
  now replace (S j - 1)%nat with j by lia.
Qed.

Lemma window_at_length (w : nat) (xs : list Q) (t : nat) :
  (w <= t + 1)%nat -> (t < length xs)%nat ->
  length (Pandas.window_at w xs t) = w.
Proof.
  intros Hw Ht. unfold Pandas.window_at.
  rewrite length_firstn, length_skipn. lia.
Qed.

Lemma window_at_nth (w : nat) (xs : list Q) (t j : nat) :
  (j < w)%nat ->
  nth j (Pandas.window_at w xs t) 0 = nth (t + 1 - w + j) xs 0.
Proof.
  intros Hj. unfold Pandas.window_at.
  rewrite nth_firstn, nth_skipn.
  now replace (j <? w)%nat with true by (symmetry; apply Nat.ltb_lt; lia).
Qed.

Lemma window_at_In (w : nat) (xs : list Q) (t : nat) (x : Q) :
  (w <= t + 1)%nat -> (t < length xs)%nat ->
  In x (Pandas.window_at w xs t) ->
  exists i, (t + 1 - w <= i)%nat /\ (i <= t)%nat /\ x = nth i xs 0.
Proof.
  intros Hw Ht Hin.
  destruct (In_nth _ _ 0 Hin) as (j & Hj & <-).
  rewrite window_at_length in Hj by assumption.
  exists (t + 1 - w + j)%nat.
  repeat split; [lia | lia | now apply window_at_nth].
Qed.

Lemma window_at_latest (w : nat) (xs : list Q) (t : nat) :
  (1 <= w)%nat -> (w <= t + 1)%nat -> (t < length xs)%nat ->
  In (nth t xs 0) (Pandas.window_at w xs t).
Proof.
  intros H1 Hw Ht.
  replace (nth t xs 0) with (nth (w - 1) (Pandas.window_at w xs t) 0).
  - apply nth_In. rewrite window_at_length by assumption. lia.
  - rewrite window_at_nth by lia. f_equal. lia.
Qed.

Lemma sum_all_zero (xs : list Q) :
  (forall x, In x xs -> x == 0) -> Py.sum xs == 0.
Proof.
  induction xs as [|x xs IH]; intros H; [reflexivity|].
  rewrite sum_cons, IH, (H x) by (intros; (now left) || (apply H; now right)).
  ring.
Qed.

Lemma sum_nonneg (xs : list Q) :
  (forall x, In x xs -> 0 <= x) -> 0 <= Py.sum xs.
Proof.
  induction xs as [|x xs IH]; intros H; [unfold Py.sum; simpl; lra|].
  rewrite sum_cons.
  assert (0 <= x) by (apply H; now left).
  assert (0 <= Py.sum xs) by (apply IH; intros; apply H; now right).
  lra.
Qed.

Lemma sum_positive (xs : list Q) (y : Q) :
  (forall x, In x xs -> 0 <= x) -> In y xs -> 0 < y -> 0 < Py.sum xs.
Proof.
  induction xs as [|x xs IH]; intros H Hin Hy; [destruct Hin|].
  rewrite sum_cons.
  assert (0 <= x) by (apply H; now left).
  assert (0 <= Py.sum xs) by (apply sum_nonneg; intros; apply H; now right).
  destruct Hin as [-> | Hin]; [lra|].
  assert (0 < Py.sum xs) by (apply IH; auto; intros; apply H; now right).
  lra.
Qed.

Lemma gain_terms_nth (delta : list (option Q)) (i : nat) :
  nth i (StockDashboard.gain_terms delta) 0
  = match nth i delta None with
    | Some x => if Qle_bool x 0 then 0 else x
    | None => 0
    end.
Proof.
  unfold StockDashboard.gain_terms.
  set (f := fun d : option Q => _).
  change 0 with (f None) at 1. rewrite map_nth. subst f. cbv beta.
  destruct (nth i delta None) as [x|]; [|reflexivity].
  simpl. now destruct (Qle_bool x 0).
Qed.

Lemma loss_terms_nth (delta : list (option Q)) (i : nat) :
  nth i (StockDashboard.loss_terms delta) 0
  = match nth i delta None with
    | Some x => - (if Qle_bool 0 x then 0 else x)
    | None => - 0
    end.
Proof.
  unfold StockDashboard.loss_terms.
  set (f := fun d : option Q => _).
  change 0 with (f None) at 1. rewrite map_nth. subst f. cbv beta.
  destruct (nth i delta None) as [x|]; [|reflexivity].
  simpl. now destruct (Qle_bool 0 x).
Qed.

Lemma terms_length (delta : list (option Q)) :
  length (StockDashboard.gain_terms delta) = length delta
  /\ length (StockDashboard.loss_terms delta) = length delta.
Proof.
  unfold StockDashboard.gain_terms, StockDashboard.loss_terms.
  now rewrite !length_map.
Qed.

(** The RSI series, position by position. *)
Lemma calculate_rsi_nth (data : Pandas.frame) (window t : nat) :
  (t < length data)%nat ->
  let delta := Pandas.diff (map Pandas.Close data) in
  nth t (StockDashboard.calculate_rsi data window) Pandas.NaN
  = StockDashboard.rsi_of
      (Pandas.rolling_mean_at window (StockDashboard.gain_terms delta) t)
      (Pandas.rolling_mean_at window (StockDashboard.loss_terms delta) t).
Proof.
  intros Ht delta. unfold StockDashboard.calculate_rsi. fold delta.
  unfold Pandas.rolling_mean.
  destruct (terms_length delta) as [-> ->].
  rewrite combine_map, map_map.
  assert (Hlen : length delta = length data).
  { unfold delta. now rewrite diff_length, length_map. }
  rewrite Hlen. now rewrite nth_map_seq.
Qed.

Lemma rolling_mean_at_full (w : nat) (xs : list Q) (t : nat) :
  (1 <= w)%nat -> (w <= t + 1)%nat ->
  Pandas.rolling_mean_at w xs t
  = Some (Py.sum (Pandas.window_at w xs t) / inject_Z (Z.of_nat w)).
Proof.
  intros H1 Hw. unfold Pandas.rolling_mean_at.
  replace (w =? 0)%nat with false by (symmetry; apply Nat.eqb_neq; lia).
  now replace (t + 1 <? w)%nat with false
    by (symmetry; apply Nat.ltb_ge; lia).
Qed.

Lemma window_size_positive (w : nat) :
  (1 <= w)%nat -> 0 < inject_Z (Z.of_nat w).
Proof.
  intros H. change 0 with (inject_Z 0). rewrite <- Zlt_Qlt. lia.
Qed.

(** An infinite [rs] of either sign gives 100; [rs = 0] gives 0. *)
Lemma rsi_of_rs_infinite (s : bool) :
  Pandas.xeq (StockDashboard.rsi_of_rs (Pandas.Inf s)) (Pandas.Fin 100).
Proof. destruct s; reflexivity. Qed.

Lemma rsi_of_rs_zero (rs : Q) :
  rs == 0 ->
  Pandas.xeq (StockDashboard.rsi_of_rs (Pandas.Fin rs)) (Pandas.Fin 0).
Proof.
  intros H. unfold StockDashboard.rsi_of_rs, Pandas.xsub. simpl.
  rewrite (Qeq_bool_false (1 + rs) 0) by (rewrite H; discriminate).
  simpl. rewrite H. reflexivity.
Qed.

Lemma rsi_of_no_loss (gain loss : Q) :
  0 < gain -> loss == 0 ->
  Pandas.xeq (StockDashboard.rsi_of (Some gain) (Some loss))
             (Pandas.Fin 100).
Proof.
  intros Hg Hl. unfold StockDashboard.rsi_of. simpl.
  rewrite (Qeq_bool_true _ _ Hl).
  rewrite (Qeq_bool_false gain 0) by lra.
  apply rsi_of_rs_infinite.
Qed.

Lemma rsi_of_no_gain (gain loss : Q) :
  gain == 0 -> 0 < loss ->
  Pandas.xeq (StockDashboard.rsi_of (Some gain) (Some loss))
             (Pandas.Fin 0).
Proof.
  intros Hg Hl. unfold StockDashboard.rsi_of. simpl.
  rewrite (Qeq_bool_false loss 0) by lra.
  apply rsi_of_rs_zero. rewrite Hg. field. lra.
Qed.

Section RsiWindow.

Variable data : Pandas.frame.
Variables window t : nat.

Let closes := map Pandas.Close data.
Let delta := Pandas.diff closes.

Hypothesis window_positive : (1 <= window)%nat.
Hypothesis window_full : (window <= t + 1)%nat.
Hypothesis t_in_range : (t < length data)%nat.

Let closes_length : length closes = length data.
Proof. unfold closes. now rewrite length_map. Qed.

Let delta_length : length delta = length data.
Proof. unfold delta. now rewrite diff_length. Qed.

Lemma delta_in_window (i : nat) :
  (i <= t)%nat ->
  nth i delta None
  = match i with
    | O => None
    | S _ => Some (nth i closes 0 - nth (i - 1) closes 0)
    end.
Proof.
  intros Hi. destruct i as [|j].
  - unfold delta. destruct closes; reflexivity.
  - unfold delta. apply diff_nth; lia.
Qed.

Lemma rolling_gain_loss :
  Pandas.rolling_mean_at window (StockDashboard.gain_terms delta) t
  = Some (Py.sum (Pandas.window_at window
                    (StockDashboard.gain_terms delta) t)
          / inject_Z (Z.of_nat window))
  /\ Pandas.rolling_mean_at window (StockDashboard.loss_terms delta) t
     = Some (Py.sum (Pandas.window_at window
                       (StockDashboard.loss_terms delta) t)
             / inject_Z (Z.of_nat window)).
Proof. split; now apply rolling_mean_at_full. Qed.

Lemma gain_window_In (x : Q) :
  In x (Pandas.window_at window (StockDashboard.gain_terms delta) t) ->
  exists i, (t + 1 - window <= i)%nat /\ (i <= t)%nat
            /\ x = nth i (StockDashboard.gain_terms delta) 0.
Proof.
  apply window_at_In; [assumption|].
  rewrite (proj1 (terms_length delta)), delta_length. assumption.
Qed.

Lemma loss_window_In (x : Q) :
  In x (Pandas.window_at window (StockDashboard.loss_terms delta) t) ->
  exists i, (t + 1 - window <= i)%nat /\ (i <= t)%nat
            /\ x = nth i (StockDashboard.loss_terms delta) 0.
Proof.
  apply window_at_In; [assumption|].
  rewrite (proj2 (terms_length delta)), delta_length. assumption.
Qed.

Lemma gain_latest_In :
  In (nth t (StockDashboard.gain_terms delta) 0)
     (Pandas.window_at window (StockDashboard.gain_terms delta) t).
Proof.
  apply window_at_latest; try assumption.
  rewrite (proj1 (terms_length delta)), delta_length. assumption.
Qed.

Lemma loss_latest_In :
  In (nth t (StockDashboard.loss_terms delta) 0)
     (Pandas.window_at window (StockDashboard.loss_terms delta) t).
Proof.
  apply window_at_latest; try assumption.
  rewrite (proj2 (terms_length delta)), delta_length. assumption.
Qed.

(** Every delta of the window is strictly positive. *)
Lemma rsi_all_gains :
  (1 <= t)%nat ->
  (forall i, (t + 1 - window <= i)%nat -> (i <= t)%nat -> (1 <= i)%nat ->
             nth (i - 1) closes 0 < nth i closes 0) ->
  Pandas.xeq (nth t (StockDashboard.calculate_rsi data window) Pandas.NaN)
             (Pandas.Fin 100).
Proof.
  intros Ht1 Hup.
  rewrite calculate_rsi_nth by assumption. fold closes delta.
  destruct rolling_gain_loss as [-> ->].
  pose proof (window_size_positive window window_positive) as HW.
  apply rsi_of_no_loss.
  - apply Qlt_shift_div_l; [exact HW|]. rewrite Qmult_0_l.
    apply sum_positive
      with (y := nth t (StockDashboard.gain_terms delta) 0).
    + intros x Hx. destruct (gain_window_In x Hx) as (i & Hlo & Hhi & ->).
      rewrite gain_terms_nth, (delta_in_window i Hhi).
      destruct i as [|j]; [lra|].
      destruct (Qle_bool _ 0) eqn:E; [lra|].
      apply Qle_bool_false_inv in E. lra.
    + apply gain_latest_In.
    + rewrite gain_terms_nth, (delta_in_window t (Nat.le_refl t)).
      destruct t as [|j]; [lia|].
      specialize (Hup (S j) ltac:(lia) ltac:(lia) ltac:(lia)).
      rewrite (Qle_bool_false _ 0) by lra. lra.
  - assert (E : Py.sum (Pandas.window_at window
                          (StockDashboard.loss_terms delta) t) == 0).
    { apply sum_all_zero. intros x Hx.
      destruct (loss_window_In x Hx) as (i & Hlo & Hhi & ->).
      rewrite loss_terms_nth, (delta_in_window i Hhi).
      destruct i as [|j]; [reflexivity|].
      specialize (Hup (S j) Hlo Hhi ltac:(lia)).
      rewrite (Qle_bool_true 0) by lra. reflexivity. }
    rewrite E. field. lra.
Qed.

(** Every delta of the window is strictly negative. *)
Lemma rsi_all_losses :
  (1 <= t)%nat ->
  (forall i, (t + 1 - window <= i)%nat -> (i <= t)%nat -> (1 <= i)%nat ->
             nth i closes 0 < nth (i - 1) closes 0) ->
  Pandas.xeq (nth t (StockDashboard.calculate_rsi data window) Pandas.NaN)
             (Pandas.Fin 0).
Proof.
  intros Ht1 Hdown.
  rewrite calculate_rsi_nth by assumption. fold closes delta.
  destruct rolling_gain_loss as [-> ->].
  pose proof (window_size_positive window window_positive) as HW.
  apply rsi_of_no_gain.
  - assert (E : Py.sum (Pandas.window_at window
                          (StockDashboard.gain_terms delta) t) == 0).
    { apply sum_all_zero. intros x Hx.
      destruct (gain_window_In x Hx) as (i & Hlo & Hhi & ->).
      rewrite gain_terms_nth, (delta_in_window i Hhi).
      destruct i as [|j]; [reflexivity|].
      specialize (Hdown (S j) Hlo Hhi ltac:(lia)).
      rewrite (Qle_bool_true _ 0) by lra. reflexivity. }
    rewrite E. field. lra.
  - apply Qlt_shift_div_l; [exact HW|]. rewrite Qmult_0_l.
    apply sum_positive
      with (y := nth t (StockDashboard.loss_terms delta) 0).
    + intros x Hx. destruct (loss_window_In x Hx) as (i & Hlo & Hhi & ->).
      rewrite loss_terms_nth, (delta_in_window i Hhi).
      destruct i as [|j]; [discriminate|].
      destruct (Qle_bool 0 _) eqn:E; [discriminate|].
      apply Qle_bool_false_inv in E. lra.
    + apply loss_latest_In.
    + rewrite loss_terms_nth, (delta_in_window t (Nat.le_refl t)).
      destruct t as [|j]; [lia|].
      specialize (Hdown (S j) ltac:(lia) ltac:(lia) ltac:(lia)).
      rewrite (Qle_bool_false 0) by lra. lra.
Qed.

End RsiWindow.

(** C7.  At a sample [t >= 1] whose window is complete, if every price
    change inside the window is strictly positive (so the mean loss is 0
    and [gain / loss] is infinite) the RSI is 100, and if every price
    change is strictly negative (the mean gain is 0) the RSI is 0. *)
Theorem rsi_saturates (data : Pandas.frame) (window t : nat) :
  let closes := map Pandas.Close data in
  (1 <= window)%nat -> (window <= t + 1)%nat ->
  (1 <= t)%nat -> (t < length data)%nat ->
  ((forall i, (t + 1 - window <= i)%nat -> (i <= t)%nat -> (1 <= i)%nat ->
              nth (i - 1) closes 0 < nth i closes 0) ->
   Pandas.xeq (nth t (StockDashboard.calculate_rsi data window) Pandas.NaN)
              (Pandas.Fin 100))
  /\ ((forall i, (t + 1 - window <= i)%nat -> (i <= t)%nat -> (1 <= i)%nat ->
                 nth i closes 0 < nth (i - 1) closes 0) ->
      Pandas.xeq
        (nth t (StockDashboard.calculate_rsi data window) Pandas.NaN)
        (Pandas.Fin 0)).
Proof.
  intros closes Hw Hfull Ht1 Ht. split; intros Hmono.
  - now apply rsi_all_gains.
  - now apply rsi_all_losses.
Qed.

Lemma rsi_saturates_witness :
  Pandas.xeq (nth 2 (StockDashboard.calculate_rsi rising 2) Pandas.NaN)
             (Pandas.Fin 100)
  /\ Pandas.xeq (nth 2 (StockDashboard.calculate_rsi falling 2) Pandas.NaN)
                (Pandas.Fin 0).
Proof.
  split.
  - apply (proj1 (rsi_saturates rising 2 2 ltac:(lia) ltac:(lia)
                    ltac:(lia) ltac:(simpl; lia))).
    intros i Hlo Hhi _.
    assert (Hi : i = 1%nat \/ i = 2%nat) by (simpl in Hlo; lia).
    destruct Hi as [-> | ->]; reflexivity.
  - apply (proj2 (rsi_saturates falling 2 2 ltac:(lia) ltac:(lia)
                    ltac:(lia) ltac:(simpl; lia))).
    intros i Hlo Hhi _.
    assert (Hi : i = 1%nat \/ i = 2%nat) by (simpl in Hlo; lia).
    destruct Hi as [-> | ->]; reflexivity.
Defined.

(** The same two runs, evaluated. *)
Example rsi_rising_falling :
  Pandas.xeq (nth 2 (StockDashboard.calculate_rsi rising 2) Pandas.NaN)
             (Pandas.Fin 100)
  /\ Pandas.xeq (nth 2 (StockDashboard.calculate_rsi falling 2) Pandas.NaN)
                (Pandas.Fin 0)
  /\ nth 0 (StockDashboard.calculate_rsi rising 2) (Pandas.Fin 0)
     = Pandas.NaN.
Proof. repeat split. Qed.

(** * Further properties of the scripts *)

(** ** Rounding to the nearest double *)

Lemma round_half_even_comp (x y : Q) :
  x == y -> Float.round_half_even x = Float.round_half_even y.
Proof.
  intros E. unfold Float.round_half_even.
  rewrite (Qfloor_comp _ _ E).
  assert (E' : x - inject_Z (Qfloor y) == y - inject_Z (Qfloor y))
    by (rewrite E; reflexivity).
  now rewrite (Qcompare_comp _ _ E' _ _ (Qeq_refl (1 # 2))).
Qed.

Lemma round_half_even_floor (x : Q) :
  (Qfloor x <= Float.round_half_even x <= Qfloor x + 1)%Z.
Proof.
  unfold Float.round_half_even.
  destruct (Qcompare _ _); [destruct (Z.even _)| |]; lia.
Qed.

Lemma round_half_even_inject_Z (k : Z) :
  Float.round_half_even (inject_Z k) = k.
Proof.
  unfold Float.round_half_even. rewrite Qfloor_Z.
  destruct (Qcompare_spec (inject_Z k - inject_Z k) (1 # 2)) as [H|H|H];
    [exfalso; lra | reflexivity | exfalso; lra].
Qed.

Lemma round_half_even_mono (x y : Q) :
  x <= y -> (Float.round_half_even x <= Float.round_half_even y)%Z.
Proof.
  intros Hxy.
  pose proof (Qfloor_resp_le _ _ Hxy) as Hf.
  pose proof (round_half_even_floor x) as Hx.
  pose proof (round_half_even_floor y) as Hy.
  destruct (Z.eq_dec (Qfloor x) (Qfloor y)) as [E|N]; [|lia].
  clear Hx Hy Hf. unfold Float.round_half_even. rewrite <- E.
  destruct (Qcompare_spec (x - inject_Z (Qfloor x)) (1 # 2)) as [Hx|Hx|Hx];
    destruct (Qcompare_spec (y - inject_Z (Qfloor x)) (1 # 2))
      as [Hy|Hy|Hy];
    try destruct (Z.even (Qfloor x)); try lia; exfalso; lra.
Qed.

Lemma round_half_even_near (x : Q) :
  Qabs (inject_Z (Float.round_half_even x) - x) <= 1 # 2.
Proof.
  pose proof (Qfloor_le x) as Hlo. pose proof (Qlt_floor x) as Hhi.
  rewrite inject_Z_plus in Hhi.
  change (inject_Z 1) with 1 in Hhi.
  unfold Float.round_half_even.
  apply Qabs_Qle_condition.
  destruct (Qcompare_spec (x - inject_Z (Qfloor x)) (1 # 2)) as [H|H|H];
    try destruct (Z.even (Qfloor x));
    rewrite ?inject_Z_plus; change (inject_Z 1) with 1; lra.
Qed.

Lemma two_power_pos (e : Z) : 0 < 2 ^ e.
Proof. apply Qpower_0_lt. reflexivity. Qed.

Lemma two_power_succ (e : Z) : 2 ^ (e + 1) == 2 * 2 ^ e.
Proof.
  rewrite Qpower_plus by discriminate. rewrite Qpower_1_r. ring.
Qed.

Lemma two_power_le (n m : Z) : (n <= m)%Z -> 2 ^ n <= 2 ^ m.
Proof. intros H. apply Qpower_le_compat_l; [exact H | discriminate]. Qed.

Lemma log2_bounds (n : Z) :
  (0 < n)%Z ->
  2 ^ Z.log2 n <= inject_Z n /\ inject_Z n < 2 * 2 ^ Z.log2 n.
Proof.
  intros Hn. destruct (Z.log2_spec n Hn) as [Hlo Hhi].
  pose proof (Z.log2_nonneg n) as H0.
  rewrite <- two_power_succ.
  change 2 with (inject_Z 2).
  rewrite <- !Zpower_Qpower by lia.
  split; [now rewrite <- Zle_Qle | rewrite <- Zlt_Qlt].
  now rewrite <- Z.add_1_r in Hhi.
Qed.

Lemma ilog2_spec (x : Q) :
  0 < x -> 2 ^ Float.ilog2 x <= x /\ x < 2 ^ (Float.ilog2 x + 1).
Proof.
  intros Hx. unfold Float.ilog2.
  set (a := Z.log2 (Qnum x)). set (b := Z.log2 (Z.pos (Qden x))).
  assert (Hn : (0 < Qnum x)%Z).
  { destruct x as [n d]. unfold Qlt in Hx. simpl in *. lia. }
  destruct (log2_bounds (Qnum x) Hn) as [Hna Hnb].
  destruct (log2_bounds (Z.pos (Qden x)) eq_refl) as [Hda Hdb].
  fold a in Hna, Hnb. fold b in Hda, Hdb.
  assert (Ex : x * inject_Z (Z.pos (Qden x)) == inject_Z (Qnum x)).
  { destruct x as [n d]. simpl. unfold Qeq, Qmult, inject_Z. simpl. lia. }
  set (N := inject_Z (Qnum x)) in *.
  set (D := inject_Z (Z.pos (Qden x))) in *.
  pose proof (two_power_pos a) as Pa. pose proof (two_power_pos b) as Pb.
  assert (ET : 2 ^ (a - b) * 2 ^ b == 2 ^ a).
  { rewrite Qpower_minus by discriminate. field.
    intro H. rewrite H in Pb. now apply Qlt_irrefl in Pb. }
  pose proof (two_power_pos (a - b)) as PT.
  destruct (Qle_bool (2 ^ (a - b)) x) eqn:Hb.
  - apply Qle_bool_iff in Hb. split; [exact Hb|].
    rewrite two_power_succ.
    set (T := 2 ^ (a - b)) in *. set (A := 2 ^ a) in *.
    set (B := 2 ^ b) in *. clearbody N D T A B.
    assert (H1 : x * B <= x * D)
      by (rewrite !(Qmult_comm x); apply Qmult_le_compat_r; lra).
    apply Qnot_le_lt. intros Hc.
    assert (H2 : 2 * T * B <= x * B)
      by (apply Qmult_le_compat_r; lra).
    lra.
  - assert (Hlt : x < 2 ^ (a - b)).
    { apply Qnot_le_lt. intros Hc. apply Qle_bool_iff in Hc. congruence. }
    replace (a - b - 1 + 1)%Z with (a - b)%Z by lia.
    split; [|exact Hlt].
    assert (E2 : 2 ^ (a - b) == 2 * 2 ^ (a - b - 1)).
    { rewrite <- two_power_succ. now replace (a - b - 1 + 1)%Z
        with (a - b)%Z by lia. }
    set (T := 2 ^ (a - b)) in *. set (A := 2 ^ a) in *.
    set (B := 2 ^ b) in *. set (T' := 2 ^ (a - b - 1)) in *.
    clearbody N D T A B T'.
    apply Qnot_lt_le. intros Hc.
    assert (H1 : x * D <= x * (2 * B))
      by (rewrite !(Qmult_comm x); apply Qmult_le_compat_r; lra).
    assert (H2 : x * (2 * B) < T' * (2 * B)).
    { apply Qmult_lt_compat_r; lra. }
    nra.
Qed.

Lemma ilog2_mono (x y : Q) :
  0 < x -> x <= y -> (Float.ilog2 x <= Float.ilog2 y)%Z.
Proof.
  intros Hx Hxy.
  destruct (ilog2_spec x Hx) as [Hlo _].
  destruct (ilog2_spec y ltac:(lra)) as [_ Hhi].
  assert (H : 2 ^ Float.ilog2 x < 2 ^ (Float.ilog2 y + 1)) by lra.
  apply Qpower_lt_compat_l_inv in H; [lia | reflexivity].
Qed.

Lemma ulp_pos (x : Q) : 0 < Float.ulp x.
Proof. apply two_power_pos. Qed.

(** The quotient [x / ulp x] is below [2^53], and at least [2^52] in the
    normal range. *)
Lemma mantissa_bounds (x : Q) :
  0 < x ->
  x < 2 ^ 53 * Float.ulp x
  /\ ((-1022 <= Float.ilog2 x)%Z -> 2 ^ 52 * Float.ulp x <= x).
Proof.
  intros Hx. destruct (ilog2_spec x Hx) as [Hlo Hhi]. unfold Float.ulp.
  split.
  - rewrite <- Qpower_plus by discriminate.
    apply Qlt_le_trans with (1 := Hhi). apply two_power_le. lia.
  - intros Hn. rewrite <- Qpower_plus by discriminate.
    apply Qle_trans with (2 := Hlo). apply two_power_le. lia.
Qed.

Lemma round_positive_bounds (x : Q) :
  0 < x ->
  0 <= Float.round_positive x
  /\ Float.round_positive x <= 2 ^ 53 * Float.ulp x
  /\ ((-1022 <= Float.ilog2 x)%Z ->
      2 ^ 52 * Float.ulp x <= Float.round_positive x).
Proof.
  intros Hx. destruct (mantissa_bounds x Hx) as [Hhi Hlo].
  pose proof (ulp_pos x) as Hu. unfold Float.round_positive.
  assert (Hq : forall k : Z,
             inject_Z k * Float.ulp x <= x ->
             inject_Z k
             <= inject_Z (Float.round_half_even (x / Float.ulp x))).
  { intros k Hk. rewrite <- Zle_Qle.
    rewrite <- (round_half_even_inject_Z k) at 1.
    apply round_half_even_mono. apply Qle_shift_div_l; assumption. }
  assert (Hq' : forall k : Z,
             x <= inject_Z k * Float.ulp x ->
             inject_Z (Float.round_half_even (x / Float.ulp x))
             <= inject_Z k).
  { intros k Hk. rewrite <- Zle_Qle.
    rewrite <- (round_half_even_inject_Z k) at 1.
    apply round_half_even_mono. apply Qle_shift_div_r; assumption. }
  assert (E53 : 2 ^ 53 == inject_Z (2 ^ 53)) by reflexivity.
  assert (E52 : 2 ^ 52 == inject_Z (2 ^ 52)) by reflexivity.
  split; [|split].
  - apply Qmult_le_0_compat; [|lra].
    apply (Hq 0%Z). change (inject_Z 0) with 0. lra.
  - apply Qmult_le_compat_r; [|lra]. rewrite E53. apply Hq'.
    rewrite <- E53. lra.
  - intros Hn. apply Qmult_le_compat_r; [|lra]. rewrite E52. apply Hq.
    rewrite <- E52. auto.
Qed.

Lemma round_positive_mono (x y : Q) :
  0 < x -> x <= y -> Float.round_positive x <= Float.round_positive y.
Proof.
  intros Hx Hxy. assert (Hy : 0 < y) by lra.
  pose proof (ilog2_mono x y Hx Hxy) as He.
  destruct (Z.eq_dec (Z.max (Float.ilog2 x) (-1022))
                     (Z.max (Float.ilog2 y) (-1022))) as [E|N].
  - unfold Float.round_positive, Float.ulp. rewrite E.
    set (u := 2 ^ (Z.max (Float.ilog2 y) (-1022) - 52)).
    assert (Hu : 0 < u) by apply two_power_pos.
    apply Qmult_le_compat_r; [|lra]. rewrite <- Zle_Qle.
    apply round_half_even_mono. unfold Qdiv.
    apply Qmult_le_compat_r; [exact Hxy|].
    apply Qlt_le_weak, Qinv_lt_0_compat, Hu.
  - destruct (round_positive_bounds x Hx) as (_ & Hhi & _).
    destruct (round_positive_bounds y Hy) as (_ & _ & Hlo).
    specialize (Hlo ltac:(lia)).
    apply Qle_trans with (1 := Hhi). apply Qle_trans with (2 := Hlo).
    unfold Float.ulp. rewrite <- !Qpower_plus by discriminate.
    apply two_power_le. lia.
Qed.

Lemma binary64_cases (x : Q) :
  (x == 0 /\ Float.binary64 x = 0)
  \/ (0 < x /\ Float.binary64 x = Float.round_positive x)
  \/ (x < 0 /\ Float.binary64 x = - Float.round_positive (- x)).
Proof.
  unfold Float.binary64.
  destruct (Qcompare_spec x 0) as [H|H|H]; auto.
Qed.

(** Rounding to the nearest double is monotone. *)
Lemma binary64_mono (x y : Q) :
  x <= y -> Float.binary64 x <= Float.binary64 y.
Proof.
  intros Hxy.
  destruct (binary64_cases x) as [[Hx Ex]|[[Hx Ex]|[Hx Ex]]];
    destruct (binary64_cases y) as [[Hy Ey]|[[Hy Ey]|[Hy Ey]]];
    rewrite Ex, Ey; try (exfalso; lra).
  - lra.
  - now destruct (round_positive_bounds y Hy).
  - now apply round_positive_mono.
  - destruct (round_positive_bounds (- x)) as [H _]; lra.
  - destruct (round_positive_bounds (- x)) as [H _]; [lra|].
    destruct (round_positive_bounds y Hy) as [H' _]. lra.
  - assert (H : Float.round_positive (- y) <= Float.round_positive (- x))
      by (apply round_positive_mono; lra).
    lra.
Qed.

Lemma binary64_comp (x y : Q) :
  x == y -> Float.binary64 x == Float.binary64 y.
Proof.
  intros E. apply Qle_antisym; apply binary64_mono; rewrite E; lra.
Qed.

Lemma binary64_opp (x : Q) : Float.binary64 (- x) == - Float.binary64 x.
Proof.
  destruct (binary64_cases x) as [[Hx Ex]|[[Hx Ex]|[Hx Ex]]];
    destruct (binary64_cases (- x)) as [[Hy Ey]|[[Hy Ey]|[Hy Ey]]];
    rewrite Ex, Ey; try (exfalso; lra).
  - reflexivity.
  - assert (E : Float.round_positive (- - x) == Float.round_positive x).
    { apply Qle_antisym; apply round_positive_mono; lra. }
    rewrite E. reflexivity.
  - lra.
Qed.

(** A number that is a whole multiple of its unit in the last place is a
    double: rounding leaves it as it is. *)
Lemma round_positive_exact (x : Q) (m : Z) :
  x == inject_Z m * Float.ulp x -> Float.round_positive x == x.
Proof.
  intros E. unfold Float.round_positive. pose proof (ulp_pos x) as Hu.
  assert (Eq : x / Float.ulp x == inject_Z m).
  { rewrite E at 1. field. lra. }
  rewrite (round_half_even_comp _ _ Eq), round_half_even_inject_Z.
  now symmetry.
Qed.

(** The integers up to [2^53] in magnitude are doubles. *)
Lemma binary64_integer (k : Z) :
  (Z.abs k <= 2 ^ 53)%Z -> Float.binary64 (inject_Z k) == inject_Z k.
Proof.
  assert (Hpos : forall k, (0 < k <= 2 ^ 53)%Z ->
            Float.round_positive (inject_Z k) == inject_Z k).
  { clear k. intros k [H0 H53].
    assert (Hk : 0 < inject_Z k).
    { change 0 with (inject_Z 0). now rewrite <- Zlt_Qlt. }
    destruct (ilog2_spec _ Hk) as [Hlo _].
    assert (He : (Float.ilog2 (inject_Z k) <= 53)%Z).
    { assert (H : 2 ^ Float.ilog2 (inject_Z k) <= 2 ^ 53).
      { apply Qle_trans with (1 := Hlo).
        change (2 ^ 53) with (inject_Z (2 ^ 53)). now rewrite <- Zle_Qle. }
      apply Qpower_le_compat_l_inv in H; [exact H | reflexivity]. }
    destruct (Z.eq_dec (Float.ilog2 (inject_Z k)) 53) as [E53|N53].
    - (* k = 2^53 *)
      assert (Ek : k = (2 ^ 53)%Z).
      { rewrite E53 in Hlo. change (2 ^ 53) with (inject_Z (2 ^ 53)) in Hlo.
        rewrite <- Zle_Qle in Hlo. lia. }
      apply (round_positive_exact _ (2 ^ 52)).
      unfold Float.ulp. rewrite E53. subst k. reflexivity.
    - set (s := (52 - Z.max (Float.ilog2 (inject_Z k)) (-1022))%Z).
      assert (Hs : (0 <= s)%Z) by (unfold s; lia).
      apply (round_positive_exact _ (k * 2 ^ s)).
      unfold Float.ulp.
      replace (Z.max (Float.ilog2 (inject_Z k)) (-1022) - 52)%Z
        with (- s)%Z by (unfold s; lia).
      rewrite inject_Z_mult, Zpower_Qpower by exact Hs.
      rewrite Qpower_opp. change (inject_Z 2) with 2. field.
      intro H. pose proof (two_power_pos s) as P. rewrite H in P.
      revert P. apply Qlt_irrefl. }
  intros Hk. destruct (Z.lt_trichotomy k 0) as [Hn|[Hz|Hp]].
  - replace k with (- - k)%Z by lia. rewrite inject_Z_opp, binary64_opp.
    assert (E : Float.binary64 (inject_Z (- k)) == inject_Z (- k)).
    { destruct (binary64_cases (inject_Z (- k)))
        as [[H E]|[[H E]|[H E]]]; rewrite E.
      - now symmetry.
      - apply Hpos. lia.
      - exfalso. change 0 with (inject_Z 0) in H.
        rewrite <- Zlt_Qlt in H. lia. }
    now rewrite E.
  - subst k. reflexivity.
  - destruct (binary64_cases (inject_Z k)) as [[H E]|[[H E]|[H E]]];
      rewrite E.
    + now symmetry.
    + apply Hpos. lia.
    + exfalso. change 0 with (inject_Z 0) in H.
      rewrite <- Zlt_Qlt in H. lia.
Qed.

(** ** Formatting of large numbers *)

Lemma Qabs_cases (x : Q) :
  (0 <= x /\ Qabs x == x) \/ (x < 0 /\ Qabs x == - x).
Proof.
  destruct (Qlt_le_dec x 0) as [H|H].
  - right. split; [exact H|]. apply Qabs_neg. lra.
  - left. split; [exact H|]. now apply Qabs_pos.
Qed.

Lemma float_div_ge (num c : Q) (k : Z) :
  0 < c -> (Z.abs k <= 2 ^ 53)%Z -> inject_Z k * c <= num ->
  inject_Z k <= Float.div num c.
Proof.
  intros Hc Hk H. rewrite <- (binary64_integer k Hk).
  apply binary64_mono. now apply Qle_shift_div_l.
Qed.

Lemma float_div_le (num c : Q) (k : Z) :
  0 < c -> (Z.abs k <= 2 ^ 53)%Z -> num <= inject_Z k * c ->
  Float.div num c <= inject_Z k.
Proof.
  intros Hc Hk H. rewrite <- (binary64_integer k Hk).
  apply binary64_mono. now apply Qle_shift_div_r.
Qed.

Lemma hundredths_ge (x : Q) (k : Z) :
  inject_Z k <= x * 100 -> (k <= Py.hundredths x)%Z.
Proof.
  intros H. rewrite <- (round_half_even_inject_Z k).
  now apply round_half_even_mono.
Qed.

Lemma hundredths_le (x : Q) (k : Z) :
  x * 100 <= inject_Z k -> (Py.hundredths x <= k)%Z.
Proof.
  intros H. rewrite <- (round_half_even_inject_Z k).
  now apply round_half_even_mono.
Qed.

(** The number shown is within half a hundredth of the float. *)
Lemma hundredths_near (x : Q) :
  Qabs (inject_Z (Py.hundredths x) / 100 - x) <= 1 # 200.
Proof.
  pose proof (round_half_even_near (x * 100)) as H.
  apply Qabs_Qle_condition in H. apply Qabs_Qle_condition.
  unfold Py.hundredths.
  set (h := inject_Z (Float.round_half_even (x * 100))) in *.
  clearbody h. split.
  - apply Qle_minus_iff. setoid_replace (h / 100 - x + - - (1 # 200))
      with ((h - x * 100 - - (1 # 2)) / 100) by field.
    apply Qle_shift_div_l; lra.
  - apply Qle_minus_iff. setoid_replace ((1 # 200) + - (h / 100 - x))
      with (((1 # 2) - (h - x * 100)) / 100) by field.
    apply Qle_shift_div_l; lra.
Qed.

(** A quotient by the unit of at least 1 in magnitude shows as at least
    1.00, and one below 1000 as at most 1,000.00. *)
Lemma shown_at_least_one (num c : Q) :
  0 < c -> c <= Qabs num ->
  (100 <= Z.abs (Py.hundredths (Float.div num c)))%Z.
Proof.
  intros Hc Hnum.
  destruct (Qabs_cases num) as [[H0 E] | [H0 E]]; rewrite E in Hnum.
  - assert (H : 1 <= Float.div num c)
      by (apply (float_div_ge num c 1); [exact Hc | lia |];
          change (inject_Z 1) with 1; lra).
    assert (Hh : (100 <= Py.hundredths (Float.div num c))%Z)
      by (apply hundredths_ge; change (inject_Z 100) with 100; lra).
    lia.
  - assert (H : Float.div num c <= - (1))
      by (apply (float_div_le num c (-1)); [exact Hc | lia |];
          change (inject_Z (-1)) with (- (1)); lra).
    assert (Hh : (Py.hundredths (Float.div num c) <= -100)%Z)
      by (apply hundredths_le; change (inject_Z (-100)) with (- (100));
          lra).
    lia.
Qed.

Lemma shown_at_most_thousand (num c : Q) :
  0 < c -> Qabs num < 1000 * c ->
  (Z.abs (Py.hundredths (Float.div num c)) <= 100000)%Z.
Proof.
  intros Hc Hnum. apply Qlt_le_weak, Qabs_Qle_condition in Hnum.
  destruct Hnum as [Hlo Hhi].
  assert (H1 : - (1000) <= Float.div num c)
    by (apply (float_div_ge num c (-1000)); [exact Hc | lia |];
        change (inject_Z (-1000)) with (- (1000)); lra).
  assert (H2 : Float.div num c <= 1000)
    by (apply (float_div_le num c 1000); [exact Hc | lia |];
        change (inject_Z 1000) with 1000; lra).
  assert (Hh1 : (-100000 <= Py.hundredths (Float.div num c))%Z)
    by (apply hundredths_ge; change (inject_Z (-100000)) with (- (100000));
        lra).
  assert (Hh2 : (Py.hundredths (Float.div num c) <= 100000)%Z)
    by (apply hundredths_le; change (inject_Z 100000) with 100000; lra).
  lia.
Qed.

Lemma append_empty (s : string) : (s ++ EmptyString)%string = s.
Proof. induction s as [|c s IH]; [reflexivity | simpl; now rewrite IH]. Qed.

(** Some renderings, as Python prints them. *)
Example format_large_number_samples :
  DiscountedCashFlow.format_large_number 1234567 = "1.23M"%string
  /\ DiscountedCashFlow.format_large_number (- (2500000000))
     = "-2.50B"%string
  /\ DiscountedCashFlow.format_large_number 1015000000 = "1.01B"%string
  /\ DiscountedCashFlow.format_large_number 1500000000000000
     = "1,500.00T"%string
  /\ DiscountedCashFlow.format_large_number
       (Float.binary64 (123456789 # 1000)) = "123,456.79"%string
  /\ DiscountedCashFlow.format_large_number (1 # 8) = "0.12"%string
  /\ DiscountedCashFlow.format_large_number (- (1 # 1000))
     = "-0.00"%string
  /\ DiscountedCashFlow.format_large_number 0 = "0.00"%string.
Proof. vm_compute. repeat split. Qed.

(** X1.  [format_large_number] picks the largest of the units million,
    billion and trillion that the magnitude of the number reaches,
    divides by it as floats do and prints the quotient with two decimals.
    What is printed is within half a hundredth of the quotient; it is at
    least 1.00 in magnitude for M, B and T and at most 1,000.00 for M and
    B, and that bound is reached: 999,999,999,999 is printed as
    "1,000.00B", not as a trillion.  A number printed without suffix is
    below one million in magnitude and shows as at most 1,000,000.00.
    The dashboard's version agrees on every number and shows [None] as
    "N/A". *)
Theorem format_large_number_unit (num : Q) :
  (exists u,
      DiscountedCashFlow.format_large_number num
      = (Py.format_2f (shown_number num u) ++ unit_text u)%string
      /\ in_unit_range num (Py.hundredths (shown_number num u)) u
      /\ Qabs (inject_Z (Py.hundredths (shown_number num u)) / 100
               - shown_number num u) <= 1 # 200)
  /\ (Qabs 999999999999 < 1000000000000
      /\ DiscountedCashFlow.format_large_number 999999999999
         = "1,000.00B"%string)
  /\ StockDashboard.format_large_number (Py.PyNum num)
     = DiscountedCashFlow.format_large_number num
  /\ StockDashboard.format_large_number Py.PyNone = "N/A"%string.
Proof.
  split; [|split; [|split; reflexivity]].
  2:{ split; [reflexivity | vm_compute; reflexivity]. }
  unfold DiscountedCashFlow.format_large_number.
  destruct (Qle_bool 1000000000000 (Qabs num)) eqn:E12.
  { apply Qle_bool_iff in E12. exists Trillions.
    split; [reflexivity|]. split; [|apply hundredths_near].
    split; [exact E12|]. now apply shown_at_least_one. }
  apply Qle_bool_false_inv in E12.
  destruct (Qle_bool 1000000000 (Qabs num)) eqn:E9.
  { apply Qle_bool_iff in E9. exists Billions.
    split; [reflexivity|]. split; [|apply hundredths_near].
    split; [exact E9|]. split; [exact E12|]. split.
    - now apply shown_at_least_one.
    - apply shown_at_most_thousand; [reflexivity | exact E12]. }
  apply Qle_bool_false_inv in E9.
  destruct (Qle_bool 1000000 (Qabs num)) eqn:E6.
  { apply Qle_bool_iff in E6. exists Millions.
    split; [reflexivity|]. split; [|apply hundredths_near].
    split; [exact E6|]. split; [exact E9|]. split.
    - now apply shown_at_least_one.
    - apply shown_at_most_thousand; [reflexivity | exact E9]. }
  apply Qle_bool_false_inv in E6.
  exists NoSuffix. split; [now rewrite append_empty|].
  split; [|apply hundredths_near].
  split; [exact E6|]. simpl shown_number.
  apply Qlt_le_weak, Qabs_Qle_condition in E6. destruct E6 as [Hlo Hhi].
  assert (H1 : (-100000000 <= Py.hundredths num)%Z)
    by (apply hundredths_ge;
        change (inject_Z (-100000000)) with (- (100000000)); lra).
  assert (H2 : (Py.hundredths num <= 100000000)%Z)
    by (apply hundredths_le;
        change (inject_Z 100000000) with 100000000; lra).
  lia.
Qed.

(** ** When the DCF computations return a value *)

Lemma per_share_value_inv
    (stock : DiscountedCashFlow.ticker_data) (tev v : Q)
    (out : list DiscountedCashFlow.printed) :
  DiscountedCashFlow.per_share stock tev = (out, Value v) ->
  exists stock_info cash debt shares,
    DiscountedCashFlow.info stock = Py.Fetched stock_info
    /\ Py.get (totalCash stock_info) (Py.PyNum 0) = Py.PyNum cash
    /\ Py.get (totalDebt stock_info) (Py.PyNum 0) = Py.PyNum debt
    /\ sharesOutstanding stock_info = Py.Present (Py.PyNum shares)
    /\ ~ shares == 0.
Proof.
  unfold DiscountedCashFlow.per_share.
  destruct (DiscountedCashFlow.info stock) as [|stock_info];
    [discriminate|].
  cbv zeta.
  destruct (sharesOutstanding stock_info) as [|[|shares]] eqn:Hs;
    simpl; try discriminate.
  destruct (Qeq_bool shares 0) eqn:Hz; [discriminate|].
  destruct (Py.get (totalCash stock_info) (Py.PyNum 0)) as [|cash] eqn:Hc;
    [discriminate|].
  destruct (Py.get (totalDebt stock_info) (Py.PyNum 0)) as [|debt] eqn:Hd;
    [discriminate|].
  intros _. exists stock_info, cash, debt, shares.
  repeat split; try assumption.
  intros H. apply Qeq_bool_iff in H. congruence.
Qed.

Lemma calculate_dcf_value_value_inv
    (stock : DiscountedCashFlow.ticker_data) (years : nat) (g r tg : Q)
    (out : list DiscountedCashFlow.printed) (v : Q) :
  DiscountedCashFlow.calculate_dcf_value stock years g r tg
  = (out, Value v) ->
  exists current_fcf stock_info cash debt shares,
    DiscountedCashFlow.get_free_cash_flow stock = Some current_fcf
    /\ (1 <= years)%nat /\ tg < r
    /\ DiscountedCashFlow.info stock = Py.Fetched stock_info
    /\ Py.get (totalCash stock_info) (Py.PyNum 0) = Py.PyNum cash
    /\ Py.get (totalDebt stock_info) (Py.PyNum 0) = Py.PyNum debt
    /\ sharesOutstanding stock_info = Py.Present (Py.PyNum shares)
    /\ ~ shares == 0.
Proof.
  intros Hrun.
  unfold DiscountedCashFlow.calculate_dcf_value in Hrun.
  destruct (DiscountedCashFlow.get_free_cash_flow stock)
    as [current_fcf|] eqn:Hfcf; [|discriminate].
  cbv zeta in Hrun.
  destruct years as [|n]; [discriminate|].
  destruct (project_fcf_last current_fcf g n) as (last_fcf & Hlast & _).
  rewrite Hlast in Hrun.
  destruct (Qle_bool r tg) eqn:Hr; [discriminate|].
  apply Qle_bool_false_inv in Hr.
  destruct (DiscountedCashFlow.per_share stock _) as [out6 res] eqn:Hstep.
  injection Hrun as _ ->.
  destruct (per_share_value_inv _ _ _ _ Hstep)
    as (stock_info & cash & debt & shares & H).
  exists current_fcf, stock_info, cash, debt, shares.
  split; [reflexivity|]. split; [lia|]. split; [exact Hr | exact H].
Qed.


Lemma perform_dcf_analysis_value_inv
    (stock : StockDashboard.ticker_data) (g r tg v : Q)
    (future : list Q) (tv : Q) :
  StockDashboard.perform_dcf_analysis stock g r tg
  = Value (v, future, tv) ->
  exists current_fcf stock_info cash debt shares,
    tg < r
    /\ StockDashboard.get_free_cash_flow stock = Some current_fcf
    /\ StockDashboard.info stock = Py.Fetched stock_info
    /\ Py.get (totalCash stock_info) (Py.PyNum 0) = Py.PyNum cash
    /\ Py.get (totalDebt stock_info) (Py.PyNum 0) = Py.PyNum debt
    /\ Py.get (sharesOutstanding stock_info) (Py.PyNum 1)
       = Py.PyNum shares
    /\ ~ shares == 0.
Proof.
  intros Hrun.
  unfold StockDashboard.perform_dcf_analysis in Hrun.
  destruct (Qle_bool r tg) eqn:Hr; [discriminate|].
  apply Qle_bool_false_inv in Hr.
  destruct (StockDashboard.get_free_cash_flow stock)
    as [current_fcf|] eqn:Hfcf; [|discriminate].
  cbv zeta in Hrun.
  destruct (future_fcf_last current_fcf g) as (last_fcf & Hlast & _).
  rewrite Hlast in Hrun.
  destruct (StockDashboard.info stock) as [|stock_info] eqn:Hinfo;
    [discriminate|].
  destruct (Py.get (sharesOutstanding stock_info) (Py.PyNum 1))
    as [|shares] eqn:Hs.
  { destruct (Py.get (totalDebt stock_info) (Py.PyNum 0));
      [discriminate|].
    destruct (Py.get (totalCash stock_info) (Py.PyNum 0));
      discriminate. }
  destruct (Qeq_bool shares 0) eqn:Hz; [discriminate|].
  destruct (Py.get (totalDebt stock_info) (Py.PyNum 0)) as [|debt] eqn:Hd;
    [discriminate|].
  destruct (Py.get (totalCash stock_info) (Py.PyNum 0)) as [|cash] eqn:Hc;
    [discriminate|].
  exists current_fcf, stock_info, cash, debt, shares.
  repeat split; try assumption; try reflexivity.
  intros H. apply Qeq_bool_iff in H. congruence.
Qed.




(** ** The two DCF scripts on the same provider data *)

Lemma get_free_cash_flow_agree
    (s1 : DiscountedCashFlow.ticker_data)
    (s2 : StockDashboard.ticker_data) :
  DiscountedCashFlow.cashflow s1 = StockDashboard.cashflow s2 ->
  (forall cf, StockDashboard.cashflow s2 = Py.Fetched cf ->
              cf_empty cf = false) ->
  DiscountedCashFlow.get_free_cash_flow s1
  = StockDashboard.get_free_cash_flow s2.
Proof.
  intros Hcf Hne.
  unfold DiscountedCashFlow.get_free_cash_flow,
    StockDashboard.get_free_cash_flow.
  rewrite Hcf.
  destruct (StockDashboard.cashflow s2) as [|cf]; [reflexivity|].
  now rewrite (Hne cf eq_refl).
Qed.

(** X4.  The two DCF scripts accept the same provider data.  With a
    cash-flow statement that is not empty, whenever [calculate_dcf_value]
    returns a value the dashboard's [perform_dcf_analysis] returns one
    too; and whenever the dashboard returns a value and the share count
    is present in the company facts, the script returns one for every
    projection of at least one year.  Nothing is said about the two
    values being the same float: the script compounds the flows year by
    year and the dashboard raises [1 + g] to a power, and the results can
    differ in the last digits. *)
Theorem dcf_scripts_accept_same_data
    (s1 : DiscountedCashFlow.ticker_data)
    (s2 : StockDashboard.ticker_data) (years : nat) (g r tg : Q) :
  DiscountedCashFlow.cashflow s1 = StockDashboard.cashflow s2 ->
  DiscountedCashFlow.info s1 = StockDashboard.info s2 ->
  (forall cf, StockDashboard.cashflow s2 = Py.Fetched cf ->
              cf_empty cf = false) ->
  (forall out v1,
      DiscountedCashFlow.calculate_dcf_value s1 years g r tg
      = (out, Value v1) ->
      exists v2 future tv,
        StockDashboard.perform_dcf_analysis s2 g r tg
        = Value (v2, future, tv))
  /\ (forall v2 future tv stock_info,
         StockDashboard.perform_dcf_analysis s2 g r tg
         = Value (v2, future, tv) ->
         StockDashboard.info s2 = Py.Fetched stock_info ->
         sharesOutstanding stock_info <> Py.Absent ->
         (1 <= years)%nat ->
         exists out v1,
           DiscountedCashFlow.calculate_dcf_value s1 years g r tg
           = (out, Value v1)).
Proof.
  intros Hcf Hinfo Hne.
  pose proof (get_free_cash_flow_agree s1 s2 Hcf Hne) as Hfcf.
  split.
  - intros out v1 Hrun.
    destruct (calculate_dcf_value_value_inv _ _ _ _ _ _ _ Hrun)
      as (current_fcf & stock_info & cash & debt & shares
          & H1 & _ & Hr & H2 & Hcash & Hdebt & Hshares & Hnz).
    pose proof (f_equal (fun e => Py.get e (Py.PyNum 1)) Hshares) as Hs2.
    rewrite Hfcf in H1. rewrite Hinfo in H2.
    destruct (perform_dcf_analysis_ok s2 g r tg current_fcf stock_info
                cash debt shares H1 Hr H2 Hcash Hdebt Hs2 Hnz)
      as (ev & v2 & tv & Hrun2 & _).
    now exists v2, (StockDashboard.future_fcf current_fcf g), tv.
  - intros v2 future tv stock_info Hrun Hinfo2 Hpresent Hyears.
    destruct (perform_dcf_analysis_value_inv _ _ _ _ _ _ _ Hrun)
      as (current_fcf & stock_info' & cash & debt & shares
          & Hr & H1 & H2 & Hcash & Hdebt & Hshares & Hnz).
    assert (stock_info' = stock_info) as -> by congruence.
    assert (Hs : Py.get (sharesOutstanding stock_info) Py.PyNone
                 = Py.PyNum shares).
    { destruct (sharesOutstanding stock_info) as [|val];
        [contradiction | exact Hshares]. }
    rewrite <- Hfcf in H1. rewrite <- Hinfo in H2.
    destruct years as [|n]; [lia|].
    destruct (calculate_dcf_value_ok s1 n g r tg current_fcf stock_info
                cash debt shares H1 Hr H2 Hcash Hdebt Hs Hnz)
      as (out & tev & v1 & Hrun1 & _).
    now exists out, v1.
Qed.

Lemma dcf_scripts_accept_same_data_witness :
  (exists v2 future tv,
      StockDashboard.perform_dcf_analysis sample_dashboard_stock
        (1 # 10) (1 # 10) (1 # 20) = Value (v2, future, tv))
  /\ exists out v1,
       DiscountedCashFlow.calculate_dcf_value sample_stock 3
         (1 # 10) (1 # 10) (1 # 20) = (out, Value v1).
Proof.
  assert (Hne : forall cf,
            StockDashboard.cashflow sample_dashboard_stock = Py.Fetched cf
            -> cf_empty cf = false)
    by (intros cf [= <-]; reflexivity).
  split.
  - eapply (proj1 (dcf_scripts_accept_same_data sample_stock
                     sample_dashboard_stock 5 (1 # 10) (1 # 10) (1 # 20)
                     eq_refl eq_refl Hne)).
    reflexivity.
  - eapply (proj2 (dcf_scripts_accept_same_data sample_stock
                     sample_dashboard_stock 3 (1 # 10) (1 # 10) (1 # 20)
                     eq_refl eq_refl Hne));
      [reflexivity | reflexivity | discriminate | lia].
Defined.

(** ** Sensitivity of the dividend discount model *)

Lemma ddm_positive (d g r : Q) :
  0 < d -> 0 < 1 + g -> g < r -> 0 < d * (1 + g) / (r - g).
Proof.
  intros Hd Hg Hr. apply Qlt_shift_div_l; [lra|].
  rewrite Qmult_0_l. apply Qmult_lt_0_compat; assumption.
Qed.

Lemma ddm_decreasing_in_return (d g r r' : Q) :
  0 < d -> 0 < 1 + g -> g < r -> r < r' ->
  d * (1 + g) / (r' - g) < d * (1 + g) / (r - g).
Proof.
  intros Hd Hg Hr Hr'.
  assert (Hn : 0 < d * (1 + g)) by (apply Qmult_lt_0_compat; assumption).
  set (n := d * (1 + g)) in *.
  apply Qlt_shift_div_r; [lra|].
  assert (E : n / (r - g) * (r' - g) == n * ((r' - g) / (r - g))).
  { field. lra. }
  rewrite E.
  assert (H1 : 1 < (r' - g) / (r - g)).
  { apply Qlt_shift_div_l; lra. }
  assert (H2 : n * 1 < n * ((r' - g) / (r - g))).
  { apply Qmult_lt_l; assumption. }
  lra.
Qed.

Lemma ddm_increasing_in_growth (d g g' r : Q) :
  0 < d -> 0 < 1 + g -> g < g' -> g' < r ->
  d * (1 + g) / (r - g) < d * (1 + g') / (r - g').
Proof.
  intros Hd Hg Hgg Hr.
  assert (Hk : (1 + g) / (r - g) < (1 + g') / (r - g')).
  { apply gordon_ratio_increasing; lra. }
  assert (E : forall x, x < r ->
                d * (1 + x) / (r - x) == d * ((1 + x) / (r - x))).
  { intros x Hx. field. lra. }
  rewrite (E g), (E g') by lra.
  apply Qmult_lt_l; assumption.
Qed.

(** X5.  For a positive latest dividend, a growth rate above -100% and a
    required return above the growth rate, the value computed by
    [calculate_intrinsic_value] is positive, gets strictly smaller when
    the required return is raised and strictly larger when the growth
    rate is raised (still below the required return). *)
Theorem ddm_sensitivity
    (stock : IntrinsicValue.ticker_data) (history : list Q) (d g r : Q) :
  IntrinsicValue.dividends stock = Py.Fetched history ->
  Py.last_item history = Some d ->
  0 < d -> 0 < 1 + g -> g < r ->
  exists v,
    IntrinsicValue.calculate_intrinsic_value stock g r = Value v
    /\ 0 < v
    /\ (forall r', r < r' ->
          exists v', IntrinsicValue.calculate_intrinsic_value stock g r'
                     = Value v' /\ v' < v)
    /\ (forall g', g < g' -> g' < r ->
          exists v', IntrinsicValue.calculate_intrinsic_value stock g' r
                     = Value v' /\ v < v').
Proof.
  intros Hdiv Hlast Hd Hg Hr.
  unfold IntrinsicValue.calculate_intrinsic_value.
  rewrite Hdiv, Hlast, (Qle_bool_false _ _ Hr).
  eexists. split; [reflexivity|]. split; [|split].
  - now apply ddm_positive.
  - intros r' Hr'. rewrite (Qle_bool_false r' g) by lra.
    eexists. split; [reflexivity|]. now apply ddm_decreasing_in_return.
  - intros g' Hgg Hg'r. rewrite (Qle_bool_false r g') by lra.
    eexists. split; [reflexivity|]. now apply ddm_increasing_in_growth.
Qed.

Lemma ddm_sensitivity_witness :
  exists v,
    IntrinsicValue.calculate_intrinsic_value sample_dividend_stock
      (4 # 100) (9 # 100) = Value v
    /\ 0 < v
    /\ (forall r', 9 # 100 < r' ->
          exists v', IntrinsicValue.calculate_intrinsic_value
                       sample_dividend_stock (4 # 100) r'
                     = Value v' /\ v' < v)
    /\ (forall g', 4 # 100 < g' -> g' < 9 # 100 ->
          exists v', IntrinsicValue.calculate_intrinsic_value
                       sample_dividend_stock g' (9 # 100)
                     = Value v' /\ v < v').
Proof.
  apply (ddm_sensitivity sample_dividend_stock [1; 2 # 1] (2 # 1)
           (4 # 100) (9 # 100)); reflexivity.
Defined.

(** ** More on the golden-cross detector *)

Lemma rolling_mean_at_defined (w : nat) (xs : list Q) (t : nat) (m : Q) :
  Pandas.rolling_mean_at w xs t = Some m ->
  (1 <= w)%nat /\ (w <= t + 1)%nat.
Proof.
  unfold Pandas.rolling_mean_at.
  destruct (w =? 0)%nat eqn:E0; [discriminate|].
  destruct (t + 1 <? w)%nat eqn:E1; [discriminate|].
  apply Nat.eqb_neq in E0. apply Nat.ltb_ge in E1. lia.
Qed.

Lemma crosses_after_warm_up (w1 w2 : nat) (xs : list Q) (t : nat) :
  Spec.crosses (Pandas.rolling_mean_at w1 xs)
               (Pandas.rolling_mean_at w2 xs) t ->
  (1 <= w1 <= t)%nat /\ (1 <= w2 <= t)%nat.
Proof.
  intros (s & l & ps & pl & Ht & _ & _ & Hps & Hpl & _).
  apply rolling_mean_at_defined in Hps, Hpl. lia.
Qed.

(** X6.  A cross date is only ever reported for a row that has at least
    [short_window] and at least [long_window] rows before it, so that both
    averages exist on the row before: a frame with no more rows than the
    larger window never yields a cross date. *)
Theorem golden_cross_needs_full_windows
    (df : Pandas.frame) (short_window long_window : nat) :
  (long_window <= length df)%nat ->
  (forall d,
      fst (Sp500Scanner.calculate_golden_cross (Some df) short_window
             long_window) = Some d ->
      exists t row,
        nth_error df t = Some row /\ d = Pandas.Date row
        /\ (1 <= short_window <= t)%nat /\ (1 <= long_window <= t)%nat)
  /\ ((length df <= Nat.max short_window long_window)%nat ->
      fst (Sp500Scanner.calculate_golden_cross (Some df) short_window
             long_window) = None).
Proof.
  intros Hlen.
  pose proof (golden_cross_date_spec df short_window long_window Hlen)
    as Hspec.
  split.
  - intros d Hd. rewrite Hd in Hspec.
    destruct Hspec as (t & row & (_ & Hc & _) & Hrow & ->).
    exists t, row. split; [exact Hrow|]. split; [reflexivity|].
    now apply crosses_after_warm_up in Hc.
  - intros Hmax.
    destruct (fst (Sp500Scanner.calculate_golden_cross (Some df)
                     short_window long_window)) as [d|]; [|reflexivity].
    destruct Hspec as (t & row & (Ht & Hc & _) & _).
    apply crosses_after_warm_up in Hc. lia.
Qed.

Lemma golden_cross_needs_full_windows_witness :
  (forall d,
      fst (Sp500Scanner.calculate_golden_cross (Some three_sessions) 1 2)
      = Some d ->
      exists t row,
        nth_error three_sessions t = Some row /\ d = Pandas.Date row
        /\ (1 <= 1 <= t)%nat /\ (1 <= 2 <= t)%nat)
  /\ fst (Sp500Scanner.calculate_golden_cross (Some three_sessions) 2 3)
     = None.
Proof.
  split.
  - apply (proj1 (golden_cross_needs_full_windows three_sessions 1 2
                    ltac:(simpl; lia))).
  - apply (proj2 (golden_cross_needs_full_windows three_sessions 2 3
                    ltac:(simpl; lia))).
    simpl. lia.
Defined.

(** X7.  The detector never flags two consecutive rows: a row is flagged
    only if the short average is above the long one there, and the next
    row only if it is not. *)
Theorem golden_cross_not_on_consecutive_rows
    (df : Pandas.frame) (short_window long_window t : nat) :
  let closes := map Pandas.Close df in
  let mask :=
    Sp500Scanner.cross_mask (Pandas.rolling_mean short_window closes)
                            (Pandas.rolling_mean long_window closes) in
  nth t mask false = true -> nth (S t) mask false = false.
Proof.
  intros closes mask. unfold mask, Pandas.rolling_mean.
  rewrite cross_mask_map_seq.
  set (n := length closes).
  destruct (Nat.lt_ge_cases (S t) n) as [Hlt | Hge].
  - rewrite !nth_map_seq by lia.
    unfold mask_at. simpl previous.
    intros H. apply andb_true_iff in H. destruct H as [Hgt _].
    apply gt_true_iff in Hgt. destruct Hgt as (x & y & -> & -> & Hxy).
    simpl. rewrite (Qle_bool_false _ _ Hxy). apply andb_false_r.
  - intros _. apply nth_overflow. now rewrite length_map, length_seq.
Qed.

Lemma golden_cross_not_on_consecutive_rows_witness :
  nth 3
    (Sp500Scanner.cross_mask
       (Pandas.rolling_mean 1 (map Pandas.Close three_sessions))
       (Pandas.rolling_mean 2 (map Pandas.Close three_sessions))) false
  = false.
Proof.
  apply (golden_cross_not_on_consecutive_rows three_sessions 1 2 2).
  reflexivity.
Defined.

Lemma last_item_map_seq {A} (F : nat -> A) (n : nat) :
  Py.last_item (map F (seq 0 (S n))) = Some (F n).
Proof.
  rewrite seq_S, map_app.
  change (map F [(0 + n)%nat]) with [F n]. apply last_item_snoc.
Qed.

Lemma golden_cross_is_bullish
    (df : Pandas.frame) (short_window long_window : nat) :
  (long_window <= length df)%nat -> (1 <= length df)%nat ->
  snd (Sp500Scanner.calculate_golden_cross (Some df) short_window
         long_window)
  = Some (Pandas.gt
            (Pandas.rolling_mean_at short_window (map Pandas.Close df)
               (length df - 1))
            (Pandas.rolling_mean_at long_window (map Pandas.Close df)
               (length df - 1))).
Proof.
  intros Hlen Hne. unfold Sp500Scanner.calculate_golden_cross.
  replace (length df <? long_window)%nat with false
    by (symmetry; apply Nat.ltb_ge; exact Hlen).
  cbv zeta. simpl snd. unfold Pandas.rolling_mean.
  rewrite length_map.
  destruct (length df) as [|n] eqn:E; [lia|].
  rewrite !last_item_map_seq.
  now replace (S n - 1)%nat with n by lia.
Qed.

(** The warm-up rule of the rolling mean: it exists from the row that
    completes the first window. *)
Lemma rolling_mean_at_exists (w : nat) (xs : list Q) (t : nat) :
  (1 <= w)%nat -> (w <= t + 1)%nat ->
  Pandas.rolling_mean_at w xs t <> None.
Proof.
  intros H1 Hw. unfold Pandas.rolling_mean_at.
  replace (w =? 0)%nat with false by (symmetry; apply Nat.eqb_neq; lia).
  replace (t + 1 <? w)%nat with false
    by (symmetry; apply Nat.ltb_ge; lia).
  discriminate.
Qed.

Lemma rolling_mean_at_stays (w : nat) (xs : list Q) (t t' : nat) :
  (t <= t')%nat ->
  Pandas.rolling_mean_at w xs t <> None ->
  Pandas.rolling_mean_at w xs t' <> None.
Proof.
  intros Hle Hdef.
  destruct (Pandas.rolling_mean_at w xs t) as [m|] eqn:E;
    [|contradiction].
  apply rolling_mean_at_defined in E.
  apply rolling_mean_at_exists; lia.
Qed.

Section CrossRuns.

(** Two series that stay defined once they are, as rolling means do. *)
Variables short_MA long_MA : nat -> option Q.
Hypothesis short_stays :
  forall t t', (t <= t')%nat -> short_MA t <> None -> short_MA t' <> None.
Hypothesis long_stays :
  forall t t', (t <= t')%nat -> long_MA t <> None -> long_MA t' <> None.

Let above (t : nat) : bool := Pandas.gt (short_MA t) (long_MA t).

Lemma above_defined (t : nat) :
  above t = true -> short_MA t <> None /\ long_MA t <> None.
Proof.
  unfold above. intros H. apply gt_true_iff in H.
  destruct H as (x & y & -> & -> & _). split; discriminate.
Qed.

Lemma above_step_back (u : nat) :
  above (S u) = true ->
  ~ Spec.crosses short_MA long_MA (S u) ->
  short_MA u <> None -> long_MA u <> None ->
  above u = true.
Proof.
  unfold above. intros Habove Hno Hs Hl.
  apply gt_true_iff in Habove. destruct Habove as (s & l & Es & El & Hsl).
  destruct (short_MA u) as [ps|] eqn:Eps; [|contradiction].
  destruct (long_MA u) as [pl|] eqn:Epl; [|contradiction].
  simpl. destruct (Qle_bool ps pl) eqn:E; [|reflexivity].
  exfalso. apply Hno. exists s, l, ps, pl.
  simpl. rewrite Nat.sub_0_r.
  repeat split; try assumption; [lia | now apply Qle_bool_iff].
Qed.

Lemma above_step_forward (u : nat) :
  above u = false ->
  short_MA u <> None -> long_MA u <> None ->
  above (S u) = true ->
  Spec.crosses short_MA long_MA (S u).
Proof.
  unfold above. intros Hbelow Hs Hl Habove.
  apply gt_true_iff in Habove. destruct Habove as (s & l & Es & El & Hsl).
  destruct (short_MA u) as [ps|] eqn:Eps; [|contradiction].
  destruct (long_MA u) as [pl|] eqn:Epl; [|contradiction].
  simpl in Hbelow. exists s, l, ps, pl.
  simpl. rewrite Nat.sub_0_r.
  repeat split; try assumption; [lia|].
  apply Qle_bool_iff. now destruct (Qle_bool ps pl).
Qed.

(** Above at the end and no cross after [t]: above on every row from [t]
    on, provided both averages exist at [t]. *)
Lemma above_since (t n : nat) :
  (forall u, (t < u)%nat -> (u < n)%nat ->
             ~ Spec.crosses short_MA long_MA u) ->
  short_MA t <> None -> long_MA t <> None ->
  above (n - 1) = true ->
  forall u, (t <= u < n)%nat -> above u = true.
Proof.
  intros Hno Hs Hl Hend.
  assert (H : forall k u, (u + k = n - 1)%nat -> (t <= u)%nat ->
                          above u = true).
  { induction k as [|k IH]; intros u Hk Hu.
    - now replace u with (n - 1)%nat by lia.
    - apply above_step_back.
      + apply IH; lia.
      + apply Hno; lia.
      + now apply (short_stays t u).
      + now apply (long_stays t u). }
  intros u Hu. apply (H (n - 1 - u)%nat); lia.
Qed.

(** Above at [t] and not above [k] rows later: there is a first row
    after [t] that is not above. *)
Lemma first_row_below (t : nat) :
  above t = true ->
  forall k,
    (forall v, (t <= v <= t + k)%nat -> above v = true)
    \/ exists u, (t < u <= t + k)%nat
                 /\ (forall v, (t <= v < u)%nat -> above v = true)
                 /\ above u = false.
Proof.
  intros Ht. induction k as [|k [IH | (u & Hu & Hrun & Hdrop)]].
  - left. intros v Hv. now replace v with t by lia.
  - destruct (above (t + S k)) eqn:E.
    + left. intros v Hv.
      destruct (Nat.eq_dec v (t + S k)) as [-> | Hne];
        [exact E | apply IH; lia].
    + right. exists (t + S k)%nat. split; [lia|]. split; [|exact E].
      intros v Hv. apply IH. lia.
  - right. exists u. split; [lia|]. now split.
Qed.

(** Not above at [u], no cross after it: never above again. *)
Lemma below_since (u n : nat) :
  (forall v, (u < v)%nat -> (v < n)%nat ->
             ~ Spec.crosses short_MA long_MA v) ->
  short_MA u <> None -> long_MA u <> None ->
  above u = false ->
  forall v, (u <= v < n)%nat -> above v = false.
Proof.
  intros Hno Hs Hl Hu.
  assert (H : forall k, (u + k < n)%nat -> above (u + k) = false).
  { induction k as [|k IH]; intros Hk.
    - now rewrite Nat.add_0_r.
    - rewrite Nat.add_succ_r.
      destruct (above (S (u + k))) eqn:E; [|reflexivity].
      exfalso. apply (Hno (S (u + k))); [lia | lia |].
      apply above_step_forward.
      + apply IH. lia.
      + apply (short_stays u); [lia | exact Hs].
      + apply (long_stays u); [lia | exact Hl].
      + exact E. }
  intros v Hv. replace v with (u + (v - u))%nat by lia. apply H. lia.
Qed.

End CrossRuns.

(** X8.  The status and the cross date describe the whole stretch since
    the cross.  When the status is bullish, the short average has been
    above the long one on every row since the row of the reported cross
    date or, when no date is reported, on every row on which both
    averages exist.  When the status is bearish although a cross date is
    reported, the short average stayed above the long one from that row
    until some later row and has not been above it on any row since.
    "Above" is the detector's own comparison of the two rolling
    means. *)
Theorem status_since_last_cross
    (df : Pandas.frame) (short_window long_window : nat) :
  (long_window <= length df)%nat ->
  let above := short_above_long df short_window long_window in
  let result :=
    Sp500Scanner.calculate_golden_cross (Some df) short_window
      long_window in
  (snd result = Some true ->
   match fst result with
   | Some d =>
       exists t row,
         nth_error df t = Some row /\ d = Pandas.Date row
         /\ forall u, (t <= u < length df)%nat -> above u = true
   | None =>
       forall u, (short_window <= u + 1)%nat ->
                 (long_window <= u + 1)%nat -> (u < length df)%nat ->
                 above u = true
   end)
  /\ (snd result = Some false ->
      forall d, fst result = Some d ->
      exists t row u,
        nth_error df t = Some row /\ d = Pandas.Date row
        /\ (t < u < length df)%nat
        /\ (forall v, (t <= v < u)%nat -> above v = true)
        /\ (forall v, (u <= v < length df)%nat -> above v = false)).
Proof.
  intros Hlen.
  destruct (Nat.eq_dec (length df) 0) as [Hzero | Hne].
  { destruct df; [|discriminate].
    destruct long_window; [|simpl in Hlen; lia].
    split; [intros H | intros _ d H]; cbv in H; discriminate. }
  intros above result.
  set (closes := map Pandas.Close df).
  set (short_MA := Pandas.rolling_mean_at short_window closes).
  set (long_MA := Pandas.rolling_mean_at long_window closes).
  assert (Hflag : snd result = Some (above (length df - 1)%nat))
    by (apply golden_cross_is_bullish; lia).
  pose proof (golden_cross_date_spec df short_window long_window Hlen)
    as Hdate.
  fold result closes short_MA long_MA in Hdate.
  assert (Hs : forall t t', (t <= t')%nat ->
                 short_MA t <> None -> short_MA t' <> None)
    by (intros t t'; apply rolling_mean_at_stays).
  assert (Hl : forall t t', (t <= t')%nat ->
                 long_MA t <> None -> long_MA t' <> None)
    by (intros t t'; apply rolling_mean_at_stays).
  assert (Hcross : forall t, Spec.crosses short_MA long_MA t ->
                     above t = true
                     /\ short_MA t <> None /\ long_MA t <> None).
  { intros t Hc. apply mask_at_iff in Hc. unfold mask_at in Hc.
    apply andb_true_iff in Hc. destruct Hc as [Hc _].
    split; [exact Hc|]. now apply above_defined. }
  rewrite Hflag. split.
  - intros [= Hend].
    destruct (fst result) as [d|].
    + destruct Hdate as (t & row & (Ht & Hc & Hlast) & Hrow & Hd).
      exists t, row. split; [exact Hrow|]. split; [exact Hd|].
      destruct (Hcross t Hc) as (_ & Hst & Hlt).
      now apply (above_since short_MA long_MA Hs Hl t (length df)).
    + intros u Hsu Hlu Hu.
      destruct (above_defined short_MA long_MA _ Hend) as [Hse Hle].
      assert (H1s : (1 <= short_window)%nat).
      { destruct (short_MA (length df - 1)%nat) as [m|] eqn:E;
          [|contradiction].
        now apply rolling_mean_at_defined in E. }
      assert (H1l : (1 <= long_window)%nat).
      { destruct (long_MA (length df - 1)%nat) as [m|] eqn:E;
          [|contradiction].
        now apply rolling_mean_at_defined in E. }
      apply (above_since short_MA long_MA Hs Hl u (length df));
        try assumption; try lia.
      * intros v _ Hv. now apply Hdate.
      * apply rolling_mean_at_exists; lia.
      * apply rolling_mean_at_exists; lia.
  - intros [= Hend] d Hd. rewrite Hd in Hdate.
    destruct Hdate as (t & row & (Ht & Hc & Hlast) & Hrow & ->).
    destruct (Hcross t Hc) as (Hat & Hst & Hlt).
    destruct (first_row_below short_MA long_MA t Hat
                (length df - 1 - t)%nat)
      as [Hall | (u & Hu & Hrun & Hdrop)].
    { assert (Hcontra : above (length df - 1)%nat = true)
        by (apply Hall; lia).
      congruence. }
    exists t, row, u. split; [exact Hrow|]. split; [reflexivity|].
    split; [lia|]. split; [exact Hrun|].
    apply (below_since short_MA long_MA Hs Hl u (length df)).
    + intros v Huv Hv. apply Hlast; lia.
    + apply (Hs t); [lia | exact Hst].
    + apply (Hl t); [lia | exact Hlt].
    + exact Hdrop.
Qed.

Lemma status_since_last_cross_witness :
  (exists t row,
      nth_error three_sessions t = Some row /\ 12%Z = Pandas.Date row
      /\ forall u, (t <= u < 3)%nat ->
                   short_above_long three_sessions 1 2 u = true)
  /\ exists t row u,
       nth_error spike t = Some row /\ 3%Z = Pandas.Date row
       /\ (t < u < 5)%nat
       /\ (forall v, (t <= v < u)%nat ->
                     short_above_long spike 1 2 v = true)
       /\ (forall v, (u <= v < 5)%nat ->
                     short_above_long spike 1 2 v = false).
Proof.
  split.
  - exact (proj1 (status_since_last_cross three_sessions 1 2
                    ltac:(simpl; lia)) eq_refl).
  - exact (proj2 (status_since_last_cross spike 1 2 ltac:(simpl; lia))
             eq_refl 3%Z eq_refl).
Defined.

(** ** More on the scanner *)

Lemma golden_cross_date_inv
    (df : option Pandas.frame) (short_window long_window : nat) (d : Z) :
  fst (Sp500Scanner.calculate_golden_cross df short_window long_window)
  = Some d ->
  exists frame,
    df = Some frame
    /\ (Nat.max short_window long_window < length frame)%nat
    /\ In d (map Pandas.Date frame).
Proof.
  destruct df as [frame|]; [|discriminate].
  intros Hd. exists frame. split; [reflexivity|].
  destruct (Nat.lt_ge_cases (length frame) long_window) as [Hlt | Hge].
  { unfold Sp500Scanner.calculate_golden_cross in Hd.
    replace (length frame <? long_window)%nat with true in Hd
      by (symmetry; apply Nat.ltb_lt; exact Hlt).
    discriminate. }
  pose proof (golden_cross_date_spec frame short_window long_window Hge)
    as Hspec.
  rewrite Hd in Hspec.
  destruct Hspec as (t & row & (Ht & Hc & _) & Hrow & ->).
  apply crosses_after_warm_up in Hc. split; [lia|].
  apply in_map. now apply nth_error_In with t.
Qed.

Lemma golden_cross_short_frame
    (df : option Pandas.frame) (short_window long_window : nat) :
  (df = None
   \/ exists frame, df = Some frame
                    /\ (length frame < long_window)%nat) ->
  Sp500Scanner.calculate_golden_cross df short_window long_window
  = (None, None).
Proof.
  intros [-> | (frame & -> & Hlt)]; [reflexivity|].
  unfold Sp500Scanner.calculate_golden_cross.
  now replace (length frame <? long_window)%nat with true
    by (symmetry; apply Nat.ltb_lt; exact Hlt).
Qed.

(** X9.  A ticker whose company facts and daily history were fetched but
    whose daily history is absent or shorter than 200 rows still gets a
    row: bearish, without dates, and without the hourly history being
    requested (the row is the same whatever that request would do). *)
Theorem process_ticker_short_history
    (provider : string -> Sp500Scanner.ticker_data)
    (security_names : string -> option string) (ticker : string)
    (stock_info : info_dict) (hist_daily : option Pandas.frame) :
  Sp500Scanner.info (provider ticker) = Py.Fetched stock_info ->
  Sp500Scanner.history_2y (provider ticker) = Py.Fetched hist_daily ->
  (hist_daily = None
   \/ exists frame, hist_daily = Some frame
                    /\ (length frame < 200)%nat) ->
  Sp500Scanner.process_ticker provider security_names ticker
  = Some {| Sp500Scanner.Ticker := ticker;
            Sp500Scanner.Name :=
              match security_names ticker with
              | Some n => n
              | None => ticker
              end;
            Sp500Scanner.MarketCap :=
              match marketCap stock_info with
              | Py.Absent => None
              | Py.Present v => Some v
              end;
            Sp500Scanner.DailyGoldenCrossDate := None;
            Sp500Scanner.Status := false;
            Sp500Scanner.HourlyGoldenCrossDate := None |}.
Proof.
  intros Hinfo Hhist Hshort.
  unfold Sp500Scanner.process_ticker. cbv zeta.
  rewrite Hinfo, Hhist, (golden_cross_short_frame _ 50 200 Hshort).
  reflexivity.
Qed.

Lemma process_ticker_short_history_witness :
  Sp500Scanner.process_ticker flaky_provider (fun _ => None) "AAPL"
  = Some {| Sp500Scanner.Ticker := "AAPL";
            Sp500Scanner.Name := "AAPL";
            Sp500Scanner.MarketCap := None;
            Sp500Scanner.DailyGoldenCrossDate := None;
            Sp500Scanner.Status := false;
            Sp500Scanner.HourlyGoldenCrossDate := None |}.
Proof.
  apply (process_ticker_short_history flaky_provider (fun _ => None)
           "AAPL" sample_info (Some []) eq_refl eq_refl).
  right. exists []. split; [reflexivity | simpl; lia].
Defined.

(** X10.  In a row of the report, a daily cross date is a label of a
    daily history of more than 200 rows; the status is bullish only for a
    daily history of at least 200 rows; and an hourly cross date appears
    only in a bullish row, as a label of an hourly history of more than
    200 rows. *)
Theorem process_ticker_dates
    (provider : string -> Sp500Scanner.ticker_data)
    (security_names : string -> option string) (ticker : string)
    (r : Sp500Scanner.row) :
  Sp500Scanner.process_ticker provider security_names ticker = Some r ->
  (forall d,
      Sp500Scanner.DailyGoldenCrossDate r = Some d ->
      exists daily,
        Sp500Scanner.history_2y (provider ticker)
        = Py.Fetched (Some daily)
        /\ (200 < length daily)%nat /\ In d (map Pandas.Date daily))
  /\ (Sp500Scanner.Status r = true ->
      exists daily,
        Sp500Scanner.history_2y (provider ticker)
        = Py.Fetched (Some daily)
        /\ (200 <= length daily)%nat)
  /\ (forall d,
         Sp500Scanner.HourlyGoldenCrossDate r = Some d ->
         Sp500Scanner.Status r = true
         /\ exists hourly,
              Sp500Scanner.history_1mo_1h (provider ticker)
              = Py.Fetched (Some hourly)
              /\ (200 < length hourly)%nat
              /\ In d (map Pandas.Date hourly)).
Proof.
  unfold Sp500Scanner.process_ticker. cbv zeta.
  destruct (Sp500Scanner.info (provider ticker)) as [|stock_info];
    [discriminate|].
  destruct (Sp500Scanner.history_2y (provider ticker)) as [|hist_daily];
    [discriminate|].
  destruct (Sp500Scanner.calculate_golden_cross hist_daily 50 200)
    as [cross_date is_bullish] eqn:Hdaily.
  assert (Hdate : forall d, cross_date = Some d ->
            exists daily, Py.Fetched hist_daily
                          = Py.Fetched (Some daily)
              /\ (200 < length daily)%nat /\ In d (map Pandas.Date daily)).
  { intros d ->.
    destruct (golden_cross_date_inv hist_daily 50 200 d)
      as (daily & -> & Hlen & Hin); [now rewrite Hdaily|].
    exists daily. repeat split; [simpl in Hlen; lia | exact Hin]. }
  assert (Hbull : is_bullish = Some true ->
            exists daily, Py.Fetched hist_daily
                          = Py.Fetched (Some daily)
              /\ (200 <= length daily)%nat).
  { intros ->. destruct hist_daily as [daily|]; [|discriminate].
    exists daily. split; [reflexivity|].
    destruct (Nat.lt_ge_cases (length daily) 200) as [Hlt | Hge];
      [|exact Hge].
    rewrite (golden_cross_short_frame (Some daily) 50 200) in Hdaily;
      [discriminate|].
    right. now exists daily. }
  destruct is_bullish as [[|]|].
  - destruct (Sp500Scanner.history_1mo_1h (provider ticker))
      as [|hist_hourly]; [discriminate|].
    intros [= <-]. simpl. split; [exact Hdate|].
    split; [intros _; now apply Hbull|].
    intros d Hd. split; [reflexivity|].
    destruct (golden_cross_date_inv hist_hourly 50 200 d Hd)
      as (hourly & -> & Hlen & Hin).
    exists hourly. repeat split; [simpl in Hlen; lia | exact Hin].
  - intros [= <-]. simpl.
    split; [exact Hdate|]. split; discriminate.
  - intros [= <-]. simpl.
    split; [exact Hdate|]. split; discriminate.
Qed.

Lemma process_ticker_dates_witness :
  Sp500Scanner.process_ticker rally_provider (fun _ => None) "AAPL"
  = Some {| Sp500Scanner.Ticker := "AAPL";
            Sp500Scanner.Name := "AAPL";
            Sp500Scanner.MarketCap := None;
            Sp500Scanner.DailyGoldenCrossDate := Some 201%Z;
            Sp500Scanner.Status := true;
            Sp500Scanner.HourlyGoldenCrossDate := Some 201%Z |}
  /\ (exists daily,
         Sp500Scanner.history_2y (rally_provider "AAPL")
         = Py.Fetched (Some daily)
         /\ (200 < length daily)%nat /\ In 201%Z (map Pandas.Date daily))
  /\ (exists hourly,
         Sp500Scanner.history_1mo_1h (rally_provider "AAPL")
         = Py.Fetched (Some hourly)
         /\ (200 < length hourly)%nat
         /\ In 201%Z (map Pandas.Date hourly)).
Proof.
  assert (Hrow :
    Sp500Scanner.process_ticker rally_provider (fun _ => None) "AAPL"
    = Some {| Sp500Scanner.Ticker := "AAPL";
              Sp500Scanner.Name := "AAPL";
              Sp500Scanner.MarketCap := None;
              Sp500Scanner.DailyGoldenCrossDate := Some 201%Z;
              Sp500Scanner.Status := true;
              Sp500Scanner.HourlyGoldenCrossDate := Some 201%Z |})
    by (vm_compute; reflexivity).
  split; [exact Hrow|]. split.
  - apply (proj1 (process_ticker_dates rally_provider (fun _ => None)
                    "AAPL" _ Hrow) 201%Z eq_refl).
  - apply (proj2 (proj2 (proj2 (process_ticker_dates rally_provider
                                  (fun _ => None) "AAPL" _ Hrow))
                    201%Z eq_refl)).
Defined.

Lemma scan_flat_map
    (provider : string -> Sp500Scanner.ticker_data)
    (security_names : string -> option string) (tickers : list string) :
  Sp500Scanner.scan provider security_names tickers
  = flat_map
      (fun t => rows_of (Sp500Scanner.process_ticker provider
                           security_names t))
      tickers.
Proof.
  unfold Sp500Scanner.scan. rewrite collect_all. simpl.
  induction tickers as [|t tickers IH]; [reflexivity|].
  simpl. now rewrite IH.
Qed.

Lemma scan_In
    (provider : string -> Sp500Scanner.ticker_data)
    (security_names : string -> option string) (tickers : list string)
    (r : Sp500Scanner.row) :
  In r (Sp500Scanner.scan provider security_names tickers)
  <-> exists t,
        In t tickers
        /\ Sp500Scanner.process_ticker provider security_names t = Some r.
Proof.
  rewrite scan_flat_map, in_flat_map. split.
  - intros (t & Ht & Hr). exists t. split; [exact Ht|].
    destruct (Sp500Scanner.process_ticker provider security_names t)
      as [r'|]; [|destruct Hr].
    destruct Hr as [-> | []]. reflexivity.
  - intros (t & Ht & Hr). exists t. split; [exact Ht|].
    rewrite Hr. now left.
Qed.

(** X11.  The report of a concatenated ticker list is the concatenation
    of the two reports; it never has more rows than tickers; and when no
    ticker is listed twice no ticker appears in two rows. *)
Theorem scan_composes
    (provider : string -> Sp500Scanner.ticker_data)
    (security_names : string -> option string)
    (tickers more : list string) :
  Sp500Scanner.scan provider security_names (tickers ++ more)
  = Sp500Scanner.scan provider security_names tickers
    ++ Sp500Scanner.scan provider security_names more
  /\ (length (Sp500Scanner.scan provider security_names tickers)
      <= length tickers)%nat
  /\ (NoDup tickers ->
      NoDup (map Sp500Scanner.Ticker
               (Sp500Scanner.scan provider security_names tickers))).
Proof.
  split; [|split].
  - now rewrite !scan_flat_map, flat_map_app.
  - rewrite scan_length. apply filter_length_le.
  - intros Hnd. rewrite scan_tickers. now apply NoDup_filter.
Qed.

Lemma scan_composes_witness :
  NoDup (map Sp500Scanner.Ticker
           (Sp500Scanner.scan flaky_provider (fun _ => None)
              ["AAPL"; "BAD"; "MSFT"]%string)).
Proof.
  apply (proj2 (proj2 (scan_composes flaky_provider (fun _ => None)
                         ["AAPL"; "BAD"; "MSFT"]%string []))).
  repeat constructor; simpl; intuition discriminate.
Defined.

(** ** The ticker table *)

Lemma replace_dot_length (s : string) :
  String.length (Sp500Scanner.replace_dot s) = String.length s.
Proof. induction s as [|c s IH]; simpl; [|rewrite IH]; reflexivity. Qed.

Lemma dict_get_In (pairs : list (string * string)) (key v : string) :
  Sp500Scanner.dict_get pairs key = Some v -> In (key, v) pairs.
Proof.
  induction pairs as [|[k w] rest IH]; simpl; [discriminate|].
  destruct (Sp500Scanner.dict_get rest key) as [later|].
  - intros [= <-]. right. now apply IH.
  - destruct (String.eqb k key) eqn:E; [|discriminate].
    apply String.eqb_eq in E. intros [= <-]. left. now subst.
Qed.

Lemma dict_get_found (pairs : list (string * string)) (key v : string) :
  In (key, v) pairs ->
  exists w, Sp500Scanner.dict_get pairs key = Some w.
Proof.
  induction pairs as [|[k w] rest IH]; simpl; [intros []|].
  intros [Heq | Hin].
  - injection Heq as -> ->.
    destruct (Sp500Scanner.dict_get rest key) as [later|]; [eauto|].
    rewrite String.eqb_refl. eauto.
  - destruct (IH Hin) as (w' & ->). eauto.
Qed.

(** X12.  The tickers returned by [get_sp500_tickers_with_info] contain
    no dot: every dot of a symbol has become a dash, the length is kept,
    and a symbol without a dot is returned unchanged. *)
Theorem tickers_have_no_dot (df : list Sp500Scanner.company) :
  (forall t,
      In t (fst (Sp500Scanner.get_sp500_tickers_with_info (Py.Fetched df)))
      -> has_char "." t = false)
  /\ (forall s,
         String.length (Sp500Scanner.replace_dot s) = String.length s
         /\ has_char "." (Sp500Scanner.replace_dot s) = false
         /\ (has_char "." s = false -> Sp500Scanner.replace_dot s = s)
         /\ (has_char "." s = true
             -> has_char "-" (Sp500Scanner.replace_dot s) = true)).
Proof.
  assert (Hno : forall s, has_char "." (Sp500Scanner.replace_dot s) = false).
  { induction s as [|c s IH]; [reflexivity|]. simpl. rewrite IH.
    destruct (Ascii.eqb c ".") eqn:E; [reflexivity|].
    now rewrite E. }
  split.
  - simpl. intros t Ht. apply in_map_iff in Ht.
    destruct Ht as (r & <- & _). apply Hno.
  - intros s. split; [apply replace_dot_length|]. split; [apply Hno|].
    split.
    + induction s as [|c s IH]; [reflexivity|]. simpl.
      intros H. apply orb_false_iff in H. destruct H as [Hc Hs].
      now rewrite Hc, IH.
    + induction s as [|c s IH]; [discriminate|]. simpl.
      destruct (Ascii.eqb c ".") eqn:E; [reflexivity|].
      simpl. intros H. rewrite (IH H). apply orb_true_r.
Qed.

Lemma tickers_have_no_dot_witness :
  Sp500Scanner.replace_dot "BRK.B" = "BRK-B"%string
  /\ Sp500Scanner.replace_dot "AAPL" = "AAPL"%string
  /\ has_char "-" (Sp500Scanner.replace_dot "BF.B") = true.
Proof.
  split; [reflexivity|]. split.
  - apply (proj2 (tickers_have_no_dot []) "AAPL"%string). reflexivity.
  - apply (proj2 (tickers_have_no_dot []) "BF.B"%string). reflexivity.
Defined.

Lemma process_ticker_name
    (provider : string -> Sp500Scanner.ticker_data)
    (security_names : string -> option string) (ticker : string)
    (r : Sp500Scanner.row) :
  Sp500Scanner.process_ticker provider security_names ticker = Some r ->
  Sp500Scanner.Ticker r = ticker
  /\ Sp500Scanner.Name r
     = match security_names ticker with
       | Some n => n
       | None => ticker
       end.
Proof.
  unfold Sp500Scanner.process_ticker.
  destruct (Sp500Scanner.info (provider ticker)); [discriminate|].
  destruct (Sp500Scanner.history_2y (provider ticker)) as [|hist_daily];
    [discriminate|].
  destruct (Sp500Scanner.calculate_golden_cross hist_daily 50 200)
    as [cross_date [[|]|]];
    try (intros [= <-]; split; reflexivity).
  destruct (Sp500Scanner.history_1mo_1h (provider ticker));
    [discriminate|].
  intros [= <-]. split; reflexivity.
Qed.

Lemma table_names (df : list Sp500Scanner.company) (t : string) :
  In t (fst (Sp500Scanner.get_sp500_tickers_with_info (Py.Fetched df))) ->
  exists n c,
    Sp500Scanner.dict_get
      (snd (Sp500Scanner.get_sp500_tickers_with_info (Py.Fetched df))) t
    = Some n
    /\ In c df
    /\ Sp500Scanner.replace_dot (Sp500Scanner.Symbol c) = t
    /\ Sp500Scanner.Security c = n.
Proof.
  simpl. rewrite combine_map. intros Ht.
  apply in_map_iff in Ht. destruct Ht as (c0 & <- & Hc0).
  set (pairs := map _ df).
  assert (Hin : In (Sp500Scanner.replace_dot (Sp500Scanner.Symbol c0),
                    Sp500Scanner.Security c0) pairs).
  { unfold pairs. apply in_map_iff. now exists c0. }
  destruct (dict_get_found _ _ _ Hin) as (n & Hn).
  exists n. apply dict_get_In in Hn as Hpair.
  unfold pairs in Hpair. apply in_map_iff in Hpair.
  destruct Hpair as (c & [= Hsym Hsec] & Hc).
  exists c. repeat split; assumption.
Qed.

(** X13.  When the table cannot be read, or is empty, [main] stops
    before any ticker is scanned.  Otherwise every ticker of the table
    has an entry in the name dictionary, so every row of the report
    carries the security name of a company of the table whose symbol,
    with dots turned into dashes, is the row's ticker: the fallback to
    the bare ticker is never used. *)
Theorem report_names_come_from_table
    (provider : string -> Sp500Scanner.ticker_data) :
  Sp500Scanner.main_results Py.Raised provider = None
  /\ Sp500Scanner.main_results (Py.Fetched []) provider = None
  /\ forall (df : list Sp500Scanner.company)
            (rows : list Sp500Scanner.row),
       Sp500Scanner.main_results (Py.Fetched df) provider = Some rows ->
       forall r, In r rows ->
         exists c,
           In c df
           /\ Sp500Scanner.Ticker r
              = Sp500Scanner.replace_dot (Sp500Scanner.Symbol c)
           /\ Sp500Scanner.Name r = Sp500Scanner.Security c.
Proof.
  split; [reflexivity|]. split; [reflexivity|].
  intros df rows Hmain r Hr.
  unfold Sp500Scanner.main_results in Hmain.
  destruct (Sp500Scanner.get_sp500_tickers_with_info (Py.Fetched df))
    as [tickers names] eqn:Htable.
  assert (Hrows : rows = Sp500Scanner.scan provider
                           (Sp500Scanner.dict_get names) tickers).
  { destruct tickers; [discriminate | now injection Hmain]. }
  subst rows. apply scan_In in Hr. destruct Hr as (t & Ht & Hrow).
  apply process_ticker_name in Hrow. destruct Hrow as [Hticker Hname].
  pose proof (table_names df t) as Htn. rewrite Htable in Htn.
  destruct (Htn Ht) as (n & c & Hn & Hc & Hsym & Hsec).
  simpl in Hn. rewrite Hn in Hname.
  exists c. split; [exact Hc|]. split; congruence.
Qed.

Lemma report_names_come_from_table_witness :
  exists rows,
    Sp500Scanner.main_results
      (Py.Fetched [ {| Sp500Scanner.Symbol := "BRK.B";
                       Sp500Scanner.Security := "Berkshire Hathaway" |} ])
      flaky_provider = Some rows
    /\ map Sp500Scanner.Name rows = ["Berkshire Hathaway"%string]
    /\ forall r, In r rows ->
         exists c,
           In c [ {| Sp500Scanner.Symbol := "BRK.B";
                     Sp500Scanner.Security := "Berkshire Hathaway" |} ]
           /\ Sp500Scanner.Ticker r
              = Sp500Scanner.replace_dot (Sp500Scanner.Symbol c)
           /\ Sp500Scanner.Name r = Sp500Scanner.Security c.
Proof.
  eexists. split; [reflexivity|]. split; [reflexivity|].
  apply (proj2 (proj2 (report_names_come_from_table flaky_provider))
           [ {| Sp500Scanner.Symbol := "BRK.B";
                Sp500Scanner.Security := "Berkshire Hathaway" |} ]).
  reflexivity.
Defined.

(** ** News sentiment *)

Lemma classify_spec (avg : Q) :
  (StockDashboard.classify avg = StockDashboard.Positive
   <-> Float.binary64 (1 # 10) < avg)
  /\ (StockDashboard.classify avg = StockDashboard.Negative
      <-> avg < - Float.binary64 (1 # 10))
  /\ (StockDashboard.classify avg = StockDashboard.Neutral
      <-> - Float.binary64 (1 # 10) <= avg
          /\ avg <= Float.binary64 (1 # 10)).
Proof.
  unfold StockDashboard.classify.
  assert (Hpos : 0 < Float.binary64 (1 # 10)) by reflexivity.
  remember (Float.binary64 (1 # 10)) as tenth eqn:Etenth. clear Etenth.
  destruct (Qle_bool avg tenth) eqn:E1; simpl.
  - apply Qle_bool_iff in E1.
    destruct (Qle_bool (- tenth) avg) eqn:E2; simpl.
    + apply Qle_bool_iff in E2.
      repeat split; try discriminate; try assumption; intros; lra.
    + apply Qle_bool_false_inv in E2.
      repeat split; try discriminate; try assumption; intros; lra.
  - apply Qle_bool_false_inv in E1.
    repeat split; try discriminate; try assumption; intros; lra.
Qed.

Lemma inject_Z_succ (k : nat) :
  inject_Z (Z.of_nat (S k)) == inject_Z (Z.of_nat k) + 1.
Proof. rewrite Nat2Z.inj_succ, <- Z.add_1_r, inject_Z_plus. reflexivity. Qed.

Section Polarity.

Variable polarity : string -> Q.

Lemma accumulate_raises (items : list StockDashboard.news_item) :
  forall s c,
    StockDashboard.accumulate_polarity polarity items s c = None
    <-> exists item, In item items
                     /\ StockDashboard.read_title item = None.
Proof.
  induction items as [|item rest IH]; intros s c; simpl.
  - split; [discriminate | intros (? & [] & _)].
  - destruct (StockDashboard.read_title item) as [title|] eqn:Hr.
    + assert (Hrest : forall s' c',
                StockDashboard.accumulate_polarity polarity rest s' c'
                = None
                <-> exists i, (item = i \/ In i rest)
                              /\ StockDashboard.read_title i = None).
      { intros s' c'. rewrite IH. split.
        - intros (i & Hi & Hn). exists i. auto.
        - intros (i & [<- | Hi] & Hn); [congruence | now exists i]. }
      destruct (StockDashboard.truthy_title title); apply Hrest.
    + split; [intros _; exists item; auto | reflexivity].
Qed.

Hypothesis polarity_range : forall text, - (1) <= polarity text <= 1.

(** The float sum of [k] polarities stays within [-k] and [k]: the exact
    sum does, rounding is monotone and the integers up to [2^53] are
    doubles. *)
Lemma accumulate_bounds (items : list StockDashboard.news_item) :
  forall s c s' c',
    StockDashboard.accumulate_polarity polarity items s c = Some (s', c')
    -> (Z.of_nat (c + length items) <= 2 ^ 53)%Z
    -> - inject_Z (Z.of_nat c) <= s -> s <= inject_Z (Z.of_nat c)
    -> (c <= c')%nat
       /\ - inject_Z (Z.of_nat c') <= s' /\ s' <= inject_Z (Z.of_nat c').
Proof.
  induction items as [|item rest IH]; intros s c s' c'; simpl.
  - intros [= <- <-] _ Hlo Hhi. split; [lia|]. now split.
  - destruct (StockDashboard.read_title item) as [title|]; [|discriminate].
    destruct (StockDashboard.truthy_title title) as [text|].
    + intros H Hlen Hlo Hhi.
      destruct (polarity_range text) as [Hl Hh].
      assert (Hint : Float.binary64 (inject_Z (Z.of_nat (S c)))
                     == inject_Z (Z.of_nat (S c)))
        by (apply binary64_integer; lia).
      assert (Hneg : Float.binary64 (- inject_Z (Z.of_nat (S c)))
                     == - inject_Z (Z.of_nat (S c)))
        by (rewrite binary64_opp, Hint; reflexivity).
      specialize (IH _ _ _ _ H).
      destruct IH as (Hc & Hb).
      * rewrite Nat.add_succ_l, <- Nat.add_succ_r. exact Hlen.
      * rewrite <- Hneg. apply binary64_mono.
        rewrite inject_Z_succ. lra.
      * rewrite <- Hint. apply binary64_mono.
        rewrite inject_Z_succ. lra.
      * split; [lia | exact Hb].
    + intros H Hlen. apply IH; [exact H | lia].
Qed.

Lemma analyze_sentiment_range
    (items : list StockDashboard.news_item) (avg : Q)
    (label : StockDashboard.sentiment) :
  (Z.of_nat (length items) <= 2 ^ 53)%Z ->
  StockDashboard.analyze_sentiment polarity items = Value (avg, label) ->
  - (1) <= avg /\ avg <= 1.
Proof.
  intros Hlen. unfold StockDashboard.analyze_sentiment.
  destruct items as [|item rest]; [intros [= <- _]; split; discriminate|].
  destruct (StockDashboard.accumulate_polarity polarity (item :: rest) 0 0)
    as [[s c]|] eqn:Hacc; [|discriminate].
  destruct (c =? 0)%nat eqn:Hc; [intros [= <- _]; split; discriminate|].
  apply Nat.eqb_neq in Hc. intros [= <- _].
  apply accumulate_bounds in Hacc;
    [| exact Hlen | discriminate | discriminate].
  destruct Hacc as (_ & Hl & Hh).
  assert (Hpos : 0 < inject_Z (Z.of_nat c))
    by (apply window_size_positive; lia).
  split.
  - apply (float_div_ge s _ (-1)); [exact Hpos | lia |].
    change (inject_Z (-1)) with (- (1)). lra.
  - apply (float_div_le s _ 1); [exact Hpos | lia |].
    change (inject_Z 1) with 1. lra.
Qed.

End Polarity.

(** Three headlines of polarity 0.1 each: the float average is
    0.10000000000000002, above the threshold, and the label is
    "Positive", although the exact mean of the three doubles is the
    threshold itself. *)
Example analyze_sentiment_rounds_up :
  exists avg,
    StockDashboard.analyze_sentiment (fun _ => Float.binary64 (1 # 10))
      [StockDashboard.Flat (StockDashboard.TitleText "a");
       StockDashboard.Flat (StockDashboard.TitleText "b");
       StockDashboard.Flat (StockDashboard.TitleText "c")]
    = Value (avg, StockDashboard.Positive)
    /\ avg == 7205759403792795 # 72057594037927936
    /\ Float.binary64 (1 # 10) < avg.
Proof.
  eexists. split; [vm_compute; reflexivity|].
  split; vm_compute; reflexivity.
Qed.

(** X14.  On news items whose titles are texts, [None] or missing,
    [analyze_sentiment] raises exactly when some item has a ['content']
    entry that is not a dictionary.  Otherwise the label it returns
    matches the average it returns (positive above the double 0.1,
    negative below -0.1, neutral in between); for polarities between -1
    and 1 the average, computed in floats, stays between -1 and 1; and
    without a single non-empty title the result is [(0, "Neutral")]. *)
Theorem analyze_sentiment_summary
    (polarity : string -> Q) (items : list StockDashboard.news_item) :
  (StockDashboard.analyze_sentiment polarity items = Escaped
   <-> exists item, In item items
                    /\ StockDashboard.read_title item = None)
  /\ (forall avg label,
         StockDashboard.analyze_sentiment polarity items
         = Value (avg, label) ->
         (label = StockDashboard.Positive
          <-> Float.binary64 (1 # 10) < avg)
         /\ (label = StockDashboard.Negative
             <-> avg < - Float.binary64 (1 # 10))
         /\ (label = StockDashboard.Neutral
             <-> - Float.binary64 (1 # 10) <= avg
                 /\ avg <= Float.binary64 (1 # 10)))
  /\ (forall avg label,
         (Z.of_nat (length items) <= 2 ^ 53)%Z ->
         (forall text, - (1) <= polarity text <= 1) ->
         StockDashboard.analyze_sentiment polarity items
         = Value (avg, label) ->
         - (1) <= avg /\ avg <= 1)
  /\ ((forall item, In item items ->
         exists title,
           StockDashboard.read_title item = Some title
           /\ StockDashboard.truthy_title title = None) ->
      StockDashboard.analyze_sentiment polarity items
      = Value (0, StockDashboard.Neutral)).
Proof.
  split; [|split; [|split]].
  - unfold StockDashboard.analyze_sentiment.
    destruct items as [|item rest].
    { split; [discriminate | intros (? & [] & _)]. }
    rewrite <- (accumulate_raises polarity (item :: rest) 0 0).
    destruct (StockDashboard.accumulate_polarity polarity (item :: rest) 0 0)
      as [[s c]|]; [|split; reflexivity].
    destruct (c =? 0)%nat; split; discriminate.
  - intros avg label. unfold StockDashboard.analyze_sentiment.
    assert (Hzero : (StockDashboard.Neutral = StockDashboard.Positive
                     <-> Float.binary64 (1 # 10) < 0)
                    /\ (StockDashboard.Neutral = StockDashboard.Negative
                        <-> 0 < - Float.binary64 (1 # 10))
                    /\ (StockDashboard.Neutral = StockDashboard.Neutral
                        <-> - Float.binary64 (1 # 10) <= 0
                            /\ 0 <= Float.binary64 (1 # 10))).
    { repeat split; try discriminate. }
    destruct items as [|item rest]; [intros [= <- <-]; exact Hzero|].
    destruct (StockDashboard.accumulate_polarity polarity (item :: rest) 0 0)
      as [[s c]|]; [|discriminate].
    destruct (c =? 0)%nat; [intros [= <- <-]; exact Hzero|].
    intros [= <- <-]. apply classify_spec.
  - intros avg label Hlen Hrange.
    now apply analyze_sentiment_range.
  - intros Hnone. unfold StockDashboard.analyze_sentiment.
    destruct items as [|item rest]; [reflexivity|].
    assert (Hacc : forall l s c,
              (forall i, In i l ->
                 exists title,
                   StockDashboard.read_title i = Some title
                   /\ StockDashboard.truthy_title title = None) ->
              StockDashboard.accumulate_polarity polarity l s c
              = Some (s, c)).
    { induction l as [|i l IH]; intros s c Hl; [reflexivity|].
      simpl. destruct (Hl i (or_introl eq_refl)) as (title & -> & ->).
      apply IH. intros j Hj. apply Hl. now right. }
    now rewrite (Hacc _ 0 0%nat Hnone).
Qed.

Lemma analyze_sentiment_summary_witness :
  (exists avg,
      StockDashboard.analyze_sentiment sample_polarity sample_news
      = Value (avg, StockDashboard.Positive)
      /\ avg == 1 # 4 /\ - (1) <= avg /\ avg <= 1)
  /\ StockDashboard.analyze_sentiment sample_polarity
       [StockDashboard.Nested None] = Escaped.
Proof.
  split.
  - eexists. split; [vm_compute; reflexivity|].
    split; [vm_compute; reflexivity|].
    apply (proj1 (proj2 (proj2 (analyze_sentiment_summary sample_polarity
                                  sample_news)))
             _ StockDashboard.Positive);
      [vm_compute; discriminate | | vm_compute; reflexivity].
    intros text. unfold sample_polarity.
    destruct (String.eqb text "good"); split; discriminate.
  - apply (proj1 (analyze_sentiment_summary sample_polarity
                    [StockDashboard.Nested None])).
    exists (StockDashboard.Nested None). split; [now left | reflexivity].
Defined.

(** ** The range of the RSI *)

Lemma rsi_of_nonneg (g l : Q) :
  0 <= g -> 0 <= l ->
  (StockDashboard.rsi_of (Some g) (Some l) = Pandas.NaN
   /\ g == 0 /\ l == 0)
  \/ (exists q,
        StockDashboard.rsi_of (Some g) (Some l) = Pandas.Fin q
        /\ 0 <= q /\ q <= 100 /\ ~ (g == 0 /\ l == 0)).
Proof.
  intros Hg Hl.
  change (StockDashboard.rsi_of (Some g) (Some l))
    with (StockDashboard.rsi_of_rs
            (if Qeq_bool l 0 then
               if Qeq_bool g 0 then Pandas.NaN
               else Pandas.Inf (negb (Qle_bool 0 g))
             else Pandas.Fin (g / l))).
  destruct (Qeq_bool l 0) eqn:El.
  - apply Qeq_bool_iff in El.
    destruct (Qeq_bool g 0) eqn:Eg.
    + apply Qeq_bool_iff in Eg. left.
      split; [reflexivity | split; assumption].
    + right. rewrite (Qle_bool_true 0 g Hg).
      eexists. split; [reflexivity|].
      split; [discriminate|]. split; [discriminate|].
      intros [Hz _]. apply Qeq_bool_iff in Hz. congruence.
  - right.
    assert (Hlpos : 0 < l).
    { destruct (Qlt_le_dec 0 l) as [H|H]; [exact H|].
      exfalso. assert (Hz : l == 0) by lra.
      apply Qeq_bool_iff in Hz. congruence. }
    assert (Hrs : 0 <= g / l).
    { apply Qle_shift_div_l; [exact Hlpos | lra]. }
    unfold StockDashboard.rsi_of_rs, Pandas.xsub. simpl.
    rewrite (Qeq_bool_false (1 + g / l) 0) by lra.
    eexists. split; [reflexivity|].
    assert (Hq1 : 0 < 100 / (1 + g / l)).
    { apply Qlt_shift_div_l; lra. }
    assert (Hq2 : 100 / (1 + g / l) <= 100).
    { apply Qle_shift_div_r; lra. }
    split; [lra|]. split; [lra|].
    intros [_ Hz]. lra.
Qed.

Lemma gain_term_nonneg (delta : list (option Q)) (i : nat) :
  0 <= nth i (StockDashboard.gain_terms delta) 0.
Proof.
  rewrite gain_terms_nth. destruct (nth i delta None) as [x|]; [|lra].
  destruct (Qle_bool x 0) eqn:E; [lra|].
  apply Qle_bool_false_inv in E. lra.
Qed.

Lemma loss_term_nonneg (delta : list (option Q)) (i : nat) :
  0 <= nth i (StockDashboard.loss_terms delta) 0.
Proof.
  rewrite loss_terms_nth.
  destruct (nth i delta None) as [x|]; [|discriminate].
  destruct (Qle_bool 0 x) eqn:E; [discriminate|].
  apply Qle_bool_false_inv in E. lra.
Qed.

Lemma calculate_rsi_length (data : Pandas.frame) (window : nat) :
  length (StockDashboard.calculate_rsi data window) = length data.
Proof.
  unfold StockDashboard.calculate_rsi, Pandas.rolling_mean.
  destruct (terms_length (Pandas.diff (map Pandas.Close data))) as [-> ->].
  rewrite combine_map, !length_map, length_seq, diff_length.
  apply length_map.
Qed.

Lemma rsi_warm_up (data : Pandas.frame) (window t : nat) :
  (t < length data)%nat ->
  window = 0%nat \/ (t + 1 < window)%nat ->
  nth t (StockDashboard.calculate_rsi data window) Pandas.NaN = Pandas.NaN.
Proof.
  intros Ht Hw. rewrite calculate_rsi_nth by exact Ht. cbv zeta.
  unfold Pandas.rolling_mean_at.
  destruct Hw as [-> | Hw]; [reflexivity|].
  destruct (window =? 0)%nat; [reflexivity|].
  now replace (t + 1 <? window)%nat with true
    by (symmetry; apply Nat.ltb_lt; exact Hw).
Qed.

Section RsiComplete.

Variable data : Pandas.frame.
Variables window t : nat.

Hypothesis window_positive : (1 <= window)%nat.
Hypothesis window_full : (window <= t + 1)%nat.
Hypothesis t_in_range : (t < length data)%nat.

Let closes := map Pandas.Close data.
Let delta := Pandas.diff closes.
Let mean_gain :=
  Py.sum (Pandas.window_at window (StockDashboard.gain_terms delta) t)
  / inject_Z (Z.of_nat window).
Let mean_loss :=
  Py.sum (Pandas.window_at window (StockDashboard.loss_terms delta) t)
  / inject_Z (Z.of_nat window).

Lemma rsi_complete :
  nth t (StockDashboard.calculate_rsi data window) Pandas.NaN
  = StockDashboard.rsi_of (Some mean_gain) (Some mean_loss).
Proof.
  rewrite calculate_rsi_nth by assumption. cbv zeta.
  destruct (rolling_gain_loss data window t window_positive window_full)
    as [-> ->].
  reflexivity.
Qed.

Lemma mean_gain_nonneg : 0 <= mean_gain.
Proof.
  unfold mean_gain.
  apply Qle_shift_div_l; [now apply window_size_positive|].
  rewrite Qmult_0_l. apply sum_nonneg. intros x Hx.
  destruct (gain_window_In data window t window_full t_in_range x Hx)
    as (i & _ & _ & ->).
  apply gain_term_nonneg.
Qed.

Lemma mean_loss_nonneg : 0 <= mean_loss.
Proof.
  unfold mean_loss.
  apply Qle_shift_div_l; [now apply window_size_positive|].
  rewrite Qmult_0_l. apply sum_nonneg. intros x Hx.
  destruct (loss_window_In data window t window_full t_in_range x Hx)
    as (i & _ & _ & ->).
  apply loss_term_nonneg.
Qed.

Lemma rsi_complete_cases :
  (nth t (StockDashboard.calculate_rsi data window) Pandas.NaN = Pandas.NaN
   /\ mean_gain == 0 /\ mean_loss == 0)
  \/ (exists q,
        nth t (StockDashboard.calculate_rsi data window) Pandas.NaN
        = Pandas.Fin q
        /\ 0 <= q /\ q <= 100 /\ ~ (mean_gain == 0 /\ mean_loss == 0)).
Proof.
  rewrite rsi_complete.
  apply rsi_of_nonneg; [apply mean_gain_nonneg | apply mean_loss_nonneg].
Qed.

End RsiComplete.

(** X15.  The RSI series has one entry per row, and every entry is
    either undefined (NaN) or a number between 0 and 100; it is never
    infinite. *)
Theorem rsi_between_0_and_100
    (data : Pandas.frame) (window t : nat) :
  length (StockDashboard.calculate_rsi data window) = length data
  /\ (nth t (StockDashboard.calculate_rsi data window) Pandas.NaN
      = Pandas.NaN
      \/ exists q,
           nth t (StockDashboard.calculate_rsi data window) Pandas.NaN
           = Pandas.Fin q
           /\ 0 <= q /\ q <= 100).
Proof.
  split; [apply calculate_rsi_length|].
  destruct (Nat.lt_ge_cases t (length data)) as [Ht | Ht].
  - destruct (Nat.eq_dec window 0) as [Hw0 | Hw0];
      [left; apply rsi_warm_up; auto|].
    destruct (Nat.lt_ge_cases (t + 1) window) as [Hw | Hw];
      [left; apply rsi_warm_up; auto|].
    destruct (rsi_complete_cases data window t ltac:(lia) Hw Ht)
      as [(H & _) | (q & H & Hlo & Hhi & _)]; [now left|].
    right. now exists q.
  - left. apply nth_overflow. now rewrite calculate_rsi_length.
Qed.

Lemma sum_zero_all (xs : list Q) :
  (forall x, In x xs -> 0 <= x) -> Py.sum xs == 0 ->
  forall x, In x xs -> x == 0.
Proof.
  induction xs as [|y xs IH]; intros Hnn Hsum x Hx; [destruct Hx|].
  rewrite sum_cons in Hsum.
  assert (Hy : 0 <= y) by (apply Hnn; now left).
  assert (Hrest : 0 <= Py.sum xs)
    by (apply sum_nonneg; intros; apply Hnn; now right).
  destruct Hx as [<- | Hx]; [lra|].
  apply IH; [intros; apply Hnn; now right | lra | exact Hx].
Qed.

Lemma window_at_member (w : nat) (xs : list Q) (t i : nat) :
  (w <= t + 1)%nat -> (t < length xs)%nat ->
  (t + 1 - w <= i)%nat -> (i <= t)%nat ->
  In (nth i xs 0) (Pandas.window_at w xs t).
Proof.
  intros Hw Ht Hlo Hhi.
  replace (nth i xs 0)
    with (nth (i - (t + 1 - w)) (Pandas.window_at w xs t) 0).
  - apply nth_In. rewrite window_at_length by assumption. lia.
  - rewrite window_at_nth by lia. f_equal. lia.
Qed.

Lemma mean_zero_iff (total : Q) (w : nat) :
  (1 <= w)%nat ->
  (total / inject_Z (Z.of_nat w) == 0 <-> total == 0).
Proof.
  intros Hw. pose proof (window_size_positive w Hw) as HW. split.
  - intros H.
    assert (E : total == total / inject_Z (Z.of_nat w)
                         * inject_Z (Z.of_nat w)) by (field; lra).
    rewrite E, H. ring.
  - intros ->. field. lra.
Qed.

Lemma rsi_flat_window (data : Pandas.frame) (window t : nat) :
  let closes := map Pandas.Close data in
  (1 <= window)%nat -> (window <= t + 1)%nat -> (t < length data)%nat ->
  (forall i,
      (t + 1 - window <= i)%nat -> (i <= t)%nat -> (1 <= i)%nat ->
      nth i closes 0 == nth (i - 1) closes 0) ->
  nth t (StockDashboard.calculate_rsi data window) Pandas.NaN = Pandas.NaN.
Proof.
  intros closes H1 Hw Ht Hflat.
  set (delta := Pandas.diff closes).
  assert (Hlen_g : (t < length (StockDashboard.gain_terms delta))%nat).
  { rewrite (proj1 (terms_length delta)). unfold delta, closes.
    now rewrite diff_length, length_map. }
  assert (Hlen_l : (t < length (StockDashboard.loss_terms delta))%nat).
  { rewrite (proj2 (terms_length delta)). unfold delta, closes.
    now rewrite diff_length, length_map. }
  assert (Hdelta : forall i, (1 <= i)%nat -> (i <= t)%nat ->
            nth i delta None
            = Some (nth i closes 0 - nth (i - 1) closes 0)).
  { intros i Hi1 Hit. unfold delta. apply diff_nth; [exact Hi1|].
    unfold closes. rewrite length_map. lia. }
  pose proof (rsi_complete_cases data window t H1 Hw Ht) as Hcases.
  fold closes delta in Hcases.
  destruct Hcases as [(Hnan & _) | (q & _ & _ & _ & Hnz)];
    [exact Hnan|].
  exfalso. apply Hnz. split; apply mean_zero_iff; try exact H1;
    apply sum_all_zero; intros x Hx.
  - destruct (window_at_In _ _ _ x Hw Hlen_g Hx) as (i & Hlo & Hhi & ->).
    rewrite gain_terms_nth.
    destruct i as [|j].
    + unfold delta. destruct closes; reflexivity.
    + rewrite (Hdelta (S j)) by lia.
      specialize (Hflat (S j) Hlo Hhi ltac:(lia)).
      rewrite (Qle_bool_true _ 0) by lra. reflexivity.
  - destruct (window_at_In _ _ _ x Hw Hlen_l Hx) as (i & Hlo & Hhi & ->).
    rewrite loss_terms_nth.
    destruct i as [|j].
    + unfold delta. destruct closes; reflexivity.
    + rewrite (Hdelta (S j)) by lia.
      specialize (Hflat (S j) Hlo Hhi ltac:(lia)).
      rewrite (Qle_bool_true 0) by lra. reflexivity.
Qed.

(** X16.  At a row of the frame the RSI is undefined exactly when the
    window is not complete yet (fewer than [window] rows so far, or a
    window of 0) or when no price changed inside the window. *)
Theorem rsi_undefined_iff (data : Pandas.frame) (window t : nat) :
  let closes := map Pandas.Close data in
  (t < length data)%nat ->
  (nth t (StockDashboard.calculate_rsi data window) Pandas.NaN = Pandas.NaN
   <-> window = 0%nat
       \/ (t + 1 < window)%nat
       \/ (forall i,
             (t + 1 - window <= i)%nat -> (i <= t)%nat -> (1 <= i)%nat ->
             nth i closes 0 == nth (i - 1) closes 0)).
Proof.
  intros closes Ht.
  destruct (Nat.eq_dec window 0) as [Hw0 | Hw0].
  { split; [now left | intros _; apply rsi_warm_up; auto]. }
  destruct (Nat.lt_ge_cases (t + 1) window) as [Hw | Hw].
  { split; [now right; left | intros _; apply rsi_warm_up; auto]. }
  assert (H1 : (1 <= window)%nat) by lia.
  set (delta := Pandas.diff closes).
  assert (Hlen_g : (t < length (StockDashboard.gain_terms delta))%nat).
  { rewrite (proj1 (terms_length delta)). unfold delta, closes.
    now rewrite diff_length, length_map. }
  assert (Hlen_l : (t < length (StockDashboard.loss_terms delta))%nat).
  { rewrite (proj2 (terms_length delta)). unfold delta, closes.
    now rewrite diff_length, length_map. }
  assert (Hdelta : forall i, (1 <= i)%nat -> (i <= t)%nat ->
            nth i delta None
            = Some (nth i closes 0 - nth (i - 1) closes 0)).
  { intros i Hi1 Hit. unfold delta. apply diff_nth; [exact Hi1|].
    unfold closes. rewrite length_map. lia. }
  pose proof (rsi_complete_cases data window t H1 Hw Ht) as Hcases.
  fold closes delta in Hcases.
  split.
  - intros Hnan. right. right. intros i Hlo Hhi Hi1.
    destruct Hcases as [(_ & Hg & Hl) | (q & Hq & _)]; [|congruence].
    apply mean_zero_iff in Hg, Hl; try exact H1.
    assert (Hgi : nth i (StockDashboard.gain_terms delta) 0 == 0).
    { apply (sum_zero_all
               (Pandas.window_at window (StockDashboard.gain_terms delta) t));
        [|exact Hg | now apply window_at_member].
      intros x Hx.
      destruct (window_at_In _ _ _ x Hw Hlen_g Hx) as (j & _ & _ & ->).
      apply gain_term_nonneg. }
    assert (Hli : nth i (StockDashboard.loss_terms delta) 0 == 0).
    { apply (sum_zero_all
               (Pandas.window_at window (StockDashboard.loss_terms delta) t));
        [|exact Hl | now apply window_at_member].
      intros x Hx.
      destruct (window_at_In _ _ _ x Hw Hlen_l Hx) as (j & _ & _ & ->).
      apply loss_term_nonneg. }
    rewrite gain_terms_nth, (Hdelta i Hi1 Hhi) in Hgi.
    rewrite loss_terms_nth, (Hdelta i Hi1 Hhi) in Hli.
    destruct (Qle_bool (nth i closes 0 - nth (i - 1) closes 0) 0) eqn:E1;
      [apply Qle_bool_iff in E1 | lra].
    destruct (Qle_bool 0 (nth i closes 0 - nth (i - 1) closes 0)) eqn:E2;
      [apply Qle_bool_iff in E2 | lra].
    lra.
  - intros [Hz | [Hlt | Hflat]]; [lia | lia |].
    now apply rsi_flat_window.
Qed.

Lemma rsi_undefined_iff_witness :
  nth 2 (StockDashboard.calculate_rsi steady 2) Pandas.NaN = Pandas.NaN
  /\ nth 0 (StockDashboard.calculate_rsi rising 2) Pandas.NaN = Pandas.NaN
  /\ ~ (forall i,
          (2 + 1 - 2 <= i)%nat -> (i <= 2)%nat -> (1 <= i)%nat ->
          nth i (map Pandas.Close rising) 0
          == nth (i - 1) (map Pandas.Close rising) 0).
Proof.
  split; [|split].
  - apply (proj2 (rsi_undefined_iff steady 2 2 ltac:(simpl; lia))).
    right. right. intros i Hlo Hhi _.
    assert (Hi : i = 1%nat \/ i = 2%nat) by (simpl in Hlo; lia).
    destruct Hi as [-> | ->]; reflexivity.
  - apply (proj2 (rsi_undefined_iff rising 2 0 ltac:(simpl; lia))).
    right. left. lia.
  - intros Hflat.
    assert (Hdef : nth 2 (StockDashboard.calculate_rsi rising 2) Pandas.NaN
                   = Pandas.NaN).
    { apply (proj2 (rsi_undefined_iff rising 2 2 ltac:(simpl; lia))).
      right. right. exact Hflat. }
    discriminate Hdef.
Defined.

(** ** More on the Fibonacci levels *)

Lemma low_below_high (data : Pandas.frame) (high low : Q) :
  Pandas.series_max (map Pandas.High data) = Some high ->
  Pandas.series_min (map Pandas.Low data) = Some low ->
  (forall bar, In bar data -> Pandas.Low bar <= Pandas.High bar) ->
  low <= high.
Proof.
  intros Hmax Hmin Hbars.
  destruct data as [|bar rest]; [discriminate|].
  apply series_max_is_max in Hmax. apply series_min_is_min in Hmin.
  destruct Hmax as [_ Hmax]. destruct Hmin as [_ Hmin].
  apply Qle_trans with (Pandas.Low bar); [apply Hmin; now left|].
  apply Qle_trans with (Pandas.High bar); [apply Hbars; now left|].
  apply Hmax. now left.
Qed.

(** X17.  On a non-empty frame in which no bar has its low above its
    high, the six levels come out from the highest to the lowest: the
    first is the highest high, the last the lowest low, no level is
    above the one before it, and all lie between the two. *)
Theorem fibonacci_levels_descend (data : Pandas.frame) :
  data <> [] ->
  (forall bar, In bar data -> Pandas.Low bar <= Pandas.High bar) ->
  exists levels high low,
    StockDashboard.calculate_fibonacci_levels data = Some levels
    /\ Spec.is_max high (map Pandas.High data)
    /\ Spec.is_min low (map Pandas.Low data)
    /\ hd_error (map snd levels) = Some high
    /\ Py.last_item (map snd levels) = Some low
    /\ descending (map snd levels)
    /\ Forall (fun v => low <= v /\ v <= high) (map snd levels).
Proof.
  intros Hne Hbars.
  destruct (Pandas.series_max (map Pandas.High data)) as [high|] eqn:Hmax;
    [|destruct data; [contradiction | discriminate]].
  destruct (Pandas.series_min (map Pandas.Low data)) as [low|] eqn:Hmin;
    [|destruct data; [contradiction | discriminate]].
  pose proof (low_below_high data high low Hmax Hmin Hbars) as Hle.
  unfold StockDashboard.calculate_fibonacci_levels. rewrite Hmax, Hmin.
  eexists. exists high, low.
  split; [reflexivity|].
  split; [now apply series_max_is_max|].
  split; [now apply series_min_is_min|].
  split; [reflexivity|]. split; [reflexivity|].
  split.
  - simpl. repeat split; lra.
  - simpl. repeat constructor; lra.
Qed.

Lemma fibonacci_levels_descend_witness :
  exists levels high low,
    StockDashboard.calculate_fibonacci_levels three_sessions = Some levels
    /\ Spec.is_max high (map Pandas.High three_sessions)
    /\ Spec.is_min low (map Pandas.Low three_sessions)
    /\ hd_error (map snd levels) = Some high
    /\ Py.last_item (map snd levels) = Some low
    /\ descending (map snd levels)
    /\ Forall (fun v => low <= v /\ v <= high) (map snd levels).
Proof.
  apply (fibonacci_levels_descend three_sessions); [discriminate|].
  intros bar [<- | [<- | [<- | []]]]; discriminate.
Defined.

Lemma closest_level_is_least
    (levels : list (string * Q)) (price : Q) (best : string * Q) :
  StockDashboard.closest_level levels price = Some best ->
  In best levels
  /\ forall x, In x levels ->
       Qabs (snd best - price) <= Qabs (snd x - price).
Proof.
  destruct levels as [|first rest]; [discriminate|].
  intros [= <-].
  destruct (min_by_first_least
              (fun x : string * Q => Qabs (snd x - price)) first rest)
    as (before & after & Hsplit & Hbefore & Hafter).
  set (best := StockDashboard.min_by _ first rest) in *.
  split.
  - rewrite Hsplit. apply in_or_app. right. now left.
  - intros x Hx. rewrite Hsplit in Hx. apply in_app_or in Hx.
    destruct Hx as [Hx | [<- | Hx]].
    + apply Qlt_le_weak. now apply Hbefore.
    + apply Qle_refl.
    + now apply Hafter.
Qed.

(** X18.  For a price between the lowest low and the highest high of the
    frame, the nearest level is at most 19.1% of the range away (half of
    the widest gap, the one between the 61.8% and the 100% levels). *)
Theorem nearest_level_within_reach
    (data : Pandas.frame) (high low price : Q) :
  Pandas.series_max (map Pandas.High data) = Some high ->
  Pandas.series_min (map Pandas.Low data) = Some low ->
  low <= price -> price <= high ->
  exists levels best,
    StockDashboard.calculate_fibonacci_levels data = Some levels
    /\ StockDashboard.closest_level levels price = Some best
    /\ Qabs (snd best - price) <= (191 # 1000) * (high - low).
Proof.
  intros Hmax Hmin Hlo Hhi.
  unfold StockDashboard.calculate_fibonacci_levels. rewrite Hmax, Hmin.
  set (levels := [_; _; _; _; _; _]).
  destruct (StockDashboard.closest_level levels price) as [best|] eqn:Hbest;
    [|discriminate].
  exists levels, best. split; [reflexivity|]. split; [exact Hbest|].
  destruct (closest_level_is_least levels price best Hbest) as [_ Hmin_by].
  assert (Hnear : forall x,
            In x levels ->
            - ((191 # 1000) * (high - low)) <= snd x - price ->
            snd x - price <= (191 # 1000) * (high - low) ->
            Qabs (snd best - price) <= (191 # 1000) * (high - low)).
  { intros x Hx H1 H2.
    apply Qle_trans with (Qabs (snd x - price)); [now apply Hmin_by|].
    apply Qabs_Qle_condition. now split. }
  remember (high - low) as d eqn:Ed.
  assert (Ed' : d == high - low) by (rewrite Ed; reflexivity).
  clear Ed. assert (Hd : 0 <= d) by lra.
  destruct (Qlt_le_dec (high - price) ((118 # 1000) * d)).
  { apply (Hnear ("0% (High)"%string, high));
      [simpl; tauto | simpl; lra | simpl; lra]. }
  destruct (Qlt_le_dec (high - price) ((309 # 1000) * d)).
  { apply (Hnear ("23.6%"%string, high - (236 # 1000) * d));
      [simpl; tauto | simpl; lra | simpl; lra]. }
  destruct (Qlt_le_dec (high - price) ((441 # 1000) * d)).
  { apply (Hnear ("38.2%"%string, high - (382 # 1000) * d));
      [simpl; tauto | simpl; lra | simpl; lra]. }
  destruct (Qlt_le_dec (high - price) ((559 # 1000) * d)).
  { apply (Hnear ("50%"%string, high - (5 # 10) * d));
      [simpl; tauto | simpl; lra | simpl; lra]. }
  destruct (Qlt_le_dec (high - price) ((809 # 1000) * d)).
  { apply (Hnear ("61.8%"%string, high - (618 # 1000) * d));
      [simpl; tauto | simpl; lra | simpl; lra]. }
  apply (Hnear ("100% (Low)"%string, low));
    [simpl; tauto | simpl; lra | simpl; lra].
Qed.

Lemma nearest_level_within_reach_witness :
  exists levels best,
    StockDashboard.calculate_fibonacci_levels [sample_day] = Some levels
    /\ StockDashboard.closest_level levels 51 = Some best
    /\ Qabs (snd best - 51) <= (191 # 1000) * (100 - 0).
Proof.
  apply (nearest_level_within_reach [sample_day] 100 0 51);
    try reflexivity; discriminate.
Defined.

(** ** What the valuation tab shows *)

Lemma display_value_spec (value : option Q) (price : Q) :
  (StockDashboard.display_value value price
   = StockDashboard.ShowUndervalued
   <-> exists v, value = Some v /\ ~ v == 0 /\ price < v)
  /\ (StockDashboard.display_value value price
      = StockDashboard.ShowOvervalued
      <-> exists v, value = Some v /\ ~ v == 0 /\ v <= price)
  /\ (StockDashboard.display_value value price
      = StockDashboard.ShowNothing
      <-> value = None \/ exists v, value = Some v /\ v == 0).
Proof.
  unfold StockDashboard.display_value.
  destruct value as [v|].
  - destruct (Qeq_bool v 0) eqn:Ez.
    + apply Qeq_bool_iff in Ez. repeat split; try discriminate.
      * intros (v' & [= <-] & Hnz & _). contradiction.
      * intros (v' & [= <-] & Hnz & _). contradiction.
      * intros _. right. now exists v.
    + assert (Hnz : ~ v == 0).
      { intros H. apply Qeq_bool_iff in H. congruence. }
      destruct (Qle_bool v price) eqn:Ele; simpl.
      * apply Qle_bool_iff in Ele. repeat split; try discriminate.
        -- intros (v' & [= <-] & _ & Hlt). lra.
        -- intros _. now exists v.
        -- intros [H | (v' & [= <-] & Hz)]; [discriminate | contradiction].
      * apply Qle_bool_false_inv in Ele. repeat split; try discriminate.
        -- intros _. now exists v.
        -- intros (v' & [= <-] & _ & Hle). lra.
        -- intros [H | (v' & [= <-] & Hz)]; [discriminate | contradiction].
  - repeat split; try discriminate.
    + intros (v & H & _). discriminate.
    + intros (v & H & _). discriminate.
    + intros _. now left.
Qed.

(** X19.  The valuation tab shows "Undervalued" exactly when the DCF
    returned a value other than zero that is above the current price, and
    "Overvalued" exactly when it returned a value other than zero that is
    not above it (a value equal to the price counts as overvalued, where
    the standalone script says "Fairly Valued").  A value of exactly zero
    is treated like a failure: "Could not perform DCF". *)
Theorem dcf_display_cases
    (stock : StockDashboard.ticker_data) (g r tg price : Q) :
  let shown := StockDashboard.dcf_display stock g r tg price in
  (shown = StockDashboard.ShowUndervalued
   <-> exists v future tv,
         StockDashboard.perform_dcf_analysis stock g r tg
         = Value (v, future, tv)
         /\ ~ v == 0 /\ price < v)
  /\ (shown = StockDashboard.ShowOvervalued
      <-> exists v future tv,
            StockDashboard.perform_dcf_analysis stock g r tg
            = Value (v, future, tv)
            /\ ~ v == 0 /\ v <= price)
  /\ (shown = StockDashboard.ShowNothing
      <-> (exists e,
              StockDashboard.perform_dcf_analysis stock g r tg = Failed e)
          \/ exists v future tv,
               StockDashboard.perform_dcf_analysis stock g r tg
               = Value (v, future, tv)
               /\ v == 0)
  /\ (forall v,
         DiscountedCashFlow.main_verdict v price
         = DiscountedCashFlow.FairlyValued
         <-> v == price).
Proof.
  intros shown. unfold shown, StockDashboard.dcf_display. cbv zeta.
  assert (Hesc : StockDashboard.perform_dcf_analysis stock g r tg
                 <> Escaped).
  { unfold StockDashboard.perform_dcf_analysis.
    destruct (Qle_bool r tg); [discriminate|].
    destruct (StockDashboard.get_free_cash_flow stock); [|discriminate].
    cbv zeta. destruct (Py.last_item _); [|discriminate].
    destruct (StockDashboard.info stock) as [|stock_info];
      [discriminate|].
    destruct (match Py.get (sharesOutstanding stock_info) (Py.PyNum 1) with
              | Py.PyNone => false
              | Py.PyNum shares => Qeq_bool shares 0
              end); [discriminate|].
    destruct (Py.get (totalDebt stock_info) (Py.PyNum 0));
      [discriminate|].
    destruct (Py.get (totalCash stock_info) (Py.PyNum 0));
      [discriminate|].
    destruct (Py.get (sharesOutstanding stock_info) (Py.PyNum 1));
      discriminate. }
  destruct (StockDashboard.perform_dcf_analysis stock g r tg)
    as [[[v future] tv]|e|]; [| |contradiction].
  - destruct (display_value_spec (Some v) price) as (Hu & Ho & Hn).
    split; [|split; [|split]].
    + rewrite Hu. split.
      * intros (v' & [= <-] & H). now exists v, future, tv.
      * intros (v' & f' & t' & [= <- _ _] & H). now exists v.
    + rewrite Ho. split.
      * intros (v' & [= <-] & H). now exists v, future, tv.
      * intros (v' & f' & t' & [= <- _ _] & H). now exists v.
    + rewrite Hn. split.
      * intros [H | (v' & [= <-] & H)]; [discriminate|].
        right. now exists v, future, tv.
      * intros [(e & H) | (v' & f' & t' & [= <- _ _] & H)];
          [discriminate|].
        right. now exists v.
    + intros w. unfold DiscountedCashFlow.main_verdict.
      destruct (Qle_bool w price) eqn:E1; simpl.
      * apply Qle_bool_iff in E1.
        destruct (Qle_bool price w) eqn:E2; simpl.
        -- apply Qle_bool_iff in E2. split; [intros _; lra | reflexivity].
        -- apply Qle_bool_false_inv in E2.
           split; [discriminate | intros H; lra].
      * apply Qle_bool_false_inv in E1.
        split; [discriminate | intros H; lra].
  - destruct (display_value_spec None price) as (Hu & Ho & Hn).
    split; [|split; [|split]].
    + rewrite Hu. split.
      * intros (v' & H & _). discriminate.
      * intros (v' & f' & t' & H & _). discriminate.
    + rewrite Ho. split.
      * intros (v' & H & _). discriminate.
      * intros (v' & f' & t' & H & _). discriminate.
    + rewrite Hn. split; [intros _; left; now exists e | intros _; now left].
    + intros w. unfold DiscountedCashFlow.main_verdict.
      destruct (Qle_bool w price) eqn:E1; simpl.
      * apply Qle_bool_iff in E1.
        destruct (Qle_bool price w) eqn:E2; simpl.
        -- apply Qle_bool_iff in E2. split; [intros _; lra | reflexivity].
        -- apply Qle_bool_false_inv in E2.
           split; [discriminate | intros H; lra].
      * apply Qle_bool_false_inv in E1.
        split; [discriminate | intros H; lra].
Qed.

Lemma dcf_display_cases_witness :
  StockDashboard.dcf_display idle_stock (1 # 10) (1 # 10) (1 # 20) 10
  = StockDashboard.ShowNothing
  /\ StockDashboard.dcf_display sample_dashboard_stock
       (1 # 10) (1 # 10) (1 # 20) 10
     = StockDashboard.ShowUndervalued.
Proof.
  split.
  - apply (proj1 (proj2 (proj2 (dcf_display_cases idle_stock
                                  (1 # 10) (1 # 10) (1 # 20) 10)))).
    right. do 3 eexists. split; [reflexivity|]. reflexivity.
  - apply (proj1 (dcf_display_cases sample_dashboard_stock
                    (1 # 10) (1 # 10) (1 # 20) 10)).
    do 3 eexists. split; [reflexivity|]. split; [discriminate|].
    reflexivity.
Defined.

Lemma fibonacci_levels_exist (data : Pandas.frame) :
  data <> [] ->
  exists levels,
    StockDashboard.calculate_fibonacci_levels data = Some levels
    /\ levels <> [].
Proof.
  intros Hne. unfold StockDashboard.calculate_fibonacci_levels.
  destruct data as [|bar rest]; [contradiction|].
  simpl. eexists. split; [reflexivity | discriminate].
Qed.

(** ** The technicals tab *)

Lemma last_item_nth {A} (l : list A) (d : A) :
  l <> [] -> Py.last_item l = Some (nth (length l - 1) l d).
Proof.
  induction l as [|x l IH]; [contradiction|]. intros _.
  rewrite last_item_cons. destruct l as [|y l].
  - reflexivity.
  - rewrite IH by discriminate. simpl. now rewrite Nat.sub_0_r.
Qed.

Lemma last_rows_nonempty (n : nat) (hist : Pandas.frame) :
  (1 <= n)%nat -> hist <> [] -> StockDashboard.last_rows n hist <> [].
Proof.
  intros Hn Hne Hnil.
  apply (f_equal (@length _)) in Hnil.
  unfold StockDashboard.last_rows in Hnil.
  rewrite length_skipn in Hnil.
  assert (Hpos : length hist <> 0%nat)
    by (destruct hist; [contradiction | discriminate]).
  change (length (@nil Pandas.bar)) with 0%nat in Hnil. lia.
Qed.

Lemma technical_signals_defined (hist : Pandas.frame) (price : Q) :
  (200 <= length hist)%nat ->
  exists levels closest,
    StockDashboard.calculate_fibonacci_levels
      (StockDashboard.last_rows 252 hist) = Some levels
    /\ StockDashboard.closest_level levels price = Some closest
    /\ let closes := map Pandas.Close hist in
       let last := (length hist - 1)%nat in
       let current_sma_50 := Pandas.rolling_mean_at 50 closes last in
       let current_sma_200 := Pandas.rolling_mean_at 200 closes last in
       let current_rsi :=
         nth last (StockDashboard.calculate_rsi hist 14) Pandas.NaN in
       StockDashboard.technical_signals hist price
       = Some {| StockDashboard.moving_averages :=
                   if Pandas.gt current_sma_50 current_sma_200
                   then StockDashboard.GoldenCross
                   else if Pandas.lt current_sma_50 current_sma_200
                   then StockDashboard.DeathCross
                   else StockDashboard.MaNeutral;
                 StockDashboard.rsi :=
                   if Pandas.xlt current_rsi 30
                   then StockDashboard.Oversold
                   else if Pandas.xgt current_rsi 70
                   then StockDashboard.Overbought
                   else StockDashboard.RsiNeutral;
                 StockDashboard.nearest_level := closest;
                 StockDashboard.trading_above :=
                   negb (Qle_bool price (snd closest)) |}.
Proof.
  intros Hlen.
  assert (Hne : hist <> [])
    by (destruct hist; [simpl in Hlen; lia | discriminate]).
  pose proof (last_rows_nonempty 252 hist ltac:(lia) Hne) as Hrows.
  destruct (fibonacci_levels_exist (StockDashboard.last_rows 252 hist)
              Hrows)
    as (levels & Hlevels & Hnonempty).
  destruct levels as [|first rest]; [contradiction|].
  exists (first :: rest). eexists.
  split; [exact Hlevels|]. split; [reflexivity|]. cbv zeta.
  unfold StockDashboard.technical_signals.
  replace (length hist <? 200)%nat with false
    by (symmetry; apply Nat.ltb_ge; exact Hlen).
  cbv zeta. unfold Pandas.rolling_mean. rewrite length_map.
  destruct (length hist) as [|n] eqn:En; [lia|].
  rewrite !last_item_map_seq.
  rewrite (last_item_nth (StockDashboard.calculate_rsi hist 14) Pandas.NaN).
  2:{ intros Hnil. apply (f_equal (@length _)) in Hnil.
      rewrite calculate_rsi_length in Hnil. simpl in Hnil. lia. }
  rewrite calculate_rsi_length, En, Hlevels.
  replace (S n - 1)%nat with n by lia.
  reflexivity.
Qed.

(** X20.  The technicals tab and the scanner agree on a frame: with fewer
    than 200 rows the tab shows only its warning and the detector gives
    no signal; with 200 rows or more the tab shows "GOLDEN CROSS
    (Bullish)" exactly when the detector's bullish flag is true, and
    "DEATH CROSS (Bearish)" or "Neutral" exactly when it is false.  Both
    compare the same two rolling means of the closes on the last row. *)
Theorem technicals_agree_with_scanner
    (hist : Pandas.frame) (price : Q) :
  ((length hist < 200)%nat ->
   StockDashboard.technical_signals hist price = None
   /\ Sp500Scanner.calculate_golden_cross (Some hist) 50 200
      = (None, None))
  /\ ((200 <= length hist)%nat ->
      exists shown,
        StockDashboard.technical_signals hist price = Some shown
        /\ (StockDashboard.moving_averages shown
            = StockDashboard.GoldenCross
            <-> snd (Sp500Scanner.calculate_golden_cross (Some hist)
                       50 200) = Some true)
        /\ (StockDashboard.moving_averages shown
            = StockDashboard.DeathCross
            \/ StockDashboard.moving_averages shown
               = StockDashboard.MaNeutral
            <-> snd (Sp500Scanner.calculate_golden_cross (Some hist)
                       50 200) = Some false)).
Proof.
  split.
  - intros Hshort. split.
    + unfold StockDashboard.technical_signals.
      now replace (length hist <? 200)%nat with true
        by (symmetry; apply Nat.ltb_lt; exact Hshort).
    + apply golden_cross_short_frame. right. now exists hist.
  - intros Hlen.
    destruct (technical_signals_defined hist price Hlen)
      as (levels & closest & _ & _ & Hrun).
    cbv zeta in Hrun. eexists. split; [exact Hrun|].
    rewrite golden_cross_is_bullish by lia.
    simpl StockDashboard.moving_averages.
    destruct (Pandas.gt _ _).
    + split; split; try reflexivity; try discriminate.
      intros [H | H]; discriminate.
    + destruct (Pandas.lt _ _);
        (split; split; try discriminate; try reflexivity; auto).
Qed.

Lemma technicals_agree_with_scanner_witness :
  (StockDashboard.technical_signals three_sessions 3 = None
   /\ Sp500Scanner.calculate_golden_cross (Some three_sessions) 50 200
      = (None, None))
  /\ exists shown,
       StockDashboard.technical_signals rally (2 # 1) = Some shown
       /\ (StockDashboard.moving_averages shown
           = StockDashboard.GoldenCross
           <-> snd (Sp500Scanner.calculate_golden_cross (Some rally)
                      50 200) = Some true)
       /\ (StockDashboard.moving_averages shown
           = StockDashboard.DeathCross
           \/ StockDashboard.moving_averages shown
              = StockDashboard.MaNeutral
           <-> snd (Sp500Scanner.calculate_golden_cross (Some rally)
                      50 200) = Some false).
Proof.
  split.
  - apply (proj1 (technicals_agree_with_scanner three_sessions 3)).
    simpl. lia.
  - apply (proj2 (technicals_agree_with_scanner rally (2 # 1))).
    apply Nat.leb_le. vm_compute. reflexivity.
Defined.

Lemma xeq_fin_inv (a : Pandas.xnum) (q : Q) :
  Pandas.xeq a (Pandas.Fin q) -> exists x, a = Pandas.Fin x /\ x == q.
Proof.
  destruct a as [x| |]; simpl; [|contradiction..].
  intros H. now exists x.
Qed.

(** X21.  On a frame of 200 rows or more the RSI signal of the technicals
    tab is "OVERBOUGHT (Sell)" when each of the last 14 price changes is
    positive, "OVERSOLD (Buy)" when each is negative, and "Neutral" when
    the price did not change over the last 14 rows, where the RSI is
    undefined. *)
Theorem technicals_rsi_signal (hist : Pandas.frame) (price : Q) :
  let closes := map Pandas.Close hist in
  let last := (length hist - 1)%nat in
  (200 <= length hist)%nat ->
  exists shown,
    StockDashboard.technical_signals hist price = Some shown
    /\ ((forall i, (last + 1 - 14 <= i)%nat -> (i <= last)%nat ->
                   nth (i - 1) closes 0 < nth i closes 0) ->
        StockDashboard.rsi shown = StockDashboard.Overbought)
    /\ ((forall i, (last + 1 - 14 <= i)%nat -> (i <= last)%nat ->
                   nth i closes 0 < nth (i - 1) closes 0) ->
        StockDashboard.rsi shown = StockDashboard.Oversold)
    /\ ((forall i, (last + 1 - 14 <= i)%nat -> (i <= last)%nat ->
                   nth i closes 0 == nth (i - 1) closes 0) ->
        StockDashboard.rsi shown = StockDashboard.RsiNeutral).
Proof.
  intros closes last Hlen.
  destruct (technical_signals_defined hist price Hlen)
    as (levels & closest & _ & _ & Hrun).
  cbv zeta in Hrun. fold last in Hrun.
  eexists. split; [exact Hrun|].
  simpl StockDashboard.rsi.
  assert (H1 : (1 <= last)%nat) by (unfold last; lia).
  assert (Hw : (14 <= last + 1)%nat) by (unfold last; lia).
  assert (Ht : (last < length hist)%nat) by (unfold last; lia).
  split; [|split].
  - intros Hup.
    destruct (xeq_fin_inv _ _
                (rsi_all_gains hist 14 last ltac:(lia) Hw Ht H1
                   (fun i Hlo Hhi _ => Hup i Hlo Hhi)))
      as (x & -> & Hx).
    simpl. rewrite (Qle_bool_true 30 x) by lra.
    rewrite (Qle_bool_false x 70) by lra. reflexivity.
  - intros Hdown.
    destruct (xeq_fin_inv _ _
                (rsi_all_losses hist 14 last ltac:(lia) Hw Ht H1
                   (fun i Hlo Hhi _ => Hdown i Hlo Hhi)))
      as (x & -> & Hx).
    simpl. rewrite (Qle_bool_false 30 x) by lra. reflexivity.
  - intros Hflat.
    rewrite (rsi_flat_window hist 14 last ltac:(lia) Hw Ht
               (fun i Hlo Hhi _ => Hflat i Hlo Hhi)).
    reflexivity.
Qed.

Lemma climb_close (i : nat) :
  (i < 200)%nat ->
  nth i (map Pandas.Close climb) 0 = inject_Z (Z.of_nat i).
Proof.
  intros Hi. unfold climb. rewrite map_map. simpl Pandas.Close.
  now rewrite nth_map_seq.
Qed.

Lemma technicals_rsi_signal_witness :
  exists shown,
    StockDashboard.technical_signals climb 100 = Some shown
    /\ StockDashboard.rsi shown = StockDashboard.Overbought.
Proof.
  assert (Hlen : length climb = 200%nat) by reflexivity.
  destruct (technicals_rsi_signal climb 100
              ltac:(rewrite Hlen; apply Nat.le_refl))
    as (shown & Hrun & Hup & _).
  exists shown. split; [exact Hrun|]. apply Hup.
  rewrite Hlen. intros i Hlo Hhi.
  assert (Hi : (1 <= i < 200)%nat) by (simpl in Hlo, Hhi; lia).
  rewrite !climb_close by lia.
  rewrite <- Zlt_Qlt. lia.
Defined.

(** ** The Gemini analysis *)

(** X22.  For any ticker other than "GOOGL", "AAPL" and "MSFT" (the
    comparison is case-sensitive) [analyze_stock_with_gemini] sends
    nothing to the model and returns the "Could not retrieve sufficient
    news" message.  For those three it sends exactly one prompt and
    returns the model's text when there is one, a message naming the
    ticker when the response is empty, and a message with the error when
    the call raised. *)
Theorem gemini_analysis_cases
    (generate_content : string -> Gemi.response) (ticker : string) :
  (ticker <> "GOOGL"%string -> ticker <> "AAPL"%string ->
   ticker <> "MSFT"%string ->
   Gemi.analyze_stock_with_gemini generate_content ticker
   = ([], ("Could not retrieve sufficient news for " ++ ticker
           ++ " to perform analysis.")%string))
  /\ (ticker = "GOOGL"%string \/ ticker = "AAPL"%string
      \/ ticker = "MSFT"%string ->
      exists sent,
        fst (Gemi.analyze_stock_with_gemini generate_content ticker)
        = [sent]
        /\ sent = Gemi.prompt ticker
                    (Gemi.join_lines (Gemi.get_stock_news ticker))
        /\ length (Gemi.get_stock_news ticker) = 4%nat
        /\ snd (Gemi.analyze_stock_with_gemini generate_content ticker)
           = match generate_content sent with
             | Gemi.Text EmptyString | Gemi.EmptyResponse =>
                 ("Gemini returned an empty response for " ++ ticker
                  ++ " analysis.")%string
             | Gemi.Text text => text
             | Gemi.ApiError message =>
                 ("An error occurred while calling the Gemini API for "
                  ++ ticker ++ ": " ++ message)%string
             end).
Proof.
  split.
  - intros H1 H2 H3.
    unfold Gemi.analyze_stock_with_gemini, Gemi.get_stock_news.
    apply String.eqb_neq in H1, H2, H3. rewrite H1, H2, H3.
    reflexivity.
  - intros [-> | [-> | ->]]; eexists; repeat split; reflexivity.
Qed.

Lemma gemini_analysis_cases_witness :
  Gemi.analyze_stock_with_gemini (fun _ => Gemi.Text "fine") "AMZN"
  = ([], "Could not retrieve sufficient news for AMZN to perform analysis."%string)
  /\ Gemi.analyze_stock_with_gemini (fun _ => Gemi.Text "fine") "googl"
     = ([], "Could not retrieve sufficient news for googl to perform analysis."%string)
  /\ exists sent,
       fst (Gemi.analyze_stock_with_gemini
              (fun _ => Gemi.ApiError "quota") "AAPL") = [sent]
       /\ snd (Gemi.analyze_stock_with_gemini
                 (fun _ => Gemi.ApiError "quota") "AAPL")
          = "An error occurred while calling the Gemini API for AAPL: quota"%string.
Proof.
  split; [|split].
  - apply (proj1 (gemini_analysis_cases (fun _ => Gemi.Text "fine")
                    "AMZN")); discriminate.
  - apply (proj1 (gemini_analysis_cases (fun _ => Gemi.Text "fine")
                    "googl")); discriminate.
  - destruct (proj2 (gemini_analysis_cases
                       (fun _ => Gemi.ApiError "quota") "AAPL")
                (or_intror (or_introl eq_refl)))
      as (sent & Hsent & _ & _ & Hres).
    exists sent. split; [exact Hsent | exact Hres].
Defined.

(** ** The earnings calendar sync *)

Lemma firstn_member {A} (n : nat) (l : list A) (x : A) :
  In x (firstn n l) -> In x l.
Proof.
  intros H. rewrite <- (firstn_skipn n l). apply in_or_app. now left.
Qed.

Section SyncFacts.

Variable calendar : Type.
Variable list_events :
  calendar -> string -> Z -> Z -> Py.fetched (list EarningsCalendarSync.event).
Variable insert_event :
  calendar -> EarningsCalendarSync.event -> calendar * bool.
Variable earnings_dates : string -> Py.fetched (list Z).
Variable now : string -> Z.
Variable event_time : Z -> Z.

Let sync_dates :=
  EarningsCalendarSync.sync_dates calendar list_events insert_event
    event_time.
Let sync_ticker :=
  EarningsCalendarSync.sync_ticker calendar list_events insert_event
    earnings_dates now event_time.

(** The events created for a list of dates: one per date at most, each
    for one of the dates, in the order of the dates. *)
Lemma sync_dates_created (ticker : string) (dates : list Z) :
  forall cal created,
    exists more,
      snd (sync_dates ticker dates cal created) = created ++ more
      /\ (length more <= length dates)%nat
      /\ forall ev, In ev more ->
           EarningsCalendarSync.summary ev
           = (ticker ++ " Earnings (Est.)")%string
           /\ exists d, In d dates
                        /\ EarningsCalendarSync.start ev = event_time d.
Proof.
  induction dates as [|d rest IH]; intros cal created.
  - exists []. rewrite app_nil_r.
    split; [reflexivity|]. split; [simpl; lia | intros ev []].
  - unfold sync_dates in *. simpl.
    destruct (list_events cal _ _ _) as [|[|e existing]].
    + exists []. rewrite app_nil_r.
      split; [reflexivity|]. split; [simpl; lia | intros ev []].
    + destruct (insert_event cal _) as [cal' [|]].
      * destruct (IH cal' (created ++
                   [{| EarningsCalendarSync.summary :=
                         (ticker ++ " Earnings (Est.)")%string;
                       EarningsCalendarSync.start := event_time d |}]))
          as (more & Hsnd & Hlen & Hev).
        eexists (_ :: more). rewrite Hsnd, <- app_assoc.
        split; [reflexivity|]. split; [simpl; lia|].
        intros ev [<- | Hin].
        -- split; [reflexivity|]. exists d. split; [now left | reflexivity].
        -- destruct (Hev ev Hin) as (Hs & d' & Hd' & Hst).
           split; [exact Hs|]. exists d'. split; [now right | exact Hst].
      * exists []. rewrite app_nil_r.
        split; [reflexivity|]. split; [simpl; lia | intros ev []].
    + destruct (IH cal created) as (more & Hsnd & Hlen & Hev).
      exists more. split; [exact Hsnd|]. split; [lia|].
      intros ev Hin. destruct (Hev ev Hin) as (Hs & d' & Hd' & Hst).
      split; [exact Hs|]. exists d'. split; [now right | exact Hst].
Qed.

Lemma sync_ticker_created (ticker : string) (cal : calendar) :
  (length (snd (sync_ticker ticker cal)) <= 4)%nat
  /\ (forall ev, In ev (snd (sync_ticker ticker cal)) ->
        EarningsCalendarSync.summary ev
        = (ticker ++ " Earnings (Est.)")%string
        /\ exists history d,
             earnings_dates ticker = Py.Fetched history
             /\ In d history /\ (now ticker < d)%Z
             /\ EarningsCalendarSync.start ev = event_time d)
  /\ (earnings_dates ticker = Py.Raised ->
      sync_ticker ticker cal = (cal, [])).
Proof.
  unfold sync_ticker, EarningsCalendarSync.sync_ticker.
  destruct (earnings_dates ticker) as [|history].
  { split; [simpl; lia|]. split; [intros ev []|reflexivity]. }
  cbv zeta.
  destruct (sync_dates_created ticker
              (firstn 4 (filter (fun d => (now ticker <? d)%Z) history))
              cal [])
    as (more & Hsnd & Hlen & Hev).
  unfold sync_dates in Hsnd. rewrite Hsnd. simpl app.
  split; [|split; [|discriminate]].
  - rewrite length_firstn in Hlen. lia.
  - intros ev Hin. destruct (Hev ev Hin) as (Hs & d & Hd & Hst).
    split; [exact Hs|]. exists history, d. split; [reflexivity|].
    apply firstn_member in Hd. apply filter_In in Hd. destruct Hd as [Hd Hfut].
    split; [exact Hd|]. split; [now apply Z.ltb_lt | exact Hst].
Qed.

End SyncFacts.

Section SyncAll.

Variable calendar : Type.
Variable list_events :
  calendar -> string -> Z -> Z -> Py.fetched (list EarningsCalendarSync.event).
Variable insert_event :
  calendar -> EarningsCalendarSync.event -> calendar * bool.
Variable earnings_dates : string -> Py.fetched (list Z).
Variable now : string -> Z.
Variable event_time : Z -> Z.

Let sync_ticker :=
  EarningsCalendarSync.sync_ticker calendar list_events insert_event
    earnings_dates now event_time.

(** An event created for [ticker]: its summary names the ticker and it
    starts at the event time of one of the ticker's future dates. *)
Let created_for (ticker : string) (ev : EarningsCalendarSync.event)
    : Prop :=
  EarningsCalendarSync.summary ev = (ticker ++ " Earnings (Est.)")%string
  /\ exists history d,
       earnings_dates ticker = Py.Fetched history
       /\ In d history /\ (now ticker < d)%Z
       /\ EarningsCalendarSync.start ev = event_time d.

Lemma sync_all_created (tickers : list string) :
  forall cal created,
    exists more,
      snd (fold_left
             (fun '(cal, created) ticker =>
                let '(cal', more) := sync_ticker ticker cal in
                (cal', created ++ more))
             tickers (cal, created))
      = created ++ more
      /\ (length more <= 4 * length tickers)%nat
      /\ forall ev, In ev more ->
           exists ticker, In ticker tickers /\ created_for ticker ev.
Proof.
  induction tickers as [|ticker rest IH]; intros cal created.
  - exists []. rewrite app_nil_r.
    split; [reflexivity|]. split; [simpl; lia | intros ev []].
  - simpl fold_left.
    destruct (sync_ticker_created calendar list_events insert_event
                earnings_dates now event_time ticker cal)
      as (Hlen & Hev & _).
    fold sync_ticker in Hlen, Hev.
    destruct (sync_ticker ticker cal) as [cal' first] eqn:Hrun.
    simpl in Hlen, Hev.
    destruct (IH cal' (created ++ first)) as (more & Hsnd & Hmore & Hin).
    exists (first ++ more). rewrite Hsnd, app_assoc.
    split; [reflexivity|]. split.
    + rewrite length_app. simpl length. lia.
    + intros ev Hev'. apply in_app_or in Hev'.
      destruct Hev' as [Hfirst | Hrest].
      * exists ticker. split; [now left | now apply Hev].
      * destruct (Hin ev Hrest) as (t & Ht & Hc).
        exists t. split; [now right | exact Hc].
Qed.

End SyncAll.

(** X23.  Whatever the calendar service and the provider do, one run of
    [sync_earnings_to_calendar] creates at most four events per ticker
    and 24 in all; every event created carries the summary of one of the
    six tickers and starts at the event time of an earnings date of that
    ticker that lies after the time the ticker was processed; and a
    ticker whose earnings dates cannot be fetched creates nothing and
    leaves the calendar as it was. *)
Theorem earnings_sync_bounds
    (calendar : Type)
    (list_events :
       calendar -> string -> Z -> Z
       -> Py.fetched (list EarningsCalendarSync.event))
    (insert_event :
       calendar -> EarningsCalendarSync.event -> calendar * bool)
    (earnings_dates : string -> Py.fetched (list Z))
    (now : string -> Z) (event_time : Z -> Z) (cal : calendar) :
  let sync_ticker :=
    EarningsCalendarSync.sync_ticker calendar list_events insert_event
      earnings_dates now event_time in
  let created :=
    snd (EarningsCalendarSync.sync_earnings_to_calendar calendar
           list_events insert_event earnings_dates now event_time cal) in
  (forall ticker,
      (length (snd (sync_ticker ticker cal)) <= 4)%nat
      /\ (earnings_dates ticker = Py.Raised ->
          sync_ticker ticker cal = (cal, [])))
  /\ (length created <= 24)%nat
  /\ forall ev, In ev created ->
       exists ticker history d,
         In ticker EarningsCalendarSync.TICKERS
         /\ EarningsCalendarSync.summary ev
            = (ticker ++ " Earnings (Est.)")%string
         /\ earnings_dates ticker = Py.Fetched history
         /\ In d history /\ (now ticker < d)%Z
         /\ EarningsCalendarSync.start ev = event_time d.
Proof.
  intros sync_ticker created. split.
  - intros ticker.
    destruct (sync_ticker_created calendar list_events insert_event
                earnings_dates now event_time ticker cal)
      as (Hlen & _ & Hraised).
    split; assumption.
  - destruct (sync_all_created calendar list_events insert_event
                earnings_dates now event_time
                EarningsCalendarSync.TICKERS cal [])
      as (more & Hsnd & Hlen & Hin).
    unfold created, EarningsCalendarSync.sync_earnings_to_calendar.
    rewrite Hsnd. simpl app. split; [simpl in Hlen; lia|].
    intros ev Hev. destruct (Hin ev Hev)
      as (ticker & Ht & Hs & history & d & H).
    exists ticker, history, d. split; [exact Ht|]. split; [exact Hs|].
    exact H.
Qed.

(** ** Sensitivity of the DCF value to growth and discount rate *)

Lemma div_lt_num (x y d : Q) : 0 < d -> x < y -> x / d < y / d.
Proof.
  intros Hd Hxy. unfold Qdiv.
  apply Qmult_lt_compat_r; [now apply Qinv_lt_0_compat | exact Hxy].
Qed.

Lemma div_le_den (x d1 d2 : Q) :
  0 <= x -> 0 < d1 -> d1 <= d2 -> x / d2 <= x / d1.
Proof.
  intros Hx Hd1 Hd. apply Qle_shift_div_r; [lra|].
  assert (E : x / d1 * d2 == x * (d2 / d1)) by (field; lra).
  rewrite E.
  assert (H1 : 1 <= d2 / d1) by (apply Qle_shift_div_l; lra).
  assert (H2 : x * 1 <= x * (d2 / d1)).
  { rewrite (Qmult_comm x 1), (Qmult_comm x (d2 / d1)).
    apply Qmult_le_compat_r; lra. }
  lra.
Qed.

Lemma div_lt_den (x d1 d2 : Q) :
  0 < x -> 0 < d1 -> d1 < d2 -> x / d2 < x / d1.
Proof.
  intros Hx Hd1 Hd. apply Qlt_shift_div_r; [lra|].
  assert (E : x / d1 * d2 == x * (d2 / d1)) by (field; lra).
  rewrite E.
  assert (H1 : 1 < d2 / d1) by (apply Qlt_shift_div_l; lra).
  assert (H2 : x * 1 < x * (d2 / d1)) by (apply Qmult_lt_l; lra).
  lra.
Qed.

Lemma pow_le_mono (a b : Q) (n : nat) :
  0 < a -> a <= b -> Py.pow a n <= Py.pow b n.
Proof.
  intros Ha Hab. induction n as [|n IH]; [rewrite !pow_0; lra|].
  rewrite !pow_S.
  pose proof (pow_pos a n Ha) as Hp.
  apply Qle_trans with (a * Py.pow b n).
  - apply Qmult_le_l; assumption.
  - apply Qmult_le_compat_r; lra.
Qed.

Lemma pow_lt_mono (a b : Q) (n : nat) :
  0 < a -> a < b -> Py.pow a (S n) < Py.pow b (S n).
Proof.
  intros Ha Hab. rewrite !pow_S.
  pose proof (pow_pos a n Ha) as Hp.
  pose proof (pow_le_mono a b n Ha (Qlt_le_weak _ _ Hab)) as Hle.
  apply Qle_lt_trans with (a * Py.pow b n).
  - apply Qmult_le_l; assumption.
  - apply Qmult_lt_compat_r; lra.
Qed.

Lemma sum_upto_lt (f h : nat -> Q) (n : nat) :
  (forall i, (i < S n)%nat -> f i < h i) ->
  Spec.sum_upto (S n) f < Spec.sum_upto (S n) h.
Proof.
  induction n as [|n IH]; intros H.
  - simpl. specialize (H 0%nat ltac:(lia)). lra.
  - change (Spec.sum_upto (S n) f + f (S n)
            < Spec.sum_upto (S n) h + h (S n)).
    assert (Hn := H (S n) ltac:(lia)).
    assert (Hrest : Spec.sum_upto (S n) f < Spec.sum_upto (S n) h)
      by (apply IH; intros i Hi; apply H; lia).
    lra.
Qed.

Lemma fcf_increasing_in_growth (c g1 g2 : Q) (i : nat) :
  0 < c -> 0 < 1 + g1 -> g1 < g2 -> Spec.fcf c g1 i < Spec.fcf c g2 i.
Proof.
  intros Hc Hg H12. unfold Spec.fcf.
  replace (i + 1)%nat with (S i) by lia.
  apply Qmult_lt_l; [exact Hc|]. apply pow_lt_mono; lra.
Qed.

Lemma intrinsic_value_increasing_in_growth
    (c g1 g2 r tg cash debt shares : Q) (n : nat) :
  0 < c -> 0 < 1 + g1 -> g1 < g2 -> 0 < 1 + tg -> tg < r -> 0 < shares ->
  Spec.intrinsic_value c g1 r tg (S n) cash debt shares
  < Spec.intrinsic_value c g2 r tg (S n) cash debt shares.
Proof.
  intros Hc Hg H12 Htg Hr Hs.
  assert (Hr1 : 0 < 1 + r) by lra.
  unfold Spec.intrinsic_value. apply div_lt_num; [exact Hs|].
  unfold Spec.enterprise_value.
  assert (Hsum : Spec.sum_upto (S n) (Spec.pv c g1 r)
                 < Spec.sum_upto (S n) (Spec.pv c g2 r)).
  { apply sum_upto_lt. intros i _. unfold Spec.pv.
    apply div_lt_num; [now apply pow_pos|].
    now apply fcf_increasing_in_growth. }
  assert (Htv : Spec.terminal_value c g1 r tg (S n) / Py.pow (1 + r) (S n)
                < Spec.terminal_value c g2 r tg (S n)
                  / Py.pow (1 + r) (S n)).
  { apply div_lt_num; [now apply pow_pos|].
    unfold Spec.terminal_value. apply div_lt_num; [lra|].
    apply Qmult_lt_compat_r; [exact Htg|].
    now apply fcf_increasing_in_growth. }
  lra.
Qed.

Lemma intrinsic_value_decreasing_in_discount
    (c g r1 r2 tg cash debt shares : Q) (n : nat) :
  0 < c -> 0 < 1 + g -> 0 < 1 + tg -> tg < r1 -> r1 < r2 -> 0 < shares ->
  Spec.intrinsic_value c g r2 tg (S n) cash debt shares
  < Spec.intrinsic_value c g r1 tg (S n) cash debt shares.
Proof.
  intros Hc Hg Htg Hr1 H12 Hs.
  unfold Spec.intrinsic_value. apply div_lt_num; [exact Hs|].
  unfold Spec.enterprise_value.
  assert (Hsum : Spec.sum_upto (S n) (Spec.pv c g r2)
                 < Spec.sum_upto (S n) (Spec.pv c g r1)).
  { apply sum_upto_lt. intros i _. unfold Spec.pv.
    replace (i + 1)%nat with (S i) by lia.
    apply div_lt_den.
    - now apply fcf_positive.
    - apply pow_pos. lra.
    - apply pow_lt_mono; lra. }
  pose proof (fcf_positive c g (S n - 1) Hc Hg) as HF.
  assert (Htv : Spec.terminal_value c g r2 tg (S n) / Py.pow (1 + r2) (S n)
                < Spec.terminal_value c g r1 tg (S n)
                  / Py.pow (1 + r1) (S n)).
  { unfold Spec.terminal_value.
    set (N := Spec.fcf c g (S n - 1) * (1 + tg)).
    assert (HN : 0 < N) by (apply Qmult_lt_0_compat; assumption).
    assert (H1 : N / (r2 - tg) < N / (r1 - tg))
      by (apply div_lt_den; lra).
    assert (H2 : 0 < N / (r2 - tg)).
    { apply Qlt_shift_div_l; lra. }
    apply Qle_lt_trans with (N / (r2 - tg) / Py.pow (1 + r1) (S n)).
    - apply div_le_den; [lra | apply pow_pos; lra |].
      apply pow_le_mono; lra.
    - apply div_lt_num; [apply pow_pos; lra | exact H1]. }
  lra.
Qed.

(** X24.  For a positive current free cash flow, a short-term growth rate
    and a terminal growth rate above -100%, a discount rate above the
    terminal growth rate, a positive share count and at least one
    projected year, the value returned by [calculate_dcf_value] gets
    strictly larger when the short-term growth rate is raised and
    strictly smaller when the discount rate is raised. *)
Theorem dcf_sensitivity
    (stock : DiscountedCashFlow.ticker_data) (years : nat)
    (g r tg current_fcf : Q) (stock_info : info_dict)
    (cash debt shares : Q) :
  DiscountedCashFlow.get_free_cash_flow stock = Some current_fcf ->
  (1 <= years)%nat ->
  DiscountedCashFlow.info stock = Py.Fetched stock_info ->
  Py.get (totalCash stock_info) (Py.PyNum 0) = Py.PyNum cash ->
  Py.get (totalDebt stock_info) (Py.PyNum 0) = Py.PyNum debt ->
  sharesOutstanding stock_info = Py.Present (Py.PyNum shares) ->
  0 < current_fcf -> 0 < 1 + g -> 0 < 1 + tg -> tg < r -> 0 < shares ->
  exists out v,
    DiscountedCashFlow.calculate_dcf_value stock years g r tg
    = (out, Value v)
    /\ (forall g', g < g' ->
          exists out' v',
            DiscountedCashFlow.calculate_dcf_value stock years g' r tg
            = (out', Value v')
            /\ v < v')
    /\ (forall r', r < r' ->
          exists out' v',
            DiscountedCashFlow.calculate_dcf_value stock years g r' tg
            = (out', Value v')
            /\ v' < v).
Proof.
  intros Hfcf Hyears Hinfo Hcash Hdebt Hshares Hc Hg Htg Hr Hs.
  destruct years as [|n]; [lia|].
  apply (f_equal (fun e => Py.get e Py.PyNone)) in Hshares.
  assert (Hnz : ~ shares == 0) by lra.
  assert (Hrun : forall g0 r0, tg < r0 ->
            exists out0 v0,
              DiscountedCashFlow.calculate_dcf_value stock (S n) g0 r0 tg
              = (out0, Value v0)
              /\ v0 == Spec.intrinsic_value current_fcf g0 r0 tg (S n)
                         cash debt shares).
  { intros g0 r0 Hr0.
    destruct (calculate_dcf_value_ok stock n g0 r0 tg current_fcf
                stock_info cash debt shares Hfcf Hr0 Hinfo Hcash Hdebt
                Hshares Hnz)
      as (out0 & tev & v0 & Hrun0 & _ & Htev & Hv0).
    exists out0, v0. split; [exact Hrun0|].
    unfold Spec.intrinsic_value. now rewrite Hv0, Htev. }
  destruct (Hrun g r Hr) as (out & v & Hv & Ev).
  exists out, v. split; [exact Hv|]. split.
  - intros g' Hg'.
    destruct (Hrun g' r Hr) as (out' & v' & Hv' & Ev').
    exists out', v'. split; [exact Hv'|]. rewrite Ev, Ev'.
    now apply intrinsic_value_increasing_in_growth.
  - intros r' Hr'.
    destruct (Hrun g r' ltac:(lra)) as (out' & v' & Hv' & Ev').
    exists out', v'. split; [exact Hv'|]. rewrite Ev, Ev'.
    now apply intrinsic_value_decreasing_in_discount.
Qed.

Lemma dcf_sensitivity_witness :
  exists out v,
    DiscountedCashFlow.calculate_dcf_value sample_stock 2
      (1 # 10) (1 # 10) (1 # 20) = (out, Value v)
    /\ (forall g', 1 # 10 < g' ->
          exists out' v',
            DiscountedCashFlow.calculate_dcf_value sample_stock 2
              g' (1 # 10) (1 # 20) = (out', Value v')
            /\ v < v')
    /\ (forall r', 1 # 10 < r' ->
          exists out' v',
            DiscountedCashFlow.calculate_dcf_value sample_stock 2
              (1 # 10) r' (1 # 20) = (out', Value v')
            /\ v' < v).
Proof.
  apply (dcf_sensitivity sample_stock 2 (1 # 10) (1 # 10) (1 # 20) 100
           sample_info 10 0 4); try reflexivity. lia.
Defined.
